(** * MovieMate: recommendation scoring engine and catalog query layer

    A shallow embedding of [src/services/recommendationService.js],
    [src/services/movieApiService.js], the genre table, image addresses and
    request budget of [src/config/api.js] and the state updates of
    [src/App.jsx] and [src/components/StarRating.jsx], followed by the
    properties checked against them.

    Conventions of the embedding
    - JavaScript numbers that carry ratings, scores and frequencies are
      rationals ([Q]): sums, averages, [Math.min], [Math.abs] and comparisons
      are taken exactly, where floating point would round a quotient.  On the
      concrete inputs evaluated below every comparison the code makes has the
      same outcome in floating point (the operands are exact binary
      fractions, or far apart).
    - Counts ([limit], list lengths, counters) are natural numbers, integers
      that may be negative (years, ids, timestamps) are in [Z].
    - A property that may be absent is an [option]; JavaScript truthiness is
      written out where the source branches on it.
    - Strings are byte strings; [toLowerCase] maps the ASCII letters.
    - Object literals used as tables (the frequency objects of a profile)
      are finite maps.  The two agree on every key that is not a member of
      [Object.prototype]; for a genre, director or actor name that is one,
      the source computes with the inherited member (a text is stored, a
      weight is [NaN]), which the model does not follow.
    - Ambient state read by the code (the calendar year, today's date, the
      clock of the response cache, module-level caches) is an explicit
      argument or an explicit state. *)

From Stdlib Require Import ZArith QArith Qround Lqa String Ascii List Bool Lia DecimalString Sorted Permutation.
From stdpp Require Import gmap strings list.

Local Open Scope string_scope.
Local Open Scope Z_scope.

(* ===================================================================== *)
(** * Part I: the model                                                   *)
(* ===================================================================== *)

(** ** JavaScript primitives used by the services *)
Module Js.

(** [String.prototype.toLowerCase], on the ASCII letters. *)
Definition lowerAscii (c : ascii) : ascii :=
  let n := nat_of_ascii c in
  if ((65 <=? n)%nat && (n <=? 90)%nat)%bool then ascii_of_nat (n + 32) else c.

Fixpoint toLowerCase (s : string) : string :=
  match s with
  | EmptyString => EmptyString
  | String c r => String (lowerAscii c) (toLowerCase r)
  end.

(** The white space of [\s] and of [trim], ASCII part. *)
Definition isSpace (c : ascii) : bool :=
  let n := nat_of_ascii c in
  (((9 <=? n)%nat && (n <=? 13)%nat) || (n =? 32)%nat)%bool.

(** The word characters of [\w]: letters, digits and the underscore. *)
Definition isWord (c : ascii) : bool :=
  let n := nat_of_ascii c in
  (((48 <=? n)%nat && (n <=? 57)%nat) || ((65 <=? n)%nat && (n <=? 90)%nat)
   || ((97 <=? n)%nat && (n <=? 122)%nat) || (n =? 95)%nat)%bool.

Fixpoint trimStart (s : string) : string :=
  match s with
  | EmptyString => EmptyString
  | String c r => if isSpace c then trimStart r else s
  end.

Fixpoint trimEnd (s : string) : string :=
  match s with
  | EmptyString => EmptyString
  | String c r =>
      match trimEnd r with
      | EmptyString => if isSpace c then EmptyString else String c EmptyString
      | r' => String c r'
      end
  end.

Definition trim (s : string) : string := trimEnd (trimStart s).

(** [s.replace(/[^\w\s]/g, '')]. *)
Fixpoint stripNonWord (s : string) : string :=
  match s with
  | EmptyString => EmptyString
  | String c r =>
      if (isWord c || isSpace c)%bool then String c (stripNonWord r) else stripNonWord r
  end.

(** [s.startsWith(p)]. *)
Definition startsWith (s p : string) : bool := String.prefix p s.

(** [s.includes(p)]. *)
Fixpoint includes (s p : string) : bool :=
  (String.prefix p s ||
   match s with
   | EmptyString => false
   | String _ r => includes r p
   end)%bool.

Definition dropChars (n : nat) (s : string) : string :=
  String.substring n (String.length s - n) s.

(** [s.replace(p, '')] for a [p] that [s] starts with. *)
Definition stripPrefix (p s : string) : string :=
  if String.prefix p s then dropChars (String.length p) s else s.

(** A value that is a number or a string: movie ids and watched entries. *)
Inductive Id :=
| Num (n : Z)
| Str (s : string).

#[global] Instance Id_eq_dec : EqDecision Id.
Proof. solve_decision. Defined.

(** Truthiness of a possibly absent id: [0], [''] and [undefined] are falsy. *)
Definition truthy (v : option Id) : bool :=
  match v with
  | Some (Num n) => negb (n =? 0)
  | Some (Str s) => negb (String.eqb s "")
  | None => false
  end.

(** Decimal rendering of an integer, as [String(n)] prints it. *)
Definition showZ (n : Z) : string := NilZero.string_of_int (Z.to_int n).

(** [String(v)]. *)
Definition toString (v : option Id) : string :=
  match v with
  | Some (Num n) => showZ n
  | Some (Str s) => s
  | None => "undefined"
  end.

(** [a || b] on possibly absent ids. *)
Definition orElse (a b : option Id) : option Id := if truthy a then a else b.

(** [Math.min], [Math.max] and [Math.abs] on rationals. *)
Definition min (a b : Q) : Q := if Qle_bool a b then a else b.
Definition max (a b : Q) : Q := if Qle_bool a b then b else a.
Definition abs (a : Q) : Q := if Qle_bool 0 a then a else Qopp a.

(** [x || d] for a number read from an object: absent and [0] give [d]. *)
Definition numOr (x : option Q) (d : Q) : Q :=
  match x with
  | Some q => if Qeq_bool q 0 then d else q
  | None => d
  end.

(** [new Set(l)]: the distinct elements in order of first insertion. *)
Definition setOfList (l : list string) : list string :=
  fold_left (fun acc x => if existsb (String.eqb x) acc then acc else (acc ++ [x])%list) l [].

(** [set.has(x)]. *)
Definition has (set : list string) (x : string) : bool := existsb (String.eqb x) set.

(** Truthiness of a possibly absent string. *)
Definition nonEmpty (s : option string) : bool :=
  match s with
  | Some s => negb (String.eqb s "")
  | None => false
  end.

End Js.

(** ** Movie records *)

(** A calendar date, as the ISO string [yyyy-mm-dd] of [release_date]. *)
Record IsoDate := mkDate { d_year : Z; d_month : Z; d_day : Z }.

(** A movie of the bundled local data set, before normalization. *)
Module LocalMovie.
Record t := mk {
  id : option Js.Id;
  title : option string;
  year : option Z;
  genre : option string;
  director : option string;
  cast : option (list string);
  imdb : option Q          (* [parseFloat(imdb)] of a truthy, numeric field *)
}.
End LocalMovie.

(** A movie in the format shared by both services (the result of
    [normalizeLocalToAPI] or [convertTMDBToMovieFormat]). *)
Module Movie.
Record t := mk {
  id : option Js.Id;
  tmdbId : option Js.Id;
  title : option string;
  year : option Z;                 (* [parseInt(year)] of a truthy, numeric field *)
  release_date : option IsoDate;
  genre : option string;
  genre_ids : option (list Z);     (* [None]: absent or not an array *)
  director : option string;
  cast : option (list string);     (* [None]: absent or not an array *)
  imdb : option Q;                 (* [parseFloat(imdb)] of a truthy, numeric field *)
  vote_average : option Q;         (* a truthy numeric [vote_average] *)
  original_language : option string;
  isLocal : bool;
  localData : option LocalMovie.t
}.
End Movie.

(** ** src/config/api.js *)
Module ApiConfig.

(** An entry of [GENRE_MAP]: one provider id, or the ids of a merged category. *)
Inductive GenreIds :=
| Single (g : Z)
| Merged (gs : list Z).

(** [GENRE_MAP[genre]]; the entry ["Tüm Filmler"] is [null] and unknown
    names are [undefined], both falsy. *)
Definition GENRE_MAP (genre : string) : option GenreIds :=
  if String.eqb genre "Bilim Kurgu" then Some (Merged [878; 14])
  else if String.eqb genre "Komedi" then Some (Single 35)
  else if String.eqb genre "Aksiyon/Macera" then Some (Merged [28; 12])
  else if String.eqb genre "Animasyon" then Some (Single 16)
  else if String.eqb genre "Suç" then Some (Single 80)
  else if String.eqb genre "Drama" then Some (Merged [18; 10749])
  else if String.eqb genre "Gizem" then Some (Merged [9648; 53])
  else if String.eqb genre "Belgesel" then Some (Single 99)
  else if String.eqb genre "Korku" then Some (Single 27)
  else None.

End ApiConfig.

(** ** src/services/recommendationService.js: preferences and scoring *)
Module Prefs.

(** The object returned by [extractUserPreferences].  The empty profile of
    the source omits [userAvgRating] and the three frequency objects; every
    reader defaults them ([|| null], [|| {}]), so they are [None] and the
    empty map here. *)
Record t := mk {
  genres : list string;
  directors : list string;
  actors : list string;
  minRating : Q;
  userAvgRating : option Q;
  genreFrequency : gmap string Q;
  directorFrequency : gmap string Q;
  actorFrequency : gmap string Q
}.

End Prefs.

Module Scoring.

(** [normalizeString(str)]. *)
Definition normalizeString (str : option string) : string :=
  if Js.nonEmpty str then
    match str with
    | Some s => Js.stripNonWord (Js.trim (Js.toLowerCase s))
    | None => ""
    end
  else "".

(** The precomputed profile: the three [Set]s in insertion order. *)
Record Precomputed := mkPre {
  genres : list string;
  directors : list string;
  actors : list string;
  minRating : Q;
  userAvgRating : option Q;
  genreFrequency : gmap string Q;
  directorFrequency : gmap string Q;
  actorFrequency : gmap string Q
}.

(** [precomputePreferences(preferences)]. *)
Definition precomputePreferences (p : Prefs.t) : Precomputed :=
  {| genres := Js.setOfList (map (fun g => normalizeString (Some g)) (Prefs.genres p));
     directors := Js.setOfList (map (fun d => normalizeString (Some d)) (Prefs.directors p));
     actors := Js.setOfList (map (fun a => normalizeString (Some a)) (Prefs.actors p));
     minRating := Prefs.minRating p;
     userAvgRating :=
       match Prefs.userAvgRating p with
       | Some q => if Qeq_bool q 0 then None else Some q
       | None => None
       end;
     genreFrequency := Prefs.genreFrequency p;
     directorFrequency := Prefs.directorFrequency p;
     actorFrequency := Prefs.actorFrequency p |}.

(** [genresMatch(movieGenre, precomputedGenres)]. *)
Definition genresMatch (movieGenre : option string) (precomputedGenres : list string) : bool :=
  if (negb (Js.nonEmpty movieGenre) || (length precomputedGenres =? 0)%nat)%bool then false
  else Js.has precomputedGenres (normalizeString movieGenre).

(** [directorMatches(movieDirector, precomputedDirectors)]. *)
Definition directorMatches (movieDirector : option string) (precomputedDirectors : list string) : bool :=
  if (negb (Js.nonEmpty movieDirector) || (length precomputedDirectors =? 0)%nat)%bool then false
  else Js.has precomputedDirectors (normalizeString movieDirector).

(** [actorMatches(movieCast, precomputedActors)]. *)
Definition actorMatches (movieCast : option (list string)) (precomputedActors : list string) : bool :=
  match movieCast with
  | None | Some [] => false
  | Some cast =>
      if (length precomputedActors =? 0)%nat then false
      else
        let normalizedCast := Js.setOfList (map (fun a => normalizeString (Some a)) cast) in
        existsb (fun actor => Js.has normalizedCast actor) precomputedActors
  end.

(** [getMovieRating(movie)]. *)
Definition getMovieRating (movie : Movie.t) : Q :=
  match Movie.imdb movie with
  | Some rating => rating
  | None =>
      match Movie.vote_average movie with
      | Some v => v
      | None => 0%Q
      end
  end.

Record Breakdown := mkBreakdown {
  genreHighScore : bool;
  genreMatch : bool;
  directorMatch : bool;
  actorMatch : bool;
  multipleMatches : bool
}.

Record Result := mkResult {
  score : Q;
  rating : Q;
  matchCount : nat;
  breakdown : Breakdown
}.

(** The actor whose frequency weights the actor bonus: the first profile
    actor (in [Set] order) found in the normalized cast, mapped back to the
    first cast member that normalizes to it. *)
Definition matchedActor (movie : Movie.t) (prefs : Precomputed) : option string :=
  let cast := default [] (Movie.cast movie) in
  let normalizedCast := Js.setOfList (map (fun a => normalizeString (Some a)) cast) in
  match find (fun actor => Js.has normalizedCast actor) (actors prefs) with
  | Some actor => find (fun a => String.eqb (normalizeString (Some a)) actor) cast
  | None => None
  end.

(** [obj?.[key] || 1] for a possibly absent key.  The frequency objects are
    read as finite maps from names to counts, which is what the source does
    for a key that is not a member of [Object.prototype]; for an inherited
    name ([constructor], [toString], ...) the source reads the inherited
    member, which is no number, and the weight and the score become [NaN],
    a value the rationals here do not have. *)
Definition weightOf (freq : gmap string Q) (key : option string) : Q :=
  match key with
  | Some k => Js.numOr (freq !! k) 1
  | None => 1%Q
  end.

(** The rating-proximity bonus. *)
Definition proximityBonus (rating : Q) (prefs : Precomputed) : Q :=
  match userAvgRating prefs with
  | Some avg =>
      if Qeq_bool avg 0 then 0%Q
      else
        let ratingDiff := Js.abs (rating - avg) in
        if Qle_bool ratingDiff (1 # 2) then 15%Q
        else if Qle_bool ratingDiff 1 then 10%Q
        else 0%Q
  | None => 0%Q
  end.

(** The recency bonus; [currentYear] is [new Date().getFullYear()]. *)
Definition recencyBonus (currentYear : Z) (movie : Movie.t) : Q :=
  match Movie.year movie with
  | Some movieYear =>
      let yearsAgo := currentYear - movieYear in
      if yearsAgo <=? 5 then 5%Q
      else if yearsAgo <=? 10 then 3%Q
      else 0%Q
  | None => 0%Q
  end.

(** [calculateRecommendationScore(movie, precomputedPrefs)]. *)
Definition calculateRecommendationScore
    (currentYear : Z) (movie : Movie.t) (precomputedPrefs : Precomputed) : Result :=
  let rating := getMovieRating movie in
  let genreMatch := genresMatch (Movie.genre movie) (genres precomputedPrefs) in
  let directorMatch := directorMatches (Movie.director movie) (directors precomputedPrefs) in
  let actorMatch := actorMatches (Movie.cast movie) (actors precomputedPrefs) in
  let highRated := Qle_bool 8 rating in
  (* Priority 1 and 2: genre *)
  let '(score, matchCount) :=
    if genreMatch then
      let genreWeight := weightOf (genreFrequency precomputedPrefs) (Movie.genre movie) in
      let weightedMultiplier := Js.min genreWeight 2 in
      if highRated then (100 * weightedMultiplier, 1%nat)%Q
      else (50 * weightedMultiplier, 1%nat)%Q
    else (0%Q, 0%nat) in
  (* Priority 3: director *)
  let '(score, matchCount) :=
    if directorMatch then
      let directorWeight := weightOf (directorFrequency precomputedPrefs) (Movie.director movie) in
      (score + 30 * Js.min directorWeight (3 # 2), S matchCount)%Q
    else (score, matchCount) in
  (* Priority 4: actor *)
  let '(score, matchCount) :=
    if actorMatch then
      let m := matchedActor movie precomputedPrefs in
      let actorWeight :=
        if Js.nonEmpty m then weightOf (actorFrequency precomputedPrefs) m else 1%Q in
      (score + 20 * Js.min actorWeight (3 # 2), S matchCount)%Q
    else (score, matchCount) in
  (* multiple matches *)
  let score := if (2 <=? matchCount)%nat then (score + 25)%Q else score in
  let score := if (3 <=? matchCount)%nat then (score + 50)%Q else score in
  (* rating proximity and recency *)
  let score := (score + proximityBonus rating precomputedPrefs)%Q in
  let score := (score + recencyBonus currentYear movie)%Q in
  {| score := score;
     rating := rating;
     matchCount := matchCount;
     breakdown :=
       {| genreHighScore := genreMatch && highRated;
          genreMatch := genreMatch && negb highRated;
          directorMatch := directorMatch;
          actorMatch := actorMatch;
          multipleMatches := (2 <=? matchCount)%nat |} |}.

End Scoring.

(** ** Array sorting *)
Module JsArray.

(** [Array.prototype.sort] is stable; with [le a b] standing for
    [compare(a, b) <= 0] it is this insertion sort. *)
Section Sort.
Context {A : Type} (le : A -> A -> bool).

Fixpoint insert (x : A) (l : list A) : list A :=
  match l with
  | [] => [x]
  | y :: r => if le x y then x :: y :: r else y :: insert x r
  end.

Fixpoint sort (l : list A) : list A :=
  match l with
  | [] => []
  | x :: r => insert x (sort r)
  end.
End Sort.

(** [sum] of [reduce((sum, r) => sum + r, 0)]. *)
Definition sum (l : list Q) : Q := fold_left Qplus l 0%Q.

(** [l.length] as a number. *)
Definition len {A} (l : list A) : Q := inject_Z (Z.of_nat (length l)).

End JsArray.

#[global] Instance Q_eq_dec : EqDecision Q.
Proof. solve_decision. Defined.
#[global] Instance IsoDate_eq_dec : EqDecision IsoDate.
Proof. solve_decision. Defined.
#[global] Instance LocalMovie_eq_dec : EqDecision LocalMovie.t.
Proof. solve_decision. Defined.
#[global] Instance Movie_eq_dec : EqDecision Movie.t.
Proof. solve_decision. Defined.

(** ** src/services/recommendationService.js: extractUserPreferences *)
Module Extractor.

(** An entry of the watched history: a bare id or an embedded movie. *)
Inductive Watched :=
| WId (i : Js.Id)
| WObj (m : Movie.t).

(** An element of the id arrays of the cache key:
    [typeof m === 'object' && m.id ? m.id : m]. *)
Inductive KeyElem :=
| KId (i : Js.Id)
| KObj (m : Movie.t)
| KUndefined.

#[global] Instance KeyElem_eq_dec : EqDecision KeyElem.
Proof. solve_decision. Defined.

(** The object whose [JSON.stringify] is the cache key; the JSON text is a
    function of this record, and equal texts are modelled by equal records. *)
Record CacheKey := mkKey {
  favIds : list KeyElem;
  watchedIds : list KeyElem;
  ratingKeys : list string
}.

#[global] Instance CacheKey_eq_dec : EqDecision CacheKey.
Proof. solve_decision. Defined.

(** [String(x)] as the default [sort()] compares elements. *)
Definition keyString (k : KeyElem) : string :=
  match k with
  | KId i => Js.toString (Some i)
  | KObj _ => "[object Object]"
  | KUndefined => "undefined"
  end.

Definition isUndefined (k : KeyElem) : bool :=
  match k with KUndefined => true | _ => false end.

(** [Array.prototype.sort()] without a comparator: by string value, the
    [undefined] elements last. *)
Definition defaultSort (l : list KeyElem) : list KeyElem :=
  (JsArray.sort (fun a b => String.leb (keyString a) (keyString b))
     (List.filter (fun k => negb (isUndefined k)) l)
   ++ List.filter isUndefined l)%list.

Definition favKey (f : Movie.t) : KeyElem :=
  match Movie.id f with
  | Some i => KId i
  | None => KUndefined
  end.

Definition watchedKey (w : Watched) : KeyElem :=
  match w with
  | WId i => KId i
  | WObj m =>
      if Js.truthy (Movie.id m) then favKey m else KObj m
  end.

Definition cacheKey (favorites : list Movie.t) (watchedMovies : list Watched)
    (userRatings : gmap string Q) : CacheKey :=
  {| favIds := defaultSort (map favKey favorites);
     watchedIds := defaultSort (map watchedKey watchedMovies);
     ratingKeys := JsArray.sort String.leb (map fst (map_to_list userRatings)) |}.

(** [allMovies.find(m => m.id === item || m.tmdbId === item)]. *)
Definition lookupById (allMovies : list Movie.t) (item : Js.Id) : option Movie.t :=
  find (fun m => bool_decide (Movie.id m = Some item)
                 || bool_decide (Movie.tmdbId m = Some item))%bool allMovies.

(** One watched entry resolved to a movie, or dropped by [filter(Boolean)]. *)
Definition resolveWatched (allMovies : list Movie.t) (item : Watched) : option Movie.t :=
  match item with
  | WObj m => if Js.nonEmpty (Movie.title m) then Some m else None
  | WId i => lookupById allMovies i
  end.

Definition watchedMoviesData (watchedMovies : list Watched) (allMovies : list Movie.t)
    : list Movie.t :=
  omap (resolveWatched allMovies) watchedMovies.

(** [l.map(m => m.f).filter(Boolean)] for a string property. *)
Definition truthyStrings (f : Movie.t -> option string) (l : list Movie.t) : list string :=
  omap (fun m => if Js.nonEmpty (f m) then f m else None) l.

(** [freq[k] = (freq[k] || 0) + 1].  The tables are object literals, read
    here as finite maps from names to counts: that is the source's behaviour
    for every name that is not a member of [Object.prototype]
    ([constructor], [toString], [__proto__], ...; the list is
    [Onboarding.inheritedNames]).  Under an inherited name the source finds
    the inherited member truthy and stores a text, not a count; statements
    about the stored counts are made for the other names only
    ([ProfileNotions.ownName]). *)
Definition bump (freq : gmap string Q) (k : string) : gmap string Q :=
  <[k := (Js.numOr (freq !! k) 0 + 1)%Q]> freq.

Definition castOf (m : Movie.t) : list string := default [] (Movie.cast m).

(** [parseFloat(m.imdb)] kept by [filter(rating => !isNaN(rating) && rating > 0)]. *)
Definition positiveRatings (l : list Movie.t) : list Q :=
  omap (fun m => match Movie.imdb m with
                 | Some r => if Qle_bool r 0 then None else Some r
                 | None => None
                 end) l.

Definition favoriteRatings (favorites : list Movie.t) : list Q :=
  map (fun r => (r * (3 # 2))%Q) (positiveRatings favorites).

Definition watchedRatings (watched : list Movie.t) : list Q := positiveRatings watched.

Definition avgRating (favorites watched : list Movie.t) : Q :=
  let allRatings := (favoriteRatings favorites ++ watchedRatings watched)%list in
  match allRatings with
  | [] => 8%Q
  | _ => (JsArray.sum allRatings / JsArray.len allRatings)%Q
  end.

Definition normalizedAvgRating (favorites watched : list Movie.t) : Q :=
  let fr := favoriteRatings favorites in
  let wr := watchedRatings watched in
  match fr, wr with
  | _ :: _, _ :: _ =>
      ((JsArray.sum fr / (3 # 2) + JsArray.sum wr)
       / (JsArray.len fr / (3 # 2) + JsArray.len wr))%Q
  | _, _ => avgRating favorites watched
  end.

(** [Object.values(userRatings)] kept by the [0.5 <= rating <= 5] filter. *)
Definition userRatingValues (userRatings : gmap string Q) : list Q :=
  List.filter (fun r => Qle_bool (1 # 2) r && Qle_bool r 5)%bool
         (map snd (map_to_list userRatings)).

Definition userAvgRating (userRatings : gmap string Q) : option Q :=
  match userRatingValues userRatings with
  | [] => None
  | vs => Some (JsArray.sum vs / JsArray.len vs)%Q
  end.

(** [userAvgRating || normalizedAvgRating]. *)
Definition effectiveAvgRating (favorites watched : list Movie.t)
    (userRatings : gmap string Q) : Q :=
  match userAvgRating userRatings with
  | Some u => if Qeq_bool u 0 then normalizedAvgRating favorites watched else u
  | None => normalizedAvgRating favorites watched
  end.

(** The profile literal returned for an empty working set. *)
Definition emptyPreferences : Prefs.t :=
  {| Prefs.genres := []; Prefs.directors := []; Prefs.actors := [];
     Prefs.minRating := 0%Q; Prefs.userAvgRating := None;
     Prefs.genreFrequency := ∅; Prefs.directorFrequency := ∅;
     Prefs.actorFrequency := ∅ |}.

(** The profile computed from a non-empty working set. *)
Definition computePreferences (favorites watched : list Movie.t)
    (userRatings : gmap string Q) : Prefs.t :=
  let allUserMovies := (favorites ++ watched)%list in
  let effective := effectiveAvgRating favorites watched userRatings in
  {| Prefs.genres := Js.setOfList (truthyStrings Movie.genre allUserMovies);
     Prefs.directors := Js.setOfList (truthyStrings Movie.director allUserMovies);
     Prefs.actors := Js.setOfList (concat (map castOf allUserMovies));
     Prefs.minRating := Js.max (15 # 2) (effective - (1 # 2))%Q;
     Prefs.userAvgRating := Some effective;
     Prefs.genreFrequency := fold_left bump (truthyStrings Movie.genre allUserMovies) ∅;
     Prefs.directorFrequency := fold_left bump (truthyStrings Movie.director allUserMovies) ∅;
     Prefs.actorFrequency := fold_left bump (concat (map castOf allUserMovies)) ∅ |}.

(** *** The memoization cache and object identity

    [preferencesCache] is a module-level [Map] from key text to profile
    object.  Objects are identified by the address they were allocated at:
    every evaluation of an object literal takes the next fresh address. *)
Definition Ref := nat.

Record Obj := mkObj { ref : Ref; value : Prefs.t }.

Record State := mkState {
  nextRef : Ref;
  preferencesCache : list (CacheKey * Obj)
}.

Definition initialState : State := {| nextRef := 0%nat; preferencesCache := [] |}.

(** [preferencesCache.get(key)]. *)
Definition cacheGet (c : list (CacheKey * Obj)) (k : CacheKey) : option Obj :=
  snd <$> find (fun kv => bool_decide (fst kv = k)) c.

(** [preferencesCache.set(key, obj)]. *)
Definition cacheSet (c : list (CacheKey * Obj)) (k : CacheKey) (o : Obj)
    : list (CacheKey * Obj) :=
  (k, o) :: List.filter (fun kv => negb (bool_decide (fst kv = k))) c.

(** [extractUserPreferences(favorites, watchedMovies, allMovies, userRatings)]
    as a state transformer: the returned object and the state after the call. *)
Definition extractUserPreferences (st : State)
    (favorites : list Movie.t) (watchedMovies : list Watched)
    (allMovies : list Movie.t) (userRatings : gmap string Q) : Obj * State :=
  let key := cacheKey favorites watchedMovies userRatings in
  match cacheGet (preferencesCache st) key with
  | Some o => (o, st)
  | None =>
      let watched := watchedMoviesData watchedMovies allMovies in
      match (favorites ++ watched)%list with
      | [] =>
          ({| ref := nextRef st; value := emptyPreferences |},
           {| nextRef := S (nextRef st); preferencesCache := preferencesCache st |})
      | _ =>
          let o := {| ref := nextRef st;
                      value := computePreferences favorites watched userRatings |} in
          (o, {| nextRef := S (nextRef st);
                 preferencesCache := cacheSet (preferencesCache st) key o |})
      end
  end.

(** [Calls st st']: [st'] is the state after some sequence of calls of
    [extractUserPreferences] made in state [st]. *)
Inductive Calls : State -> State -> Prop :=
| Calls_none st : Calls st st
| Calls_more st favorites watchedMovies allMovies userRatings st' :
    Calls (snd (extractUserPreferences st favorites watchedMovies allMovies userRatings)) st' ->
    Calls st st'.

End Extractor.

(** ** Outcome of an asynchronous operation *)
Inductive Outcome (A : Type) :=
| Resolved (a : A)
| Rejected (error : string).
Arguments Resolved {A} a.
Arguments Rejected {A} error.

(** ** src/services/movieApiService.js: normalization and merging *)
Module MovieApi.

(** The lower-cased, trimmed title used as de-duplication and exclusion key. *)
Definition titleKey (t : string) : string := Js.trim (Js.toLowerCase t).

(** [[GENRE_MAP[genre] || 0].filter(id => id > 0)]: a merged category is an
    array, which is not greater than [0]. *)
Definition localGenreIds (genre : option string) : list Z :=
  match genre with
  | Some g =>
      match ApiConfig.GENRE_MAP g with
      | Some (ApiConfig.Single n) => if 0 <? n then [n] else []
      | _ => []
      end
  | None => []
  end.

(** [normalizeLocalToAPI(localMovie)]. *)
Definition normalizeLocalToAPI (localMovie : LocalMovie.t) : Movie.t :=
  {| Movie.id := Some (Js.Str ("local_" ++ Js.toString (LocalMovie.id localMovie)));
     Movie.tmdbId := None;
     Movie.title := LocalMovie.title localMovie;
     Movie.year := LocalMovie.year localMovie;
     Movie.release_date :=
       match LocalMovie.year localMovie with
       | Some y => Some (mkDate y 1 1)
       | None => None
       end;
     Movie.genre := LocalMovie.genre localMovie;
     Movie.genre_ids := Some (localGenreIds (LocalMovie.genre localMovie));
     Movie.director := LocalMovie.director localMovie;
     Movie.cast := Some (default [] (LocalMovie.cast localMovie));
     Movie.imdb := LocalMovie.imdb localMovie;
     Movie.vote_average :=
       match LocalMovie.imdb localMovie with
       | Some q => if Qeq_bool q 0 then None else Some q
       | None => None
       end;
     Movie.original_language := None;
     Movie.isLocal := true;
     Movie.localData := Some localMovie |}.

(** One [forEach] of [mergeLocalAndAPIResults]: insertion into the title
    map, first occurrence wins; [movie.title.toLowerCase()] is a [TypeError]
    on a movie without a title. *)
Fixpoint addByTitle (movies : list Movie.t) (movieMap : list (string * Movie.t))
    : option (list (string * Movie.t)) :=
  match movies with
  | [] => Some movieMap
  | movie :: rest =>
      match Movie.title movie with
      | None => None
      | Some t =>
          let key := titleKey t in
          addByTitle rest
            (if existsb (fun kv => String.eqb (fst kv) key) movieMap then movieMap
             else (movieMap ++ [(key, movie)])%list)
      end
  end.

(** [mergeLocalAndAPIResults(localMovies, apiMovies)]; [None] when it throws. *)
Definition mergeLocalAndAPIResults (localMovies apiMovies : list Movie.t)
    : option (list Movie.t) :=
  match addByTitle localMovies [] with
  | Some m1 =>
      match addByTitle apiMovies m1 with
      | Some m2 => Some (map snd m2)
      | None => None
      end
  | None => None
  end.

End MovieApi.

(** ** src/services/recommendationService.js: getRecommendedMovies *)
Module Assembler.
Import Extractor.

(** A candidate with its score: [{...movie, recommendationScore,
    recommendationRating, scoreBreakdown}]. *)
Record Scored := mkScored {
  movie : Movie.t;
  recommendationScore : Q;
  recommendationRating : Q;
  scoreBreakdown : Scoring.Breakdown
}.

(** The local movie as [getRecommendedMovies] normalizes it. *)
Definition normalizeLocal (m : LocalMovie.t) : Movie.t :=
  let normalized := MovieApi.normalizeLocalToAPI m in
  {| Movie.id := Movie.id normalized;
     Movie.tmdbId := Movie.tmdbId normalized;
     Movie.title := Movie.title normalized;
     Movie.year := Movie.year normalized;
     Movie.release_date := Movie.release_date normalized;
     Movie.genre := LocalMovie.genre m;
     Movie.genre_ids := Movie.genre_ids normalized;
     Movie.director := LocalMovie.director m;
     Movie.cast := Some (default [] (LocalMovie.cast m));
     Movie.imdb := LocalMovie.imdb m;
     Movie.vote_average := Movie.vote_average normalized;
     Movie.original_language := Movie.original_language normalized;
     Movie.isLocal := Movie.isLocal normalized;
     Movie.localData := Movie.localData normalized |}.

(** [new Set(favorites.map(fav => fav.title.toLowerCase().trim()))];
    [None] when a favorite has no title (a [TypeError]). *)
Fixpoint favoriteTitles (favorites : list Movie.t) : option (list string) :=
  match favorites with
  | [] => Some []
  | fav :: rest =>
      match Movie.title fav, favoriteTitles rest with
      | Some t, Some ts => Some (MovieApi.titleKey t :: ts)
      | _, _ => None
      end
  end.

(** [new Set(favorites.map(fav => fav.id))]. *)
Definition favoriteIds (favorites : list Movie.t) : list (option Js.Id) :=
  map Movie.id favorites.

(** The string a watched entry contributes to [watchedIds]. *)
Definition watchedIdString (w : Watched) : string :=
  match w with
  | WId i => Js.toString (Some i)
  | WObj m => Js.toString (Js.orElse (Movie.id m) (Movie.tmdbId m))
  end.

Definition watchedIds (watchedMovies : list Watched) : list string :=
  map watchedIdString watchedMovies.

(** The title a watched entry contributes to [watchedTitles] directly. *)
Definition ownTitle (w : Watched) : option string :=
  match w with
  | WObj m => if Js.nonEmpty (Movie.title m) then MovieApi.titleKey <$> Movie.title m else None
  | WId _ => None
  end.

(** The title found for a watched entry in [allMoviesForLookup]. *)
Definition lookedUpTitle (allMoviesForLookup : list Movie.t) (w : Watched) : option string :=
  match w with
  | WId i =>
      match lookupById allMoviesForLookup i with
      | Some m => if Js.nonEmpty (Movie.title m) then MovieApi.titleKey <$> Movie.title m else None
      | None => None
      end
  | WObj _ => None
  end.

Definition watchedTitles (watchedMovies : list Watched) (allMoviesForLookup : list Movie.t)
    : list string :=
  (omap ownTitle watchedMovies ++ omap (lookedUpTitle allMoviesForLookup) watchedMovies)%list.

(** [String(movie.id || movie.tmdbId || '')]. *)
Definition movieId (movie : Movie.t) : string :=
  if Js.truthy (Movie.id movie) then Js.toString (Movie.id movie)
  else if Js.truthy (Movie.tmdbId movie) then Js.toString (Movie.tmdbId movie)
  else "".

(** [String(movie.tmdbId || '')]. *)
Definition movieTmdbId (movie : Movie.t) : string :=
  if Js.truthy (Movie.tmdbId movie) then Js.toString (Movie.tmdbId movie) else "".

Definition numericId (movie : Movie.t) : string :=
  Js.stripPrefix "tmdb_" (movieId movie).

(** [(movie.title || '').toLowerCase().trim()]. *)
Definition movieTitle (movie : Movie.t) : string :=
  MovieApi.titleKey (default "" (Movie.title movie)).

Definition isFavorite (favIds : list (option Js.Id)) (favTitles : list string)
    (movie : Movie.t) : bool :=
  (bool_decide (Movie.id movie ∈ favIds)
   || Js.has favTitles (movieTitle movie)
   || match Movie.localData movie with
      | Some l => bool_decide (LocalMovie.id l ∈ favIds)
      | None => false
      end)%bool.

Definition isWatched (wIds wTitles : list string) (movie : Movie.t) : bool :=
  (Js.has wIds (movieId movie)
   || Js.has wIds (movieTmdbId movie)
   || Js.has wIds (numericId movie)
   || Js.has wTitles (movieTitle movie)
   || match Movie.localData movie with
      | Some l => Js.has wIds (Js.toString (LocalMovie.id l))
      | None => false
      end)%bool.

(** The comparator of both [sort] calls, as [compare(a, b) <= 0]. *)
Definition byScoreThenRating (a b : Scored) : bool :=
  if negb (Qeq_bool (recommendationScore b) (recommendationScore a))
  then Qle_bool (recommendationScore b) (recommendationScore a)
  else Qle_bool (recommendationRating b) (recommendationRating a).

Definition batchSize : nat := 50.

(** The slices [allMovies.slice(i, i + batchSize)] for [i = 0, 50, ...]. *)
Fixpoint batchesOf (fuel : nat) (l : list Movie.t) : list (list Movie.t) :=
  match fuel, l with
  | S f, _ :: _ => take batchSize l :: batchesOf f (drop batchSize l)
  | _, _ => []
  end.

Definition batches (l : list Movie.t) : list (list Movie.t) := batchesOf (length l) l.

Section Scan.
Variable currentYear : Z.
Variable prefs : Scoring.Precomputed.
Variables (favIds : list (option Js.Id)) (favTitles wIds wTitles : list string).
Variable limit : nat.

(** The body of the inner loop for one movie: the entry pushed, if any. *)
Definition scoreMovie (m : Movie.t) : option Scored :=
  if (isFavorite favIds favTitles m || isWatched wIds wTitles m)%bool then None
  else
    let scoring := Scoring.calculateRecommendationScore currentYear m prefs in
    if Qle_bool (Scoring.score scoring) 0 then None
    else Some {| movie := m;
                 recommendationScore := Scoring.score scoring;
                 recommendationRating := Scoring.rating scoring;
                 scoreBreakdown := Scoring.breakdown scoring |}.

(** How the batch loop ended. *)
Inductive ScanEnd :=
| EarlyTermination (scoredMovies : list Scored)
| FullScan (scoredMovies : list Scored).

(** The outer loop: after each batch, stop when [targetCount = limit * 2]
    entries have accumulated. *)
Fixpoint scan (bs : list (list Movie.t)) (scoredMovies : list Scored) : ScanEnd :=
  match bs with
  | [] => FullScan scoredMovies
  | batch :: rest =>
      let scoredMovies := (scoredMovies ++ omap scoreMovie batch)%list in
      if (limit * 2 <=? length scoredMovies)%nat then EarlyTermination scoredMovies
      else scan rest scoredMovies
  end.
End Scan.

(** *** Diversity control *)
Definition maxPerDirector : nat := 3.
Definition maxPerActor : nat := 2.

Record Counts := mkCounts {
  directorCount : gmap string nat;
  actorCount : gmap string nat
}.

Definition countOf (m : gmap string nat) (k : string) : nat := default 0%nat (m !! k).

(** The callback of [scoredMovies.filter]: the verdict and the two [Map]s
    after it ran. *)
Definition diversityStep (c : Counts) (s : Scored) : bool * Counts :=
  let m := movie s in
  let afterDirector : option (gmap string nat) :=
    match Movie.director m with
    | Some d =>
        if String.eqb d "" then Some (directorCount c)
        else if (maxPerDirector <=? countOf (directorCount c) d)%nat then None
        else Some (<[d := S (countOf (directorCount c) d)]> (directorCount c))
    | None => Some (directorCount c)
    end in
  match afterDirector with
  | None => (false, c)
  | Some dc =>
      match Movie.cast m with
      | Some (a :: cast') =>
          let cast := a :: cast' in
          if existsb (fun actor => (maxPerActor <=? countOf (actorCount c) actor)%nat) cast
          then (false, {| directorCount := dc; actorCount := actorCount c |})
          else (true,
                {| directorCount := dc;
                   actorCount :=
                     fold_left (fun ac actor => <[actor := S (countOf ac actor)]> ac)
                               cast (actorCount c) |})
      | _ => (true, {| directorCount := dc; actorCount := actorCount c |})
      end
  end.

Fixpoint diversityFilter (c : Counts) (l : list Scored) : list Scored :=
  match l with
  | [] => []
  | s :: rest =>
      let '(keep, c') := diversityStep c s in
      if keep then s :: diversityFilter c' rest else diversityFilter c' rest
  end.

Definition diverseMovies (scoredMovies : list Scored) : list Scored :=
  diversityFilter {| directorCount := ∅; actorCount := ∅ |} scoredMovies.

(** [allMovies]: the normalized local movies, merged with the API movies
    when [useAPI]; a failure of the merge is caught and the local movies
    are used alone. *)
Definition candidatePool (normalizedLocalMovies apiMovies : list Movie.t) (useAPI : bool)
    : list Movie.t :=
  if useAPI then
    match MovieApi.mergeLocalAndAPIResults normalizedLocalMovies apiMovies with
    | Some merged => merged
    | None => normalizedLocalMovies
    end
  else normalizedLocalMovies.

(** [preferences.genres.length === 0 && preferences.directors.length === 0
    && preferences.actors.length === 0]. *)
Definition noSignal (preferences : Prefs.t) : bool :=
  match Prefs.genres preferences, Prefs.directors preferences, Prefs.actors preferences with
  | [], [], [] => true
  | _, _, _ => false
  end.

(** The body of [getRecommendedMovies] from the normalization of the local
    movies on: pool, exclusion sets, batch loop, sort, diversity, cut.  The
    development-mode call of [verifyAlgorithmCorrectness] before the final
    [slice] only logs: it changes neither the list nor the memoization cache
    (its call of [extractUserPreferences] finds the entry stored above). *)
Definition assemble (currentYear : Z) (preferences : Prefs.t) (apiMovies : list Movie.t)
    (localMovies : list LocalMovie.t) (favorites : list Movie.t) (useAPI : bool)
    (limit : nat) (watchedMovies : list Watched) (allMoviesForLookup : list Movie.t)
    : Outcome (list Scored) :=
  let precomputedPrefs := Scoring.precomputePreferences preferences in
  let normalizedLocalMovies := map normalizeLocal localMovies in
  let allMovies := candidatePool normalizedLocalMovies apiMovies useAPI in
  match favoriteTitles favorites with
  | None => Rejected "TypeError"
  | Some favTitles =>
      let favIds := favoriteIds favorites in
      let wIds := watchedIds watchedMovies in
      let wTitles := watchedTitles watchedMovies allMoviesForLookup in
      match scan currentYear precomputedPrefs favIds favTitles wIds wTitles limit
                 (batches allMovies) [] with
      | EarlyTermination scoredMovies =>
          Resolved (take limit (JsArray.sort byScoreThenRating scoredMovies))
      | FullScan scoredMovies =>
          Resolved (take limit (diverseMovies (JsArray.sort byScoreThenRating scoredMovies)))
      end
  end.

(** [getRecommendedMovies(localMovies, favorites, useAPI, limit,
    watchedMovies, allMoviesForLookup, userRatings)].

    [currentYear] is the calendar year read by the scoring function, [st]
    the memoization state of [extractUserPreferences], and [apiMovies] the
    array [fetchAPIRecommendations] resolves to (it catches every failure of
    its fan-out and resolves to what it collected).  The promise either
    resolves to a list or rejects with the uncaught error. *)
Definition getRecommendedMovies (currentYear : Z) (st : State) (apiMovies : list Movie.t)
    (localMovies : list LocalMovie.t) (favorites : list Movie.t) (useAPI : bool)
    (limit : nat) (watchedMovies : list Watched) (allMoviesForLookup : list Movie.t)
    (userRatings : gmap string Q) : Outcome (list Scored) * State :=
  match favorites, watchedMovies with
  | [], [] => (Resolved [], st)
  | _, _ =>
      let '(o, st') :=
        extractUserPreferences st favorites watchedMovies allMoviesForLookup userRatings in
      let preferences := value o in
      if noSignal preferences then (Resolved [], st')
      else (assemble currentYear preferences apiMovies localMovies favorites useAPI
                     limit watchedMovies allMoviesForLookup, st')
  end.

End Assembler.

(** ** src/services/movieApiService.js: conversion and content filters *)

(** A record of the external catalog, as a discover/search result or as the
    details of one movie (with [append_to_response=credits]). *)
Module Tmdb.
Record Crew := mkCrew {
  job : option string;
  name : option string;
  original_name : option string
}.

Record t := mk {
  id : Z;
  title : option string;
  original_title : option string;
  release_date : option IsoDate;
  genre_ids : option (list Z);
  genres : option (list (Z * string));   (* [{id, name}] of a details record *)
  vote_average : option Q;               (* a truthy numeric [vote_average] *)
  popularity : option Q;
  original_language : option string;
  director : option string;
  crew : option (list Crew);
  credits_crew : option (list Crew);     (* [credits.crew] *)
  cast : option (list string);           (* names of [cast] *)
  credits_cast : option (list string)    (* names of [credits.cast] *)
}.
End Tmdb.

Module Convert.

(** [mapTMDBGenreToLocal(genreId)]. *)
Definition mapTMDBGenreToLocal (genreId : Z) : string :=
  if genreId =? 878 then "Bilim Kurgu"
  else if genreId =? 35 then "Komedi"
  else if genreId =? 28 then "Aksiyon/Macera"
  else if genreId =? 16 then "Animasyon"
  else if genreId =? 80 then "Suç"
  else if genreId =? 12 then "Aksiyon/Macera"
  else if genreId =? 18 then "Drama"
  else if genreId =? 9648 then "Gizem"
  else if genreId =? 99 then "Belgesel"
  else if genreId =? 27 then "Korku"
  else if genreId =? 53 then "Gizem"
  else if genreId =? 10749 then "Drama"
  else if genreId =? 14 then "Bilim Kurgu"
  else "Bilinmeyen".

(** [mapEnglishGenreToTurkish(genreName)]. *)
Definition mapEnglishGenreToTurkish (genreName : string) : string :=
  if String.eqb genreName "Science Fiction" then "Bilim Kurgu"
  else if String.eqb genreName "Comedy" then "Komedi"
  else if String.eqb genreName "Action" then "Aksiyon/Macera"
  else if String.eqb genreName "Animation" then "Animasyon"
  else if String.eqb genreName "Crime" then "Suç"
  else if String.eqb genreName "Adventure" then "Aksiyon/Macera"
  else if String.eqb genreName "Drama" then "Drama"
  else if String.eqb genreName "Mystery" then "Gizem"
  else if String.eqb genreName "Documentary" then "Belgesel"
  else if String.eqb genreName "Biography" then "Belgesel"
  else if String.eqb genreName "Horror" then "Korku"
  else if String.eqb genreName "Thriller" then "Gizem"
  else if String.eqb genreName "Romance" then "Drama"
  else if String.eqb genreName "Fantasy" then "Bilim Kurgu"
  else genreName.

(** [getGenreFromTMDBMovie(tmdbMovie)]. *)
Definition getGenreFromTMDBMovie (tmdbMovie : Tmdb.t) : string :=
  match Tmdb.genres tmdbMovie with
  | Some ((_, genreName) :: _) => mapEnglishGenreToTurkish genreName
  | _ =>
      match Tmdb.genre_ids tmdbMovie with
      | Some (g :: _) => mapTMDBGenreToLocal g
      | _ => "Bilinmeyen"
      end
  end.

(** [getDirectorFromCrew(crew)]; the three job tests of the source agree
    with the case-insensitive one. *)
Definition getDirectorFromCrew (crew : option (list Tmdb.Crew)) : option string :=
  match crew with
  | None => None
  | Some crewArray =>
      match find (fun person =>
                    match Tmdb.job person with
                    | Some j => String.eqb (Js.toLowerCase j) "director"
                    | None => false
                    end) crewArray with
      | Some director =>
          if Js.nonEmpty (Tmdb.name director) then Tmdb.name director
          else Tmdb.original_name director
      | None => None
      end
  end.

(** [a || b] on possibly absent strings. *)
Definition strOr (a b : option string) : option string :=
  if Js.nonEmpty a then a else b.

(** [n.toFixed(1)], read back by [parseFloat]. *)
Definition toFixed1 (q : Q) : Q := (inject_Z (Qfloor (q * 10 + (1 # 2))) / 10)%Q.

(** [convertTMDBToMovieFormat(tmdbMovie, fullDetails)].  Every call site
    passes the record itself as its details ([convert(movie)] or
    [convert(details, details)]), so [details] is [tmdbMovie].  Fields that
    only the views read ([poster], [summary], [genres]) are left out. *)
Definition convertTMDBToMovieFormat (tmdbMovie : Tmdb.t) : Movie.t :=
  let details := tmdbMovie in
  let genreIds :=
    match Tmdb.genre_ids details with
    | Some ids => ids
    | None =>
        match Tmdb.genres details with
        | Some gs => map fst gs
        | None => []
        end
    end in
  {| Movie.id := Some (Js.Str ("tmdb_" ++ Js.showZ (Tmdb.id tmdbMovie)));
     Movie.tmdbId := Some (Js.Num (Tmdb.id tmdbMovie));
     Movie.title := strOr (Tmdb.title tmdbMovie) (Tmdb.original_title tmdbMovie);
     Movie.year := d_year <$> Tmdb.release_date tmdbMovie;
     Movie.release_date := Tmdb.release_date tmdbMovie;
     Movie.genre := Some (getGenreFromTMDBMovie details);
     Movie.genre_ids := Some genreIds;
     Movie.director :=
       strOr (Tmdb.director details)
         (strOr (getDirectorFromCrew (Tmdb.crew details))
                (getDirectorFromCrew (Tmdb.credits_crew details)));
     Movie.cast :=
       Some (take 5 (match Tmdb.cast details with
                     | Some c => c
                     | None => default [] (Tmdb.credits_cast details)
                     end));
     Movie.imdb :=
       match Tmdb.vote_average details with
       | Some v => Some (toFixed1 v)
       | None => Some 0%Q
       end;
     Movie.vote_average := None;
     Movie.original_language := Tmdb.original_language tmdbMovie;
     Movie.isLocal := false;
     Movie.localData := None |}.

End Convert.

Module Filters.

(** [a <= b] on calendar dates.  The source compares [new Date(release_date)]
    with today's midnight; both are taken in one calendar here. *)
Definition dateLe (a b : IsoDate) : bool :=
  (d_year a <? d_year b)
  || ((d_year a =? d_year b)
      && ((d_month a <? d_month b)
          || ((d_month a =? d_month b) && (d_day a <=? d_day b)))).

(** [isMovieReleased(movie)], with [today] and its year made explicit. *)
Definition isMovieReleased (today : IsoDate) (movie : Movie.t) : bool :=
  match Movie.release_date movie with
  | Some releaseDate => dateLe releaseDate today
  | None =>
      match Movie.year movie with
      | Some releaseYear => releaseYear <=? d_year today
      | None => true
      end
  end.

Definition blockedTitles : list string := ["nude"; "succubus"; "the way to the hearth"].

(** The blocked-title test shared by every filter. *)
Definition isBlocked (movie : Movie.t) : bool :=
  let movieTitle := Js.toLowerCase (default "" (Movie.title movie)) in
  existsb (fun blocked => Js.includes movieTitle (Js.toLowerCase blocked)) blockedTitles.

(** [originalLanguage.toLowerCase() === code]. *)
Definition hasLanguage (code : string) (movie : Movie.t) : bool :=
  String.eqb (Js.toLowerCase (default "" (Movie.original_language movie))) code.

(** [movie.genre_ids && movie.genre_ids.includes(g)]. *)
Definition hasGenre (g : Z) (movie : Movie.t) : bool :=
  match Movie.genre_ids movie with
  | Some ids => existsb (Z.eqb g) ids
  | None => false
  end.

Definition MUSICAL : Z := 10402.
Definition FAMILY : Z := 10751.
Definition COMEDY : Z := 35.

(** The filter callback of [searchMoviesByDirector] and [searchMoviesByActor]. *)
Definition personFilter (today : IsoDate) (movie : Movie.t) : bool :=
  if negb (isMovieReleased today movie) then false
  else if isBlocked movie then false
  else if (hasLanguage "tr" movie || hasLanguage "es" movie)%bool then false
  else if hasGenre MUSICAL movie then false
  else true.

(** The filter callback of [getTopRatedMovies] and [searchMoviesInTMDB]. *)
Definition listFilter (today : IsoDate) (movie : Movie.t) : bool :=
  if negb (isMovieReleased today movie) then false
  else if isBlocked movie then false
  else if (hasLanguage "tr" movie || hasLanguage "es" movie)%bool then false
  else if hasGenre MUSICAL movie then false
  else if hasGenre FAMILY movie then false
  else true.

(** The filter callback of [searchMoviesByGenre]. *)
Definition genreFilter (today : IsoDate) (genreIdArray : list Z) (movie : Movie.t) : bool :=
  match Movie.genre_ids movie with
  | None | Some [] => false
  | Some ids =>
      if negb (isMovieReleased today movie) then false
      else if isBlocked movie then false
      else if hasLanguage "tr" movie then false
      else if hasLanguage "es" movie then false
      else if hasGenre MUSICAL movie then false
      else
        let isComedyGenre := existsb (Z.eqb COMEDY) genreIdArray in
        if (negb isComedyGenre && hasGenre FAMILY movie)%bool then false
        else existsb (fun genreId => existsb (Z.eqb genreId) ids) genreIdArray
  end.


End Filters.

(** ** src/services/movieApiService.js: the response cache and the queries *)
Module CatalogClient.

(** What one HTTP exchange gives the caller: the parsed body of a 2xx
    response, or one of the failures the [try] blocks catch. *)
Inductive Fetch (A : Type) :=
| Ok (body : A)
| NetworkError
| HttpError (status : Z)
| MalformedJson.
Arguments Ok {A} body.
Arguments NetworkError {A}.
Arguments HttpError {A} status.
Arguments MalformedJson {A}.

(** The query parameters of a discover request that vary between calls. *)
Record DiscoverParams := mkParams {
  with_genres : option Z;
  page : Z;
  sort_by : string;
  vote_average_gte : Q;
  primary_release_date_gte : option Z;
  primary_release_date_lte : option Z
}.

Record CrewCredit := mkCrewCredit { crew_job : option string; crew_movie : Z }.
Record CastCredit := mkCastCredit { cast_popularity : option Q; cast_movie : Z }.
Record PersonCredits := mkCredits { crew : list CrewCredit; cast : list CastCredit }.

(** The external catalog: the answer to each kind of request.  A body
    without [results] (or [crew], [cast]) is the empty list, as the
    [|| []] of the source reads it. *)
Record Network := mkNetwork {
  discoverMovie : DiscoverParams -> Fetch (list Tmdb.t);
  searchPerson : string -> Fetch (option Z);      (* id of [results?.[0]] *)
  personMovieCredits : Z -> Fetch PersonCredits;
  movieDetails : Z -> Fetch Tmdb.t;
  searchMovie : string -> Z -> Fetch (list Tmdb.t)
}.

(** A cache key, one constructor per template literal of the source and one
    argument per interpolated value. *)
Inductive CacheKey :=
| GenreKey (genreIds : list Z) (sortBy : string) (minYear maxYear : option Z)
           (minRating : option Q) (page : Z)
| DirectorKey (name : string)
| ActorKey (name : string)
| TopRatedKey (sortBy : string) (page : Z) (limit : nat) (useOldMovies : bool)
| SearchKey (query : string) (page : Z).

#[global] Instance CacheKey_eq_dec : EqDecision CacheKey.
Proof. solve_decision. Defined.

Record Entry := mkEntry { data : list Movie.t; timestamp : Z }.

(** [apiCache]. *)
Definition Cache := list (CacheKey * Entry).

Definition CACHE_DURATION : Z := 5 * 60 * 1000.

Definition cacheDelete (c : Cache) (key : CacheKey) : Cache :=
  List.filter (fun kv => negb (bool_decide (fst kv = key))) c.

(** [getCached(key)] at time [now]: the data, and the cache after the call. *)
Definition getCached (now : Z) (c : Cache) (key : CacheKey) : option (list Movie.t) * Cache :=
  match find (fun kv => bool_decide (fst kv = key)) c with
  | Some (_, cached) =>
      if now - timestamp cached <? CACHE_DURATION then (Some (data cached), c)
      else (None, cacheDelete c key)
  | None => (None, cacheDelete c key)
  end.

(** [setCache(key, data)] at time [now]. *)
Definition setCache (now : Z) (c : Cache) (key : CacheKey) (d : list Movie.t) : Cache :=
  (key, {| data := d; timestamp := now |}) :: cacheDelete c key.

(** The options of [searchMoviesByGenre], defaults applied
    ([page = 1], [limit = 20], [sortBy = null]). *)
Record GenreOptions := mkOptions {
  minYear : option Z;
  maxYear : option Z;
  minRating : option Q;
  opt_page : Z;
  opt_limit : nat;
  sortBy : option string
}.

Definition defaultOptions : GenreOptions :=
  {| minYear := None; maxYear := None; minRating := None;
     opt_page := 1; opt_limit := 20%nat; sortBy := None |}.

Definition truthyZ (x : option Z) : option Z :=
  match x with
  | Some n => if n =? 0 then None else Some n
  | None => None
  end.

Definition sortIs (s : option string) (name : string) : bool :=
  match s with
  | Some x => String.eqb x name
  | None => false
  end.

(** [sortBy === null || sortBy === 'new_most_rated']. *)
Definition isDefaultSort (s : option string) : bool :=
  match s with
  | None => true
  | Some x => String.eqb x "new_most_rated"
  end.

(** [sortByMap[sortBy] || sortByMap[null]]. *)
Definition tmdbSortBy (s : option string) : string :=
  if sortIs s "most_liked" then "popularity.desc"
  else if sortIs s "most_rated" then "vote_average.desc"
  else "release_date.desc".

(** [sortBy || 'new_rated']. *)
Definition sortLabel (s : option string) : string :=
  if Js.nonEmpty s then default "" s else "new_rated".

Definition byPopularity (a b : Tmdb.t) : bool :=
  Qle_bool (Js.numOr (Tmdb.popularity b) 0) (Js.numOr (Tmdb.popularity a) 0).

Definition byVoteAverage (a b : Tmdb.t) : bool :=
  Qle_bool (Js.numOr (Tmdb.vote_average b) 0) (Js.numOr (Tmdb.vote_average a) 0).

(** [(a, b) => (parseFloat(b.imdb) || 0) - (parseFloat(a.imdb) || 0)]. *)
Definition byImdb (a b : Movie.t) : bool :=
  Qle_bool (Js.numOr (Movie.imdb b) 0) (Js.numOr (Movie.imdb a) 0).

(** The final sort of [searchMoviesByGenre] and [getTopRatedMovies]: by
    rating for the four known modes, none for any other [sortBy]. *)
Definition finalSort (s : option string) (l : list Movie.t) : list Movie.t :=
  if (sortIs s "most_liked" || sortIs s "most_rated" || isDefaultSort s)%bool
  then JsArray.sort byImdb l else l.

(** The key of [searchMoviesByGenre]:
    [genre_${ids}_${sortBy || 'new_rated'}_${minYear}_${maxYear}_${minRating}_${page}]. *)
Definition genreCacheKey (genreIdArray : list Z) (options : GenreOptions) : CacheKey :=
  GenreKey genreIdArray (sortLabel (sortBy options)) (minYear options) (maxYear options)
           (Qred <$> minRating options) (opt_page options).

(** The key of [getTopRatedMovies]:
    [toprated_${sortBy || 'new_rated'}_${page}_${limit}_${useOldMovies ? 'old' : 'new'}]. *)
Definition topRatedCacheKey (page : Z) (limit : nat) (s : option string) : CacheKey :=
  TopRatedKey (sortLabel s) page limit (isDefaultSort s && (2 <? page))%bool.

(** The key of [searchMoviesInTMDB]: [search_${query.toLowerCase()}_${page}]. *)
Definition searchCacheKey (query : string) (page : Z) : CacheKey :=
  SearchKey (Js.toLowerCase query) page.

Section Queries.
Variable net : Network.
Variable today : IsoDate.     (* the date of [new Date()] *)
Variable now : Z.             (* [Date.now()] *)

(** The second request of a merged category and the merge of its results. *)
Definition mergeSecondGenre (params : DiscoverParams) (genreId2 : Z)
    (s : option string) (results : list Tmdb.t) : list Tmdb.t :=
  match discoverMovie net
          {| with_genres := Some genreId2; page := page params; sort_by := sort_by params;
             vote_average_gte := vote_average_gte params;
             primary_release_date_gte := primary_release_date_gte params;
             primary_release_date_lte := primary_release_date_lte params |} with
  | Ok results2 =>
      let existingIds := map Tmdb.id results in
      let newResults :=
        List.filter (fun m => negb (existsb (Z.eqb (Tmdb.id m)) existingIds)) results2 in
      let merged := (results ++ newResults)%list in
      if sortIs s "most_liked" then JsArray.sort byPopularity merged
      else JsArray.sort byVoteAverage merged
  | _ => results
  end.

(** [searchMoviesByGenre(genre, options)]: the array the promise resolves
    to and the cache after the call. *)
Definition searchMoviesByGenre (c : Cache) (genre : string) (options : GenreOptions)
    : list Movie.t * Cache :=
  match ApiConfig.GENRE_MAP genre with
  | None => ([], c)
  | Some genreIds =>
      let genreIdArray :=
        match genreIds with
        | ApiConfig.Merged gs => gs
        | ApiConfig.Single g => [g]
        end in
      let primaryGenreId := hd_error genreIdArray in
      let s := sortBy options in
      let cacheKey := genreCacheKey genreIdArray options in
      match getCached now c cacheKey with
      | (Some cached, c') => (cached, c')
      | (None, c') =>
          let params :=
            {| with_genres := primaryGenreId;
               page := opt_page options;
               sort_by := tmdbSortBy s;
               vote_average_gte :=
                 if isDefaultSort s then 7%Q else Js.numOr (minRating options) 6;
               primary_release_date_gte := truthyZ (minYear options);
               primary_release_date_lte := truthyZ (maxYear options) |} in
          match discoverMovie net params with
          | Ok results =>
              let results :=
                match genreIds with
                | ApiConfig.Merged (_ :: genreId2 :: _) =>
                    mergeSecondGenre params genreId2 s results
                | _ => results
                end in
              let limit := if (opt_limit options =? 0)%nat then 50%nat else opt_limit options in
              let fetchLimit := Nat.min limit (length results) in
              let basicMovies :=
                map Convert.convertTMDBToMovieFormat (take fetchLimit results) in
              let validMovies :=
                finalSort s (List.filter (Filters.genreFilter today genreIdArray) basicMovies) in
              (validMovies, setCache now c' cacheKey validMovies)
          | _ => ([], c')
          end
      end
  end.

(** The details of one credit, converted, or [null]. *)
Definition creditDetails (movieId : Z) : option Movie.t :=
  match movieDetails net movieId with
  | Ok details => Some (Convert.convertTMDBToMovieFormat details)
  | _ => None
  end.

(** The part shared by the two person searches: look the person up, fetch
    the credits, select and detail up to ten of them, filter, cache. *)
Definition searchMoviesByPerson (c : Cache) (key : CacheKey) (personName : string)
    (select : PersonCredits -> list Z) : list Movie.t * Cache :=
  match getCached now c key with
  | (Some cached, c') => (cached, c')
  | (None, c') =>
      match searchPerson net personName with
      | Ok (Some person) =>
          match personMovieCredits net person with
          | Ok personData =>
              let moviesWithDetails := omap creditDetails (take 10 (select personData)) in
              let movies := List.filter (Filters.personFilter today) moviesWithDetails in
              (movies, setCache now c' key movies)
          | _ => ([], c')
          end
      | _ => ([], c')
      end
  end.

(** [searchMoviesByDirector(directorName)]. *)
Definition searchMoviesByDirector (c : Cache) (directorName : string)
    : list Movie.t * Cache :=
  if String.eqb directorName "" then ([], c)
  else
    searchMoviesByPerson c (DirectorKey (Js.toLowerCase directorName)) directorName
      (fun personData =>
         map crew_movie
           (take 20 (List.filter (fun credit =>
                               match crew_job credit with
                               | Some j => String.eqb j "Director"
                               | None => false
                               end) (crew personData)))).

(** [searchMoviesByActor(actorName)]. *)
Definition searchMoviesByActor (c : Cache) (actorName : string)
    : list Movie.t * Cache :=
  if String.eqb actorName "" then ([], c)
  else
    searchMoviesByPerson c (ActorKey (Js.toLowerCase actorName)) actorName
      (fun personData =>
         map cast_movie
           (take 20 (JsArray.sort
                       (fun a b => Qle_bool (Js.numOr (cast_popularity b) 0)
                                            (Js.numOr (cast_popularity a) 0))
                       (cast personData)))).

(** [getTopRatedMovies(page, limit, sortBy)]. *)
Definition getTopRatedMovies (c : Cache) (page : Z) (limit : nat) (s : option string)
    : list Movie.t * Cache :=
  let useOldMovies := (isDefaultSort s && (2 <? page))%bool in
  let sortParam := if useOldMovies then "vote_average.desc" else tmdbSortBy s in
  let adjustedPage := if useOldMovies then page - 2 else page in
  let cacheKey := topRatedCacheKey page limit s in
  match getCached now c cacheKey with
  | (Some cached, c') => (cached, c')
  | (None, c') =>
      match discoverMovie net
              {| with_genres := None; page := adjustedPage; sort_by := sortParam;
                 vote_average_gte := if isDefaultSort s then 7%Q else 6%Q;
                 primary_release_date_gte := None;
                 primary_release_date_lte := None |} with
      | Ok results =>
          let fetchLimit := Nat.min limit (length results) in
          let basicMovies :=
            map Convert.convertTMDBToMovieFormat (take fetchLimit results) in
          let movies := finalSort s (List.filter (Filters.listFilter today) basicMovies) in
          (movies, setCache now c' cacheKey movies)
      | _ => ([], c')
      end
  end.

(** [searchMoviesInTMDB(query, page, limit)]. *)
Definition searchMoviesInTMDB (c : Cache) (query : string) (page : Z) (limit : nat)
    : list Movie.t * Cache :=
  if (String.length (Js.trim query) =? 0)%nat then ([], c)
  else
    let cacheKey := searchCacheKey query page in
    match getCached now c cacheKey with
    | (Some cached, c') => (take limit cached, c')
    | (None, c') =>
        match searchMovie net (Js.trim query) page with
        | Ok results =>
            let movies :=
              take limit
                (List.filter (Filters.listFilter today)
                   (map Convert.convertTMDBToMovieFormat (take (limit * 2) results))) in
            (movies, setCache now c' cacheKey movies)
        | _ => ([], c')
        end
    end.

End Queries.

End CatalogClient.

(** ** Vocabulary of the properties

    The notions the specification states its properties with.  Definitions
    marked "spec wording" follow the sentences of the specification, to be
    compared with what the code above computes. *)
Module Spec.
Import Extractor Assembler.

(** *** Overlap with a profile *)

(** The candidate has no genre, director or actor in common with the profile. *)
Definition noOverlap (movie : Movie.t) (prefs : Scoring.Precomputed) : Prop :=
  Scoring.genresMatch (Movie.genre movie) (Scoring.genres prefs) = false
  /\ Scoring.directorMatches (Movie.director movie) (Scoring.directors prefs) = false
  /\ Scoring.actorMatches (Movie.cast movie) (Scoring.actors prefs) = false.

(** *** Ranking *)

(** [a] may stand before [b] in a ranked list: higher score, or the same
    score and a rating at least as high. *)
Definition ranksBefore (a b : Scored) : Prop :=
  (recommendationScore b < recommendationScore a)%Q
  \/ (recommendationScore b == recommendationScore a
      /\ recommendationRating b <= recommendationRating a)%Q.

Definition ranked (l : list Scored) : Prop := StronglySorted ranksBefore l.

(** *** Diversity *)

(** Entries of [l] directed by [d]. *)
Definition directorEntries (d : string) (l : list Scored) : nat :=
  length (List.filter (fun s => bool_decide (Movie.director (movie s) = Some d)) l).

(** Entries of [l] with [a] in the cast. *)
Definition actorEntries (a : string) (l : list Scored) : nat :=
  length (List.filter (fun s => bool_decide (a ∈ castOf (movie s))) l).

(** *** Exclusion *)

(** The forms of a candidate's id that the assembler compares, as strings. *)
Definition idForms (m : Movie.t) : list string :=
  [movieId m; movieTmdbId m; numericId m]
  ++ match Movie.localData m with
     | Some l => [Js.toString (LocalMovie.id l)]
     | None => []
     end.

(** Spec wording: the candidate matches a favorite or a watched entry by id
    (in any of its forms) or by normalized title. *)
Definition matchesSeen (favorites : list Movie.t) (watchedMovies : list Watched)
    (allMoviesForLookup : list Movie.t) (m : Movie.t) : Prop :=
  (exists fav, fav ∈ favorites /\ Js.toString (Movie.id fav) ∈ idForms m)
  \/ (exists fav t, fav ∈ favorites /\ Movie.title fav = Some t
                    /\ MovieApi.titleKey t = movieTitle m)
  \/ (exists w, w ∈ watchedMovies /\ watchedIdString w ∈ idForms m)
  \/ movieTitle m ∈ watchedTitles watchedMovies allMoviesForLookup.

(** What the assembler compares: favorites by the canonical id and the
    embedded local id (as values, a number never equal to a string) and by
    title; watched entries by every id form as a string and by title. *)
Definition excludedByCode (favorites : list Movie.t) (watchedMovies : list Watched)
    (allMoviesForLookup : list Movie.t) (m : Movie.t) : Prop :=
  (exists fav, fav ∈ favorites /\ Movie.id fav = Movie.id m)
  \/ (exists fav l, fav ∈ favorites /\ Movie.localData m = Some l
                    /\ Movie.id fav = LocalMovie.id l)
  \/ (exists fav t, fav ∈ favorites /\ Movie.title fav = Some t
                    /\ MovieApi.titleKey t = movieTitle m)
  \/ (exists w, w ∈ watchedMovies /\ watchedIdString w ∈ idForms m)
  \/ movieTitle m ∈ watchedTitles watchedMovies allMoviesForLookup.

(** *** Rating baseline *)

(** Spec wording, read as "multiply, then average": the favorites' ratings
    times 1.5 and the watched ratings, averaged. *)
Definition scaledAverage (favorites watched : list Movie.t) : Q :=
  let all := (map (fun r => r * (3 # 2))%Q (positiveRatings favorites)
              ++ positiveRatings watched)%list in
  (JsArray.sum all / JsArray.len all)%Q.

(** Spec wording, read as a weighted mean: weight 1.5 for a favorite's
    rating, 1 for a watched movie's. *)
Definition weightedMean (favorites watched : list Movie.t) : Q :=
  let fr := positiveRatings favorites in
  let wr := positiveRatings watched in
  (((3 # 2) * JsArray.sum fr + JsArray.sum wr)
   / ((3 # 2) * JsArray.len fr + JsArray.len wr))%Q.

(** Spec wording: [minRating = max(7.5, baseline - 0.5)], the explicit
    ratings superseding the derived baseline. *)
Definition specMinRating (derived : Q) (userRatings : gmap string Q) : Q :=
  let baseline := default derived (userAvgRating userRatings) in
  Js.max (15 # 2) (baseline - (1 # 2))%Q.

(** *** The standard content filter pipeline *)



(** Steps 2 to 5, the ones every query applies. *)
Definition passesCommonSteps (today : IsoDate) (m : Movie.t) : Prop :=
  Filters.isMovieReleased today m = true
  /\ Filters.isBlocked m = false
  /\ Filters.hasLanguage "tr" m = false
  /\ Filters.hasLanguage "es" m = false
  /\ Filters.hasGenre Filters.MUSICAL m = false.

(** Steps 1 to 6 for the target genres [targets], and membership in one of them. *)
Definition passesGenreSteps (today : IsoDate) (targets : list Z) (m : Movie.t) : Prop :=
  (exists g ids, Movie.genre_ids m = Some (g :: ids))
  /\ passesCommonSteps today m
  /\ (existsb (Z.eqb Filters.COMEDY) targets = false ->
      Filters.hasGenre Filters.FAMILY m = false)
  /\ (exists t, t ∈ targets /\ Filters.hasGenre t m = true).

(** Steps 2 to 6 as the list queries apply them: Family is always excluded. *)
Definition passesListSteps (today : IsoDate) (m : Movie.t) : Prop :=
  passesCommonSteps today m /\ Filters.hasGenre Filters.FAMILY m = false.

(** The target genres of a genre query: the provider ids of the display genre. *)
Definition targetGenres (genre : string) : list Z :=
  match ApiConfig.GENRE_MAP genre with
  | Some (ApiConfig.Merged gs) => gs
  | Some (ApiConfig.Single g) => [g]
  | None => []
  end.

(** What the entry stored under a key must satisfy. *)
Definition entrySound (today : IsoDate) (key : CatalogClient.CacheKey)
    (movies : list Movie.t) : Prop :=
  match key with
  | CatalogClient.DirectorKey _ | CatalogClient.ActorKey _ =>
      Forall (passesCommonSteps today) movies
  | CatalogClient.GenreKey ids _ _ _ _ _ => Forall (passesGenreSteps today ids) movies
  | CatalogClient.TopRatedKey _ _ _ _ | CatalogClient.SearchKey _ _ =>
      Forall (passesListSteps today) movies
  end.

(** Every cached entry satisfies the steps its query applies. *)
Definition cacheSound (today : IsoDate) (c : CatalogClient.Cache) : Prop :=
  forall key e, (key, e) ∈ c -> entrySound today key (CatalogClient.data e).

(** A result that holds nothing new: empty, or cut from a cached entry. *)
Definition emptyOrCached (c : CatalogClient.Cache) (l : list Movie.t) : Prop :=
  l = [] \/ exists key e, (key, e) ∈ c /\ sublist l (CatalogClient.data e).

End Spec.

(** ** Inputs of the repository's test-suite *)
Module Fixtures.

(** [mockPreferences] of the scoring tests. *)
Definition mockPreferences : Scoring.Precomputed :=
  {| Scoring.genres := ["drama"];
     Scoring.directors := ["christopher nolan"];
     Scoring.actors := ["leonardo dicaprio"];
     Scoring.minRating := (15 # 2)%Q;
     Scoring.userAvgRating := Some 8%Q;
     Scoring.genreFrequency := {[ "Drama" := 3%Q ]};
     Scoring.directorFrequency := {[ "Christopher Nolan" := 2%Q ]};
     Scoring.actorFrequency := {[ "Leonardo DiCaprio" := 1%Q ]} |}.

(** A movie object with the properties the tests give it. *)
Definition testMovie (id : option Js.Id) (title : option string) (genre : string) (imdb : Q)
    (director : option string) (cast : option (list string)) (year : option Z) : Movie.t :=
  {| Movie.id := id; Movie.tmdbId := None; Movie.title := title;
     Movie.year := year; Movie.release_date := None; Movie.genre := Some genre;
     Movie.genre_ids := None; Movie.director := director; Movie.cast := cast;
     Movie.imdb := Some imdb; Movie.vote_average := None;
     Movie.original_language := None; Movie.isLocal := false;
     Movie.localData := None |}.

(** The candidate of the test "should return zero score for no matches". *)
Definition noMatchMovie : Movie.t :=
  testMovie None (Some "Test Movie") "Comedy" 7 (Some "Unknown") (Some []) None.

(** A drama of 2020 rated 8.5. *)
Definition drama2020 : Movie.t :=
  testMovie None (Some "Test Movie") "Drama" (17 # 2) (Some "Unknown") (Some []) (Some 2020).

(** The favorite and the 50 candidates of the test "should maintain
    diversity control efficiently": one director throughout. *)
Definition directorAFavorite : Movie.t :=
  testMovie (Some (Js.Num 1)) (Some "Movie 1") "Drama" (17 # 2) (Some "Director A") None None.

Definition directorAMovie (i : nat) : LocalMovie.t :=
  {| LocalMovie.id := Some (Js.Num (Z.of_nat i + 2));
     LocalMovie.title := Some ("Movie " ++ Js.showZ (Z.of_nat i + 2));
     LocalMovie.year := None;
     LocalMovie.genre := Some "Drama";
     LocalMovie.director := Some "Director A";
     LocalMovie.cast := Some [];
     LocalMovie.imdb := Some 8%Q |}.

Definition directorAPool (n : nat) : list LocalMovie.t := map directorAMovie (seq 0 n).

(** The favorite of the specification's scenario
    [[{id:1, genre:"Drama", imdb:"8.5"}]]: it has no title. *)
Definition untitledFavorite : Movie.t :=
  testMovie (Some (Js.Num 1)) None "Drama" (17 # 2) None None None.

(** A favorite stored under the provider's numeric id, and the same
    provider record arriving from the catalog under another title. *)
Definition matrixFavorite : Movie.t :=
  testMovie (Some (Js.Num 603)) (Some "The Matrix") "Bilim Kurgu" (17 # 2) None None None.

Definition matrixFromCatalog : Movie.t :=
  {| Movie.id := Some (Js.Str "tmdb_603"); Movie.tmdbId := Some (Js.Num 603);
     Movie.title := Some "Matrix"; Movie.year := Some 1999;
     Movie.release_date := Some (mkDate 1999 3 31); Movie.genre := Some "Bilim Kurgu";
     Movie.genre_ids := Some [878; 28]; Movie.director := None; Movie.cast := Some [];
     Movie.imdb := Some (17 # 2)%Q; Movie.vote_average := None;
     Movie.original_language := Some "en"; Movie.isLocal := false;
     Movie.localData := None |}.

(** A favorite and a watched movie, both rated 9.0. *)
Definition nineFavorite : Movie.t :=
  testMovie (Some (Js.Num 1)) (Some "Favorite") "Drama" 9 None None None.

Definition nineWatched : Movie.t :=
  testMovie (Some (Js.Num 2)) (Some "Watched") "Drama" 9 None None None.

(** The favorite with id 1 again, now rated 6.0. *)
Definition sixFavorite : Movie.t :=
  testMovie (Some (Js.Num 1)) (Some "Favorite") "Drama" 6 None None None.

(** *** A catalog for the query operations *)

Definition tmdbMovie (id : Z) (title : string) (date : IsoDate)
    (genres : list (Z * string)) (vote : Q) : Tmdb.t :=
  {| Tmdb.id := id; Tmdb.title := Some title; Tmdb.original_title := Some title;
     Tmdb.release_date := Some date;
     Tmdb.genre_ids := if (length genres =? 0)%nat then None else Some (map fst genres);
     Tmdb.genres := Some genres;
     Tmdb.vote_average := Some vote; Tmdb.popularity := Some 10%Q;
     Tmdb.original_language := Some "en"; Tmdb.director := None; Tmdb.crew := None;
     Tmdb.credits_crew := None; Tmdb.cast := None; Tmdb.credits_cast := None |}.

(** A family comedy, a record without genres, an animated drama and two
    comedies. *)
Definition homeAlone : Tmdb.t :=
  tmdbMovie 771 "Home Alone" (mkDate 1990 11 16) [(35, "Comedy"); (10751, "Family")] (37 # 5).
Definition untagged : Tmdb.t :=
  tmdbMovie 9001 "Untagged" (mkDate 2001 1 1) [] 7.
Definition animatedDrama : Tmdb.t :=
  tmdbMovie 9002 "Animated Drama" (mkDate 2010 5 5) [(16, "Animation"); (18, "Drama")] 8.
Definition comedyOne : Tmdb.t :=
  tmdbMovie 9003 "Comedy One" (mkDate 2015 6 1) [(35, "Comedy")] 8.
Definition comedyTwo : Tmdb.t :=
  tmdbMovie 9004 "Comedy Two" (mkDate 2016 6 1) [(35, "Comedy")] (15 # 2).

(** The catalog: one person with two directing credits; discover answers by
    genre, and with the two comedies when no genre is asked for; title
    search finds the two comedies. *)
Definition catalog : CatalogClient.Network :=
  {| CatalogClient.discoverMovie := fun params =>
       match CatalogClient.with_genres params with
       | Some 35 => CatalogClient.Ok [comedyOne; comedyTwo]
       | Some 16 => CatalogClient.Ok [animatedDrama]
       | Some _ => CatalogClient.Ok []
       | None => CatalogClient.Ok [comedyOne; comedyTwo]
       end;
     CatalogClient.searchPerson := fun _ => CatalogClient.Ok (Some 10965);
     CatalogClient.personMovieCredits := fun _ =>
       CatalogClient.Ok
         {| CatalogClient.crew :=
              [ {| CatalogClient.crew_job := Some "Director";
                   CatalogClient.crew_movie := 771 |};
                {| CatalogClient.crew_job := Some "Director";
                   CatalogClient.crew_movie := 9001 |} ];
            CatalogClient.cast := [] |};
     CatalogClient.movieDetails := fun id =>
       if id =? 771 then CatalogClient.Ok homeAlone
       else if id =? 9001 then CatalogClient.Ok untagged
       else CatalogClient.HttpError 404;
     CatalogClient.searchMovie := fun _ _ => CatalogClient.Ok [comedyOne; comedyTwo] |}.

(** A catalog that cannot be reached. *)
Definition offline : CatalogClient.Network :=
  {| CatalogClient.discoverMovie := fun _ => CatalogClient.NetworkError;
     CatalogClient.searchPerson := fun _ => CatalogClient.NetworkError;
     CatalogClient.personMovieCredits := fun _ => CatalogClient.NetworkError;
     CatalogClient.movieDetails := fun _ => CatalogClient.NetworkError;
     CatalogClient.searchMovie := fun _ _ => CatalogClient.NetworkError |}.

Definition today : IsoDate := mkDate 2026 11 1.

(** [{limit: n}] with the other options at their defaults. *)
Definition withLimit (n : nat) : CatalogClient.GenreOptions :=
  {| CatalogClient.minYear := None; CatalogClient.maxYear := None;
     CatalogClient.minRating := None; CatalogClient.opt_page := 1;
     CatalogClient.opt_limit := n; CatalogClient.sortBy := None |}.

End Fixtures.

(** ** src/config/api.js: image addresses and the request budget *)
Module ApiUrls.

(** [getImageUrl(posterPath, size)]. *)
Definition getImageUrl (posterPath : option string) (size : string) : option string :=
  match posterPath with
  | None => None
  | Some p =>
      if String.eqb p "" then None
      else if Js.startsWith p "http" then Some p
      else Some ("https://image.tmdb.org/t/p/" ++ size ++ p)
  end.

(** [getThumbnailUrl(posterPath)]. *)
Definition getThumbnailUrl (posterPath : option string) : option string :=
  getImageUrl posterPath "w300".

End ApiUrls.

Module RateLimit.

Definition RATE_LIMIT_REQUESTS : nat := 40.
Definition RATE_LIMIT_WINDOW : Z := 10000.

(** The module-level tracker: [requestCount] and [windowStart]. *)
Record State := mkState {
  requestCount : nat;
  windowStart : Z
}.

(** [checkRateLimit()] called at time [now]; when the call sleeps, [woke]
    is the [Date.now()] it reads after the timer.  The result is the time
    slept, if any, and the tracker as the call leaves it.  Only a call that
    sleeps can be overtaken by other calls, and on waking it overwrites both
    fields of the tracker, so what it leaves does not depend on them. *)
Definition checkRateLimit (now woke : Z) (st : State) : option Z * State :=
  let st1 :=
    if RATE_LIMIT_WINDOW <? now - windowStart st
    then {| requestCount := 0; windowStart := now |}
    else st in
  let '(slept, st2) :=
    if (RATE_LIMIT_REQUESTS <=? requestCount st1)%nat then
      let waitTime := RATE_LIMIT_WINDOW - (now - windowStart st1) in
      if 0 <? waitTime
      then (Some waitTime, {| requestCount := 0; windowStart := woke |})
      else (None, st1)
    else (None, st1) in
  (slept, {| requestCount := S (requestCount st2); windowStart := windowStart st2 |}).

End RateLimit.

(** ** src/services/movieApiService.js: the genres of the detail page *)
Module Genres.

(** [getAllGenresFromTMDBMovie(tmdbMovie)]. *)
Definition getAllGenresFromTMDBMovie (tmdbMovie : Tmdb.t) : list string :=
  let genres :=
    match Tmdb.genres tmdbMovie with
    | Some ((_ :: _) as gs) => map (fun g => Convert.mapEnglishGenreToTurkish (snd g)) gs
    | _ =>
        match Tmdb.genre_ids tmdbMovie with
        | Some ((_ :: _) as ids) => map Convert.mapTMDBGenreToLocal ids
        | _ => []
        end
    end in
  let uniqueGenres :=
    List.filter (fun g => negb (String.eqb g "") && negb (String.eqb g "Bilinmeyen"))%bool
      (Js.setOfList genres) in
  take 3 uniqueGenres.

End Genres.

(** ** src/services/recommendationService.js: verification and the API fan-out *)
Module Verify.
Import Extractor Assembler.

(** The order check of the [forEach]: [priorityOrder] stays [true] as long
    as no score is greater than the one before it; [prevScore] starts at
    [Infinity], written [None]. *)
Fixpoint priorityOrder (prevScore : option Q) (scores : list Q) : bool :=
  match scores with
  | [] => true
  | score :: rest =>
      match prevScore with
      | Some prev => if Qle_bool score prev then priorityOrder (Some score) rest else false
      | None => priorityOrder (Some score) rest
      end
  end.

(** [verifyAlgorithmCorrectness(recommendations, favorites, watchedMovies,
    allMovies, userRatings)]: the verdict and the memoization state after
    the call; the console output is left out. *)
Definition verifyAlgorithmCorrectness (currentYear : Z) (st : State)
    (recommendations : list Scored) (favorites : list Movie.t)
    (watchedMovies : list Watched) (allMovies : list Movie.t)
    (userRatings : gmap string Q) : bool * State :=
  match recommendations with
  | [] => (true, st)
  | _ =>
      let '(o, st') :=
        extractUserPreferences st favorites watchedMovies allMovies userRatings in
      let precomputedPrefs := Scoring.precomputePreferences (value o) in
      let topMovies := take 5 recommendations in
      let scorings :=
        map (fun s => Scoring.calculateRecommendationScore currentYear (movie s)
                        precomputedPrefs) topMovies in
      let hasGenreHighScore :=
        existsb (fun scoring => Scoring.genreHighScore (Scoring.breakdown scoring))
                scorings in
      let correctPriorityOrder := priorityOrder None (map Scoring.score scorings) in
      let topMovieHasScore :=
        match scorings with
        | scoring :: _ => negb (Qle_bool (Scoring.score scoring) 0)
        | [] => false
        end in
      ((hasGenreHighScore && correctPriorityOrder && topMovieHasScore)%bool, st')
  end.

End Verify.

Module FanOut.
Import CatalogClient.

(** [{minRating: preferences.minRating}], the other options at their
    defaults. *)
Definition genreOptions (preferences : Prefs.t) : GenreOptions :=
  {| minYear := None; maxYear := None; minRating := Some (Prefs.minRating preferences);
     opt_page := 1; opt_limit := 20%nat; sortBy := None |}.

(** [fetchAPIRecommendations(preferences, limit)]: the array it resolves
    to.  The seven searches are started together, so each reads the cache
    [c] before any of them stores its result, and its result is that of the
    search run alone on [c]; no search rejects, so the [catch] is not
    reached.  The order in which the results are stored depends on the
    network and is not part of the model. *)
Definition fetchAPIRecommendations (net : Network) (today : IsoDate) (now : Z) (c : Cache)
    (preferences : Prefs.t) : list Movie.t :=
  let genreResults :=
    map (fun genre =>
           take 10 (fst (searchMoviesByGenre net today now c genre
                           (genreOptions preferences))))
        (take 3 (Prefs.genres preferences)) in
  let directorResults :=
    map (fun director => take 5 (fst (searchMoviesByDirector net today now c director)))
        (take 2 (Prefs.directors preferences)) in
  let actorResults :=
    map (fun actor => take 5 (fst (searchMoviesByActor net today now c actor)))
        (take 2 (Prefs.actors preferences)) in
  (concat genreResults ++ concat directorResults ++ concat actorResults)%list.

End FanOut.

(** ** src/services/movieApiService.js: details and watch providers *)

(** [getCached] and [setCache] once more, for the entries of [apiCache]
    that hold one value (a movie, a provider object) instead of a list of
    movies.  The keys of [getMovieDetails] and [getWatchProviders] start
    with [details_] and [watch_providers_], those of the list and person
    queries with [genre_], [director_], [actor_], [toprated_] and [search_]:
    a key of one kind never equals a key of another, so the entries of each
    kind form a map of their own. *)
Module TimedCache.
Section Cache.
Context {K V : Type} `{EqDecision K}.

Record Entry := mkEntry { data : V; timestamp : Z }.

Definition t := list (K * Entry).

Definition cacheDelete (c : t) (key : K) : t :=
  List.filter (fun kv => negb (bool_decide (fst kv = key))) c.

Definition getCached (now : Z) (c : t) (key : K) : option V * t :=
  match find (fun kv => bool_decide (fst kv = key)) c with
  | Some (_, cached) =>
      if now - timestamp cached <? CatalogClient.CACHE_DURATION then (Some (data cached), c)
      else (None, cacheDelete c key)
  | None => (None, cacheDelete c key)
  end.

Definition setCache (now : Z) (c : t) (key : K) (d : V) : t :=
  (key, {| data := d; timestamp := now |}) :: cacheDelete c key.

End Cache.
Arguments Entry : clear implicits.
Arguments t K V : clear implicits.
End TimedCache.

Module Details.
Import CatalogClient.

(** [numericId]: the id with a leading [tmdb_] removed. *)
Definition numericId (movieId : Js.Id) : Js.Id :=
  match movieId with
  | Js.Str s => if Js.startsWith s "tmdb_" then Js.Str (Js.stripPrefix "tmdb_" s) else movieId
  | Js.Num _ => movieId
  end.

(** [typeof movieId === 'string' && movieId.startsWith('local_')]. *)
Definition isLocalId (movieId : Js.Id) : bool :=
  match movieId with
  | Js.Str s => Js.startsWith s "local_"
  | Js.Num _ => false
  end.

(** The text of [numericId] in the cache key [details_${numericId}] and in
    the request path [/movie/${numericId}]. *)
Definition idText (movieId : Js.Id) : string := Js.toString (Some (numericId movieId)).

(** The details entries of [apiCache], keyed by the text after [details_]. *)
Definition Cache := TimedCache.t string Movie.t.

(** [getMovieDetails(movieId)]; [fetchDetails] answers the request for
    [/movie/<text>] with [append_to_response=credits]. *)
Definition getMovieDetails (fetchDetails : string -> Fetch Tmdb.t) (now : Z) (c : Cache)
    (movieId : option Js.Id) : option Movie.t * Cache :=
  match movieId with
  | None => (None, c)
  | Some id =>
      if negb (Js.truthy movieId) then (None, c)
      else if isLocalId id then (None, c)
      else
        let cacheKey := idText id in
        match TimedCache.getCached now c cacheKey with
        | (Some cached, c') => (Some cached, c')
        | (None, c') =>
            match fetchDetails (idText id) with
            | Ok data =>
                let movie := Convert.convertTMDBToMovieFormat data in
                (Some movie, TimedCache.setCache now c' cacheKey movie)
            | _ => (None, c')
            end
        end
  end.

(** The two forms in which the views pass the catalog id [n]: the number
    ([movie.tmdbId]) and the prefixed string ([movie.id]). *)
Definition idForms (n : Z) : list Js.Id :=
  [Js.Num n; Js.Str ("tmdb_" ++ Js.showZ n)].

End Details.

Module Providers.
Import CatalogClient.

(** An entry of a region's [rent], [buy] or [flatrate] array. *)
Record Provider := mkProvider {
  provider_id : Z;
  provider_name : option string
}.

(** One region of [data.results]. *)
Record Region := mkRegion {
  region_rent : option (list Provider);
  region_buy : option (list Provider);
  region_flatrate : option (list Provider)
}.

(** [data.results || {}]: the regions by country code, in property order. *)
Definition Regions := list (string * Region).

(** The object [getWatchProviders] returns. *)
Record t := mk {
  rent : list Provider;
  buy : list Provider;
  flatrate : list Provider
}.

Definition allowedProviders : list string :=
  ["netflix"; "amazon prime"; "prime video"; "prime"; "hbo max"; "hbo";
   "apple tv"; "itunes"; "disney"; "disney+"; "disney plus"].

Definition allowedSubscriptionProviders : list string :=
  ["netflix"; "amazon prime"; "prime video"; "prime"; "hbo max"; "hbo";
   "disney"; "disney+"; "disney plus"].

(** [(providerName || '').toLowerCase()]. *)
Definition nameLower (providerName : option string) : string :=
  Js.toLowerCase (if Js.nonEmpty providerName then default "" providerName else "").

Definition isAllowedProvider (providerName : option string) : bool :=
  existsb (fun allowed => Js.includes (nameLower providerName) allowed) allowedProviders.

Definition isAllowedSubscriptionProvider (providerName : option string) : bool :=
  existsb (fun allowed => Js.includes (nameLower providerName) allowed)
          allowedSubscriptionProviders.

Definition filterProviders (providerList : list Provider) : list Provider :=
  List.filter (fun provider =>
                 Js.nonEmpty (provider_name provider)
                 && isAllowedProvider (provider_name provider))%bool providerList.

Definition filterSubscriptionProviders (providerList : list Provider) : list Provider :=
  List.filter (fun provider =>
                 if negb (Js.nonEmpty (provider_name provider)) then false
                 else
                   let nameLower := nameLower (provider_name provider) in
                   if (Js.includes nameLower "apple tv" || Js.includes nameLower "itunes")%bool
                   then false
                   else isAllowedSubscriptionProvider (provider_name provider))
              providerList.

(** [regions.TR || regions.tr || null]. *)
Definition lookupRegion (regions : Regions) (code : string) : option Region :=
  snd <$> find (fun kv => String.eqb (fst kv) code) regions.

Definition selectedRegion (regions : Regions) : option Region :=
  match lookupRegion regions "TR" with
  | Some r => Some r
  | None =>
      match lookupRegion regions "tr" with
      | Some r => Some r
      | None => snd <$> hd_error regions
      end
  end.

(** The provider object built from the selected region, or [null]. *)
Definition providersOf (regions : Regions) : option t :=
  match selectedRegion regions with
  | None => None
  | Some region =>
      let providers :=
        {| rent := filterProviders (default [] (region_rent region));
           buy := filterProviders (default [] (region_buy region));
           flatrate := filterSubscriptionProviders (default [] (region_flatrate region)) |} in
      match rent providers, buy providers, flatrate providers with
      | [], [], [] => None
      | _, _, _ => Some providers
      end
  end.

(** The provider entries of [apiCache], keyed by the text after
    [watch_providers_]. *)
Definition Cache := TimedCache.t string t.

(** [getWatchProviders(movieId)]; [fetchProviders] answers the request for
    [/movie/<text>/watch/providers]. *)
Definition getWatchProviders (fetchProviders : string -> Fetch Regions) (now : Z) (c : Cache)
    (movieId : option Js.Id) : option t * Cache :=
  match movieId with
  | None => (None, c)
  | Some id =>
      if negb (Js.truthy movieId) then (None, c)
      else if Details.isLocalId id then (None, c)
      else
        let cacheKey := Details.idText id in
        match TimedCache.getCached now c cacheKey with
        | (Some cached, c') => (Some cached, c')
        | (None, c') =>
            match fetchProviders (Details.idText id) with
            | Ok regions =>
                match providersOf regions with
                | Some providers => (Some providers, TimedCache.setCache now c' cacheKey providers)
                | None => (None, c')
                end
            | _ => (None, c')
            end
        end
  end.

End Providers.

(** ** src/services/movieApiService.js: the onboarding selection *)
Module Onboarding.
Import CatalogClient.


(** The property names an object literal inherits: [genreGroups[name]] is
    truthy for them and has no [push]. *)
Definition inheritedNames : list string :=
  ["constructor"; "hasOwnProperty"; "isPrototypeOf"; "propertyIsEnumerable";
   "toLocaleString"; "toString"; "valueOf"; "__proto__"; "__defineGetter__";
   "__defineSetter__"; "__lookupGetter__"; "__lookupSetter__"].

(** The entry of [apiCache] under the key ['onboarding_movies']. *)
Definition Cache := TimedCache.t unit (list Movie.t).

Section Onboarding.
Variable fetchPage : Z -> Fetch (list Tmdb.t).  (* the discover request of one page *)
Variable shuffle : nat -> list Movie.t -> list Movie.t.
  (* the [n]-th [sort(() => Math.random() - 0.5)] of the call *)
Variable today : IsoDate.
Variable now : Z.







End Onboarding.
End Onboarding.

(** ** src/App.jsx and src/components/StarRating.jsx: the state updates

    The functions the handlers pass to the state setters, and the tests
    they read the state with.  The calls that persist the new state
    ([setUserRating], [setWatchedMovie], ...) belong to a service outside
    this development and are left out. *)
Module AppState.
Import Extractor.

(** [handleStarClick(starValue, isHalf)] of the star widget: the rating
    passed to [onRatingChange], none when the widget is read-only. *)
Definition handleStarClick (readonly : bool) (starValue : Q) (isHalf : bool) : option Q :=
  if readonly then None
  else
    let newRating := if isHalf then (starValue - (1 # 2))%Q else starValue in
    Some (Js.max (1 # 2) (Js.min 5 newRating)).

(** The updater [handleRating] passes to [setUserRatings]; [rating] is
    [None] for [null], and [key] is [movie.id] as a property name. *)
Definition rateUpdate (key : string) (rating : option Q) (prevRatings : gmap string Q)
    : gmap string Q :=
  match rating with
  | None => delete key prevRatings
  | Some r =>
      if (Qeq_bool r 0 || negb (Qle_bool (1 # 2) r))%bool then delete key prevRatings
      else <[key := Js.max (1 # 2) (Js.min 5 r)]> prevRatings
  end.

(** [isMovieWatched(movie)] against the watched list of the state. *)
Definition isMovieWatched (watchedMovies : list Watched) (movie : Movie.t) : bool :=
  if negb (Js.truthy (Movie.id movie)) then false
  else
    (existsb (fun entry => match entry with
                           | WId id => bool_decide (Some id = Movie.id movie)
                           | WObj _ => false
                           end) watchedMovies
     || existsb (fun entry => match entry with
                              | WObj m => bool_decide (Movie.id m = Movie.id movie)
                              | WId _ => false
                              end) watchedMovies)%bool.

(** [prev.filter(id => id !== movie.id).filter(m => !m || m.id !== movie.id)]. *)
Definition withoutMovie (movie : Movie.t) (prev : list Watched) : list Watched :=
  List.filter (fun entry => match entry with
                            | WObj m => negb (bool_decide (Movie.id m = Movie.id movie))
                            | WId _ => true
                            end)
    (List.filter (fun entry => match entry with
                               | WId id => negb (bool_decide (Some id = Movie.id movie))
                               | WObj _ => true
                               end) prev).

(** [[...prev, movie.id]]. *)
Definition withMovie (movie : Movie.t) (prev : list Watched) : list Watched :=
  match Movie.id movie with
  | Some id => (prev ++ [WId id])%list
  | None => prev
  end.

(** The updater [toggleWatched] passes to [setWatchedMovies], for a movie
    with a truthy id. *)
Definition toggleWatchedUpdate (movie : Movie.t) (prevWatched : list Watched) : list Watched :=
  if isMovieWatched prevWatched movie then withoutMovie movie prevWatched
  else withMovie movie prevWatched.

(** The updater [handleRating] passes to [setWatchedMovies] after a rating
    of at least 0.5. *)
Definition markWatchedUpdate (movie : Movie.t) (prevWatched : list Watched) : list Watched :=
  if isMovieWatched prevWatched movie then prevWatched else withMovie movie prevWatched.

(** Every stored rating lies between 0.5 and 5. *)
Definition ratingsInRange (userRatings : gmap string Q) : Prop :=
  forall key r, userRatings !! key = Some r -> ((1 # 2) <= r /\ r <= 5)%Q.

End AppState.

(** ** Vocabulary of the catalog properties *)
Module Notions.
Import CatalogClient.

(** No entry of the cache is live at [now]: every lookup misses. *)
Definition cold (now : Z) (c : Cache) : Prop :=
  forall key, fst (getCached now c key) = None.

(** A catalog that answers every request of the list and person queries,
    and knows every person asked for. *)
Definition answering (net : Network) : Prop :=
  (forall params, exists results, discoverMovie net params = Ok results)
  /\ (forall name, exists person, searchPerson net name = Ok (Some person))
  /\ (forall person, exists credits, personMovieCredits net person = Ok credits)
  /\ (forall query page, exists results, searchMovie net query page = Ok results).

(** The options with another [minRating]. *)
Definition withMinRating (options : GenreOptions) (r : option Q) : GenreOptions :=
  {| minYear := minYear options; maxYear := maxYear options; minRating := r;
     opt_page := opt_page options; opt_limit := opt_limit options;
     sortBy := sortBy options |}.

End Notions.

(** ** Vocabulary of the profile properties *)
Module ProfileNotions.

(** A frequency object whose counts are at least one. *)
Definition counted (freq : gmap string Q) : Prop :=
  forall k q, freq !! k = Some q -> (1 <= q)%Q.

(** A property name that an object literal does not inherit from
    [Object.prototype].  Under such a name a frequency table holds the
    count stored there or nothing; under an inherited one [freq[k] || 0]
    reads the inherited member, so the source stores a text (and nothing at
    all under [__proto__]) where the finite map counts. *)
Definition ownName (k : string) : Prop := Js.has Onboarding.inheritedNames k = false.

(** The number of movies of [l] whose property [f] is the string [g]. *)
Definition carrying (f : Movie.t -> option string) (g : string) (l : list Movie.t) : nat :=
  length (List.filter (fun m => bool_decide (f m = Some g)) l).

End ProfileNotions.

(** ** Vocabulary of the exclusion properties *)
Module IdNotions.
Import Extractor.

(** The three ways the watched history may hold the catalog id [n]: the
    number, its decimal string, and the prefixed string. *)
Definition watchedForms (n : Z) : list Watched :=
  [WId (Js.Num n); WId (Js.Str (Js.showZ n)); WId (Js.Str ("tmdb_" ++ Js.showZ n))].

End IdNotions.

(** ** Further inputs for the properties *)
Module Samples.
Import Extractor Assembler.

(** A call of the recommender on three local movies of one director, and
    the list it resolves to. *)
Definition directorACall : Outcome (list Scored) * State :=
  getRecommendedMovies 2026 initialState [] (Fixtures.directorAPool 3)
    [Fixtures.directorAFavorite] false 20 [] [] ∅.

Definition directorAList : list Scored :=
  match fst directorACall with
  | Resolved l => l
  | Rejected _ => []
  end.

(** Watch providers of two regions: Turkey offers the movie on Netflix and
    on Apple TV by subscription, the United States for rent on Apple TV. *)
Definition netflix : Providers.Provider :=
  {| Providers.provider_id := 8; Providers.provider_name := Some "Netflix" |}.
Definition appleTv : Providers.Provider :=
  {| Providers.provider_id := 2; Providers.provider_name := Some "Apple TV" |}.

Definition twoRegions : Providers.Regions :=
  [("US", {| Providers.region_rent := Some [appleTv]; Providers.region_buy := None;
             Providers.region_flatrate := None |});
   ("TR", {| Providers.region_rent := None; Providers.region_buy := None;
             Providers.region_flatrate := Some [appleTv; netflix] |})].




End Samples.

(* ===================================================================== *)
(** * Part II: the properties                                             *)
(* ===================================================================== *)

(** ** The scoring engine *)
Module ScoringFacts.
Import Scoring.

(** X3: without overlap the score is what the two bonuses add: the rating
    proximity bonus and the recency bonus are granted to every candidate. *)
Lemma score_without_overlap currentYear movie prefs :
  Spec.noOverlap movie prefs ->
  (score (calculateRecommendationScore currentYear movie prefs)
   == proximityBonus (getMovieRating movie) prefs + recencyBonus currentYear movie)%Q.
Proof.
  intros (Hg & Hd & Ha). unfold calculateRecommendationScore.
  rewrite Hg, Hd, Ha. cbn. ring.
Qed.

Lemma score_without_overlap_witness :
  Spec.noOverlap Fixtures.noMatchMovie Fixtures.mockPreferences
  /\ (score (calculateRecommendationScore 2026 Fixtures.noMatchMovie Fixtures.mockPreferences)
      == proximityBonus (getMovieRating Fixtures.noMatchMovie) Fixtures.mockPreferences
         + recencyBonus 2026 Fixtures.noMatchMovie)%Q.
Proof.
  assert (H : Spec.noOverlap Fixtures.noMatchMovie Fixtures.mockPreferences)
    by (repeat split; reflexivity).
  split; [exact H | exact (score_without_overlap 2026 _ _ H)].
Defined.

(** C1 (the code on the repository's test input): the candidate of "should
    return zero score for no matches" matches nothing and is scored 10,
    because its rating 7.0 lies within 1.0 of the profile's average 8.0. *)
Theorem C1_no_match_candidate_scores_ten :
  Spec.noOverlap Fixtures.noMatchMovie Fixtures.mockPreferences
  /\ matchCount (calculateRecommendationScore 2026 Fixtures.noMatchMovie
                   Fixtures.mockPreferences) = 0%nat
  /\ (score (calculateRecommendationScore 2026 Fixtures.noMatchMovie
               Fixtures.mockPreferences) == 10)%Q.
Proof. repeat split; vm_compute; reflexivity. Qed.

(** C5 (counterexample): the same candidate and profile are scored 220 in
    2025 and 218 in 2026, so the score is not a function of the two
    arguments alone. *)
Lemma C5_score_changes_with_the_year :
  (score (calculateRecommendationScore 2025 Fixtures.drama2020 Fixtures.mockPreferences)
   == 220)%Q
  /\ (score (calculateRecommendationScore 2026 Fixtures.drama2020 Fixtures.mockPreferences)
      == 218)%Q
  /\ ~ (forall y1 y2 m p,
          score (calculateRecommendationScore y1 m p)
          == score (calculateRecommendationScore y2 m p))%Q.
Proof.
  split; [vm_compute; reflexivity|]. split; [vm_compute; reflexivity|].
  intros H.
  specialize (H 2025 2026 Fixtures.drama2020 Fixtures.mockPreferences).
  vm_compute in H. discriminate H.
Qed.

(** C5 (amended): rating, match count and breakdown do not depend on the
    calendar year, and the score depends on it through the recency bonus
    only. *)
Theorem C5_year_enters_through_recency_only y1 y2 movie prefs :
  rating (calculateRecommendationScore y1 movie prefs)
  = rating (calculateRecommendationScore y2 movie prefs)
  /\ matchCount (calculateRecommendationScore y1 movie prefs)
     = matchCount (calculateRecommendationScore y2 movie prefs)
  /\ breakdown (calculateRecommendationScore y1 movie prefs)
     = breakdown (calculateRecommendationScore y2 movie prefs)
  /\ (score (calculateRecommendationScore y1 movie prefs) - recencyBonus y1 movie
      == score (calculateRecommendationScore y2 movie prefs) - recencyBonus y2 movie)%Q.
Proof.
  unfold calculateRecommendationScore.
  destruct (genresMatch _ _), (directorMatches _ _), (actorMatches _ _),
    (Qle_bool 8 (getMovieRating movie)); cbn; repeat split; ring.
Qed.

End ScoringFacts.

(** ** Stable insertion sort *)
Module SortFacts.
Import JsArray.

Section Generic.
Context {A : Type} (le : A -> A -> bool).

Lemma insert_perm x l : Permutation (insert le x l) (x :: l).
Proof.
  induction l as [|y r IH]; cbn; [reflexivity|].
  destruct (le x y); [reflexivity|].
  rewrite IH. apply perm_swap.
Qed.

Lemma sort_perm l : Permutation (sort le l) l.
Proof.
  induction l as [|x r IH]; cbn; [reflexivity|].
  rewrite insert_perm. now constructor.
Qed.

Lemma sort_length l : length (sort le l) = length l.
Proof. apply Permutation_length, sort_perm. Qed.

Lemma sort_elem x l : x ∈ sort le l <-> x ∈ l.
Proof. now rewrite (sort_perm l). Qed.

Hypothesis le_total : forall a b, le a b = true \/ le b a = true.
Hypothesis le_trans : forall a b c, le a b = true -> le b c = true -> le a c = true.

Lemma insert_sorted x l :
  StronglySorted (fun a b => le a b = true) l ->
  StronglySorted (fun a b => le a b = true) (insert le x l).
Proof.
  induction 1 as [|y r Hr IH Hy]; cbn.
  - repeat constructor.
  - destruct (le x y) eqn:Hxy.
    + constructor; [now constructor|].
      constructor; [exact Hxy|].
      rewrite Forall_forall in Hy |- *. intros z Hz. eauto.
    + constructor; [exact IH|].
      rewrite Forall_forall in Hy |- *. intros z Hz.
      rewrite (insert_perm x r) in Hz.
      apply elem_of_cons in Hz as [->|Hz]; [|auto].
      destruct (le_total x y) as [H|H]; [congruence|exact H].
Qed.

Lemma sort_sorted l : StronglySorted (fun a b => le a b = true) (sort le l).
Proof. induction l; cbn; [constructor|now apply insert_sorted]. Qed.
End Generic.

(** A sublist of a strongly sorted list is strongly sorted. *)
Lemma sublist_sorted {A} (R : A -> A -> Prop) (k l : list A) :
  sublist k l -> StronglySorted R l -> StronglySorted R k.
Proof.
  induction 1 as [|x k l Hkl IH|x k l Hkl IH]; intros Hs.
  - constructor.
  - apply StronglySorted_inv in Hs as [Hs Hx].
    constructor; [auto|].
    rewrite Forall_forall in Hx |- *. intros y Hy. apply Hx.
    eapply elem_of_submseteq; [exact Hy|]. now apply sublist_submseteq.
  - apply StronglySorted_inv in Hs as [Hs _]. auto.
Qed.

Lemma sorted_impl {A} (R R' : A -> A -> Prop) (l : list A) :
  (forall a b, R a b -> R' a b) -> StronglySorted R l -> StronglySorted R' l.
Proof.
  intros HR. induction 1 as [|x l Hl IH Hx]; constructor; [exact IH|].
  eapply Forall_impl; [exact Hx|]. cbn. auto.
Qed.

End SortFacts.

(** ** The ranking comparator *)
Module RankFacts.
Import Assembler.

Lemma byScoreThenRating_spec a b :
  byScoreThenRating a b = true <-> Spec.ranksBefore a b.
Proof.
  unfold byScoreThenRating, Spec.ranksBefore.
  destruct (Qeq_bool (recommendationScore b) (recommendationScore a)) eqn:E; cbn.
  - apply Qeq_bool_iff in E. rewrite Qle_bool_iff. split.
    + intros H. right. split; [exact E|exact H].
    + intros [H|[_ H]]; [|exact H]. rewrite E in H. lra.
  - apply Qeq_bool_neq in E. rewrite Qle_bool_iff. split.
    + intros H. left. apply Qle_lteq in H as [H|H]; [exact H|contradiction].
    + intros [H|[H _]]; [lra|contradiction].
Qed.

Lemma ranksBefore_total a b : Spec.ranksBefore a b \/ Spec.ranksBefore b a.
Proof.
  unfold Spec.ranksBefore.
  destruct (Q_dec (recommendationScore a) (recommendationScore b)) as [[H|H]|H].
  - right. now left.
  - left. now left.
  - destruct (Qlt_le_dec (recommendationRating a) (recommendationRating b)) as [Hr|Hr].
    + right. right. split; [exact H|lra].
    + left. right. split; [now symmetry|exact Hr].
Qed.

Lemma ranksBefore_trans a b c :
  Spec.ranksBefore a b -> Spec.ranksBefore b c -> Spec.ranksBefore a c.
Proof.
  unfold Spec.ranksBefore.
  intros [H1|[H1 R1]] [H2|[H2 R2]].
  - left. lra.
  - left. lra.
  - left. lra.
  - right. split; lra.
Qed.

(** Both [sort] calls of the assembler produce a ranked list. *)
Lemma sort_ranked l : Spec.ranked (JsArray.sort byScoreThenRating l).
Proof.
  unfold Spec.ranked.
  eapply SortFacts.sorted_impl; [|apply SortFacts.sort_sorted].
  - intros a b. apply byScoreThenRating_spec.
  - intros a b. rewrite !byScoreThenRating_spec. apply ranksBefore_total.
  - intros a b c. rewrite !byScoreThenRating_spec. apply ranksBefore_trans.
Qed.

End RankFacts.

(** ** The recommendation assembler *)
Module AssemblerFacts.
Import Extractor Assembler.

(** *** The batch loop *)

Lemma batchesOf_concat fuel l :
  (length l <= fuel)%nat -> concat (batchesOf fuel l) = l.
Proof.
  revert l. induction fuel as [|f IH]; intros [|m l] Hl; cbn [batchesOf concat];
    try reflexivity; cbn in Hl; [lia|].
  rewrite IH.
  - apply take_drop.
  - rewrite length_drop. cbn [length]. unfold batchSize. lia.
Qed.

(** The batches cover the candidate list, in order. *)
Lemma batches_concat l : concat (batches l) = l.
Proof. apply batchesOf_concat. reflexivity. Qed.

Lemma omap_length_le {A B} (f : A -> option B) l : (length (omap f l) <= length l)%nat.
Proof. induction l as [|x l IH]; cbn; [lia|]. destruct (f x); cbn; lia. Qed.

Section Scan.
Variables (currentYear : Z) (prefs : Scoring.Precomputed).
Variables (favIds : list (option Js.Id)) (favTitles wIds wTitles : list string).
Variable limit : nat.

Abbreviation scoreMovie' := (scoreMovie currentYear prefs favIds favTitles wIds wTitles).
Abbreviation scan' := (scan currentYear prefs favIds favTitles wIds wTitles limit).

(** What the loop returns: only scored candidates of the batches, no more
    of them than there are candidates, and it stops early only with
    [2 * limit] entries in hand. *)
Lemma scan_spec bs acc :
  exists r,
    ((scan' bs acc = EarlyTermination r /\ (limit * 2 <= length r)%nat)
     \/ scan' bs acc = FullScan r)
    /\ (length r <= length acc + length (concat bs))%nat
    /\ forall s, s ∈ r -> s ∈ acc \/ exists m, m ∈ concat bs /\ scoreMovie' m = Some s.
Proof.
  revert acc. induction bs as [|b bs IH]; intros acc; cbn [scan concat].
  - exists acc. split; [now right|]. split; [cbn; lia|]. now left.
  - destruct (limit * 2 <=? length (acc ++ omap scoreMovie' b))%nat eqn:E.
    + exists (acc ++ omap scoreMovie' b)%list. apply Nat.leb_le in E.
      split; [left; now split|]. split.
      * rewrite !length_app. pose proof (omap_length_le scoreMovie' b). lia.
      * intros s Hs. apply elem_of_app in Hs as [Hs|Hs]; [now left|right].
        apply list_elem_of_omap in Hs as (m & Hm & Hsm).
        exists m. split; [|exact Hsm]. apply elem_of_app. now left.
    + destruct (IH (acc ++ omap scoreMovie' b)%list) as (r & Hr & Hlen & Hin).
      exists r. split; [exact Hr|]. split.
      * rewrite !length_app in *. pose proof (omap_length_le scoreMovie' b). lia.
      * intros s Hs. destruct (Hin s Hs) as [Hacc|(m & Hm & Hsm)].
        -- apply elem_of_app in Hacc as [Hacc|Hacc]; [now left|right].
           apply list_elem_of_omap in Hacc as (m & Hm & Hsm).
           exists m. split; [|exact Hsm]. apply elem_of_app. now left.
        -- right. exists m. split; [|exact Hsm]. apply elem_of_app. now right.
Qed.
End Scan.

(** *** Merging *)

Lemma addByTitle_length movies movieMap r :
  MovieApi.addByTitle movies movieMap = Some r ->
  (length r <= length movieMap + length movies)%nat.
Proof.
  revert movieMap. induction movies as [|m ms IH]; intros movieMap; cbn.
  - intros [= <-]. lia.
  - destruct (Movie.title m); [|discriminate]. intros H. apply IH in H.
    destruct (existsb _ movieMap); rewrite ?length_app in H; cbn in H; lia.
Qed.

Lemma merge_length localMovies apiMovies merged :
  MovieApi.mergeLocalAndAPIResults localMovies apiMovies = Some merged ->
  (length merged <= length localMovies + length apiMovies)%nat.
Proof.
  unfold MovieApi.mergeLocalAndAPIResults.
  destruct (MovieApi.addByTitle localMovies []) as [m1|] eqn:E1; [|discriminate].
  destruct (MovieApi.addByTitle apiMovies m1) as [m2|] eqn:E2; [|discriminate].
  intros [= <-]. rewrite length_map.
  apply addByTitle_length in E1, E2. cbn in E1. lia.
Qed.

Lemma candidatePool_length normalizedLocalMovies apiMovies useAPI :
  (length (candidatePool normalizedLocalMovies apiMovies useAPI)
   <= length normalizedLocalMovies + (if useAPI then length apiMovies else 0))%nat.
Proof.
  unfold candidatePool. destruct useAPI; [|lia].
  destruct (MovieApi.mergeLocalAndAPIResults _ _) eqn:E; [|lia].
  now apply merge_length.
Qed.

(** *** The shape of the result *)

(** What [assemble] yields: a rejection exactly on a favorite without a
    title; otherwise a cut of the sorted scored candidates, after the
    diversity filter unless the loop stopped early. *)
Lemma assemble_shape currentYear preferences apiMovies localMovies favorites useAPI
    limit watchedMovies allMoviesForLookup :
  match assemble currentYear preferences apiMovies localMovies favorites useAPI
          limit watchedMovies allMoviesForLookup with
  | Rejected _ => favoriteTitles favorites = None
  | Resolved l =>
      exists favTitles scoredMovies,
        favoriteTitles favorites = Some favTitles
        /\ (length scoredMovies
            <= length localMovies + (if useAPI then length apiMovies else 0))%nat
        /\ (forall s, s ∈ scoredMovies ->
              exists m,
                scoreMovie currentYear (Scoring.precomputePreferences preferences)
                  (favoriteIds favorites) favTitles (watchedIds watchedMovies)
                  (watchedTitles watchedMovies allMoviesForLookup) m = Some s)
        /\ (((limit * 2 <= length scoredMovies)%nat
             /\ l = take limit (JsArray.sort byScoreThenRating scoredMovies))
            \/ l = take limit (diverseMovies (JsArray.sort byScoreThenRating scoredMovies)))
  end.
Proof.
  unfold assemble.
  destruct (favoriteTitles favorites) as [favTitles|]; [|reflexivity].
  set (pool := candidatePool _ _ _).
  destruct (scan_spec currentYear (Scoring.precomputePreferences preferences)
              (favoriteIds favorites) favTitles (watchedIds watchedMovies)
              (watchedTitles watchedMovies allMoviesForLookup) limit (batches pool) [])
    as (r & Hr & Hlen & Hin).
  assert (Hpool : (length r
                   <= length localMovies + (if useAPI then length apiMovies else 0))%nat).
  { rewrite batches_concat in Hlen. cbn in Hlen.
    pose proof (candidatePool_length (map normalizeLocal localMovies) apiMovies useAPI)
      as Hp.
    rewrite length_map in Hp. fold pool in Hp. lia. }
  assert (Hall : forall s, s ∈ r ->
            exists m,
              scoreMovie currentYear (Scoring.precomputePreferences preferences)
                (favoriteIds favorites) favTitles (watchedIds watchedMovies)
                (watchedTitles watchedMovies allMoviesForLookup) m = Some s).
  { intros s Hs. destruct (Hin s Hs) as [Hs'|(m & _ & Hm)]; [|eauto].
    now apply elem_of_nil in Hs'. }
  destruct Hr as [[-> Hearly]| ->]; exists favTitles, r; repeat split; auto.
Qed.

(** [getRecommendedMovies] resolves to the empty list or behaves as [assemble]. *)
Lemma getRecommendedMovies_cases currentYear st apiMovies localMovies favorites useAPI
    limit watchedMovies allMoviesForLookup userRatings :
  fst (getRecommendedMovies currentYear st apiMovies localMovies favorites useAPI
         limit watchedMovies allMoviesForLookup userRatings) = Resolved []
  \/ exists preferences,
       fst (getRecommendedMovies currentYear st apiMovies localMovies favorites useAPI
              limit watchedMovies allMoviesForLookup userRatings)
       = assemble currentYear preferences apiMovies localMovies favorites useAPI
           limit watchedMovies allMoviesForLookup.
Proof.
  unfold getRecommendedMovies.
  destruct (extractUserPreferences st favorites watchedMovies allMoviesForLookup userRatings)
    as [o st'].
  destruct favorites, watchedMovies; try (now left);
    (destruct (noSignal (value o)); [now left|right; now exists (value o)]).
Qed.

(** *** Exclusion *)

Lemma has_elem set x : Js.has set x = true <-> x ∈ set.
Proof.
  unfold Js.has. rewrite existsb_exists. split.
  - intros (y & Hy & E). apply String.eqb_eq in E. subst. now apply list_elem_of_In.
  - intros H. exists x. split; [now apply list_elem_of_In|apply String.eqb_refl].
Qed.

Lemma favoriteTitles_Some favorites favTitles t :
  favoriteTitles favorites = Some favTitles ->
  t ∈ favTitles <->
  exists fav t', fav ∈ favorites /\ Movie.title fav = Some t' /\ MovieApi.titleKey t' = t.
Proof.
  revert favTitles. induction favorites as [|fav favs IH]; intros favTitles; cbn.
  - intros [= <-]. split.
    + intros H. now apply elem_of_nil in H.
    + intros (fav & ? & H & _). now apply elem_of_nil in H.
  - destruct (Movie.title fav) as [t0|] eqn:Et; [|discriminate].
    destruct (favoriteTitles favs) as [ts|]; [|discriminate].
    intros [= <-]. rewrite elem_of_cons, (IH ts eq_refl). split.
    + intros [->|(f & t' & Hf & Ht & Hk)].
      * exists fav, t0. split; [left|]. now split.
      * exists f, t'. split; [now right|]. now split.
    + intros (f & t' & Hf & Ht & Hk). apply elem_of_cons in Hf as [->|Hf].
      * left. congruence.
      * right. now exists f, t'.
Qed.

(** A favorite without a title is what makes [favoriteTitles] throw. *)
Lemma favoriteTitles_None favorites :
  favoriteTitles favorites = None <->
  exists fav, fav ∈ favorites /\ Movie.title fav = None.
Proof.
  induction favorites as [|fav favs IH]; cbn.
  - split; [discriminate|]. intros (? & H & _). now apply elem_of_nil in H.
  - destruct (Movie.title fav) as [t0|] eqn:Et.
    + destruct (favoriteTitles favs) as [ts|].
      * split; [discriminate|]. intros (f & Hf & Hn).
        apply elem_of_cons in Hf as [->|Hf]; [congruence|].
        assert (@None (list string) = None) as H by reflexivity.
        destruct IH as [_ IH]. discriminate IH. now exists f.
      * split; [|reflexivity]. intros _.
        destruct IH as [IH _]. destruct (IH eq_refl) as (f & Hf & Hn).
        exists f. split; [now right|exact Hn].
    + split; [|reflexivity]. intros _. exists fav. split; [left|exact Et].
Qed.

(** The two tests of the loop, read as propositions. *)
Lemma not_excluded favorites favTitles watchedMovies allMoviesForLookup m :
  favoriteTitles favorites = Some favTitles ->
  isFavorite (favoriteIds favorites) favTitles m = false ->
  isWatched (watchedIds watchedMovies)
    (watchedTitles watchedMovies allMoviesForLookup) m = false ->
  ~ Spec.excludedByCode favorites watchedMovies allMoviesForLookup m.
Proof.
  intros Hts Hf Hw. unfold isFavorite in Hf. unfold isWatched in Hw.
  repeat (apply orb_false_elim in Hf as [Hf ?]).
  repeat (apply orb_false_elim in Hw as [Hw ?]).
  intros [(fav & Hfav & Hid)|[(fav & l & Hfav & Hl & Hid)|[Ht|[(w & Hw' & Hid)|Ht]]]].
  - apply bool_decide_eq_false in Hf. apply Hf. unfold favoriteIds.
    rewrite <- Hid. apply list_elem_of_fmap. now exists fav.
  - rewrite Hl in *. match goal with H : bool_decide _ = false |- _ =>
      apply bool_decide_eq_false in H; apply H end.
    unfold favoriteIds. rewrite <- Hid. apply list_elem_of_fmap. now exists fav.
  - apply (favoriteTitles_Some _ _ _ Hts) in Ht. apply has_elem in Ht. congruence.
  - assert (Hin : forall x, x ∈ Spec.idForms m -> Js.has (watchedIds watchedMovies) x = false).
    { intros x Hx. unfold Spec.idForms in Hx.
      apply elem_of_app in Hx as [Hx|Hx].
      - repeat (apply elem_of_cons in Hx as [->|Hx]); try assumption.
        now apply elem_of_nil in Hx.
      - destruct (Movie.localData m); [|now apply elem_of_nil in Hx].
        apply list_elem_of_singleton in Hx as ->. assumption. }
    specialize (Hin _ Hid).
    assert (Js.has (watchedIds watchedMovies) (watchedIdString w) = true); [|congruence].
    apply has_elem. unfold watchedIds. apply list_elem_of_fmap. now exists w.
  - apply has_elem in Ht. congruence.
Qed.

Lemma scoreMovie_Some currentYear prefs favIds favTitles wIds wTitles m s :
  scoreMovie currentYear prefs favIds favTitles wIds wTitles m = Some s ->
  movie s = m
  /\ isFavorite favIds favTitles m = false
  /\ isWatched wIds wTitles m = false
  /\ (0 < recommendationScore s)%Q.
Proof.
  unfold scoreMovie.
  destruct (isFavorite _ _ _), (isWatched _ _ _); cbn; try discriminate.
  destruct (Qle_bool _ 0) eqn:E; [discriminate|]. intros [= <-]. cbn.
  repeat split. apply Qnot_le_lt. intros H. apply Qle_bool_iff in H. congruence.
Qed.

(** *** Diversity filter: structure *)

Lemma diversityFilter_sublist c l : sublist (diversityFilter c l) l.
Proof.
  revert c. induction l as [|s l IH]; intros c; cbn [diversityFilter]; [constructor|].
  destruct (diversityStep c s) as [[] c']; [apply sublist_skip|apply sublist_cons]; apply IH.
Qed.

(** Every entry of a resolved list is a scored candidate of the loop. *)
Lemma result_entries limit scoredMovies l s :
  (l = take limit (JsArray.sort byScoreThenRating scoredMovies)
   \/ l = take limit (diverseMovies (JsArray.sort byScoreThenRating scoredMovies))) ->
  s ∈ l -> s ∈ scoredMovies.
Proof.
  intros [->| ->] Hs.
  - eapply elem_of_submseteq in Hs; [|apply sublist_submseteq, sublist_take].
    now apply SortFacts.sort_elem in Hs.
  - eapply elem_of_submseteq in Hs; [|apply sublist_submseteq, sublist_take].
    eapply elem_of_submseteq in Hs;
      [|apply sublist_submseteq, diversityFilter_sublist].
    now apply SortFacts.sort_elem in Hs.
Qed.

Lemma result_ranked limit scoredMovies l :
  (l = take limit (JsArray.sort byScoreThenRating scoredMovies)
   \/ l = take limit (diverseMovies (JsArray.sort byScoreThenRating scoredMovies))) ->
  (length l <= limit)%nat /\ Spec.ranked l.
Proof.
  intros [->| ->]; (split; [rewrite length_take; lia|]).
  - eapply SortFacts.sublist_sorted; [apply sublist_take|apply RankFacts.sort_ranked].
  - eapply SortFacts.sublist_sorted; [apply sublist_take|].
    eapply SortFacts.sublist_sorted; [apply diversityFilter_sublist|].
    apply RankFacts.sort_ranked.
Qed.

(** C4: whenever the assembler returns a list, on the early-termination path
    as on the full-scan path, the list has at most [limit] entries and is
    ordered by score descending, equal scores by rating descending; the
    promise fails to return a list only on a favorite without a title. *)
Theorem C4_result_is_ranked_and_cut currentYear st apiMovies localMovies favorites useAPI
    limit watchedMovies allMoviesForLookup userRatings :
  match fst (getRecommendedMovies currentYear st apiMovies localMovies favorites useAPI
               limit watchedMovies allMoviesForLookup userRatings) with
  | Resolved l => (length l <= limit)%nat /\ Spec.ranked l
  | Rejected _ => favoriteTitles favorites = None
  end.
Proof.
  destruct (getRecommendedMovies_cases currentYear st apiMovies localMovies favorites
              useAPI limit watchedMovies allMoviesForLookup userRatings)
    as [-> | (preferences & ->)].
  - split; [cbn; lia|constructor].
  - pose proof (assemble_shape currentYear preferences apiMovies localMovies favorites
                  useAPI limit watchedMovies allMoviesForLookup) as H.
    destruct (assemble _ _ _ _ _ _ _ _ _) as [l|]; [|exact H].
    destruct H as (favTitles & scoredMovies & _ & _ & _ & Hl).
    apply (result_ranked limit scoredMovies). tauto.
Qed.

(** C3 (amended): no returned movie is one the assembler's comparisons
    exclude: none has its canonical id or embedded local id equal to a
    favorite's id, none has an id form whose string equals the string of a
    watched entry's id, and none has a normalized title equal to that of a
    favorite, of a watched movie object or of a watched id resolved against
    the lookup list. *)
Theorem C3_no_excluded_movie_is_returned currentYear st apiMovies localMovies favorites
    useAPI limit watchedMovies allMoviesForLookup userRatings :
  match fst (getRecommendedMovies currentYear st apiMovies localMovies favorites useAPI
               limit watchedMovies allMoviesForLookup userRatings) with
  | Resolved l =>
      Forall (fun s => ~ Spec.excludedByCode favorites watchedMovies allMoviesForLookup
                         (movie s)) l
  | Rejected _ => favoriteTitles favorites = None
  end.
Proof.
  destruct (getRecommendedMovies_cases currentYear st apiMovies localMovies favorites
              useAPI limit watchedMovies allMoviesForLookup userRatings)
    as [-> | (preferences & ->)].
  - constructor.
  - pose proof (assemble_shape currentYear preferences apiMovies localMovies favorites
                  useAPI limit watchedMovies allMoviesForLookup) as H.
    destruct (assemble _ _ _ _ _ _ _ _ _) as [l|]; [|exact H].
    destruct H as (favTitles & scoredMovies & Hts & _ & Hsc & Hl).
    apply Forall_forall. intros s Hs.
    assert (Hin : s ∈ scoredMovies)
      by (apply (result_entries limit scoredMovies l s); [tauto|exact Hs]).
    destruct (Hsc s Hin) as (m & Hm).
    apply scoreMovie_Some in Hm as (<- & Hf & Hw & _).
    now apply (not_excluded favorites favTitles).
Qed.

(** X4: every returned entry has a positive score, and its score, rating
    and breakdown are the ones the scoring engine gives its movie for the
    profile of the call, the object [extractUserPreferences] returns for the
    call's arguments in the memoization state the call starts from. *)
Theorem returned_entries_scored_positive currentYear st apiMovies localMovies favorites
    useAPI limit watchedMovies allMoviesForLookup userRatings :
  let preferences :=
    value (fst (extractUserPreferences st favorites watchedMovies allMoviesForLookup
                  userRatings)) in
  match fst (getRecommendedMovies currentYear st apiMovies localMovies favorites useAPI
               limit watchedMovies allMoviesForLookup userRatings) with
  | Resolved l =>
      Forall (fun s =>
                let scoring :=
                  Scoring.calculateRecommendationScore currentYear (movie s)
                    (Scoring.precomputePreferences preferences) in
                (0 < recommendationScore s)%Q
                /\ recommendationScore s = Scoring.score scoring
                /\ recommendationRating s = Scoring.rating scoring
                /\ scoreBreakdown s = Scoring.breakdown scoring) l
  | Rejected _ => favoriteTitles favorites = None
  end.
Proof.
  cbv zeta.
  assert (Hbody : forall preferences,
            match assemble currentYear preferences apiMovies localMovies favorites useAPI
                    limit watchedMovies allMoviesForLookup with
            | Resolved l =>
                Forall (fun s =>
                          (0 < recommendationScore s)%Q
                          /\ recommendationScore s
                             = Scoring.score
                                 (Scoring.calculateRecommendationScore currentYear (movie s)
                                    (Scoring.precomputePreferences preferences))
                          /\ recommendationRating s
                             = Scoring.rating
                                 (Scoring.calculateRecommendationScore currentYear (movie s)
                                    (Scoring.precomputePreferences preferences))
                          /\ scoreBreakdown s
                             = Scoring.breakdown
                                 (Scoring.calculateRecommendationScore currentYear (movie s)
                                    (Scoring.precomputePreferences preferences))) l
            | Rejected _ => favoriteTitles favorites = None
            end).
  { intros preferences.
    pose proof (assemble_shape currentYear preferences apiMovies localMovies favorites
                  useAPI limit watchedMovies allMoviesForLookup) as H.
    destruct (assemble _ _ _ _ _ _ _ _ _) as [l|]; [|exact H].
    destruct H as (favTitles & scoredMovies & Hts & _ & Hsc & Hl).
    apply Forall_forall. intros s Hs.
    assert (Hin : s ∈ scoredMovies)
      by (apply (result_entries limit scoredMovies l s); [tauto|exact Hs]).
    destruct (Hsc s Hin) as (m & Hm).
    pose proof (scoreMovie_Some _ _ _ _ _ _ _ _ Hm) as (_ & _ & _ & Hpos).
    split; [exact Hpos|].
    unfold scoreMovie in Hm.
    destruct (isFavorite _ _ _ || isWatched _ _ _)%bool; [discriminate|].
    destruct (Qle_bool _ 0); [discriminate|].
    injection Hm as <-. cbn. repeat split. }
  unfold getRecommendedMovies.
  destruct (extractUserPreferences st favorites watchedMovies allMoviesForLookup userRatings)
    as [o st'].
  cbn [fst].
  destruct favorites, watchedMovies; try (now constructor);
    (destruct (noSignal (value o)); [now constructor|apply Hbody]).
Qed.

End AssemblerFacts.

(** ** The diversity pass *)
Module DiversityFacts.
Import Extractor Assembler.

Lemma countOf_insert (m : gmap string nat) k v k' :
  countOf (<[k := v]> m) k' = if decide (k = k') then v else countOf m k'.
Proof.
  unfold countOf. destruct (decide (k = k')) as [->|Hne].
  - now rewrite lookup_insert_eq.
  - now rewrite lookup_insert_ne.
Qed.

Abbreviation bumpAll :=
  (fold_left (fun (ac : gmap string nat) actor => <[actor := S (countOf ac actor)]> ac)).

Lemma bumpAll_mono cast ac a : (countOf ac a <= countOf (bumpAll cast ac) a)%nat.
Proof.
  revert ac. induction cast as [|x cast IH]; intros ac; cbn; [lia|].
  etransitivity; [|apply IH]. rewrite countOf_insert. destruct (decide _); subst; lia.
Qed.

Lemma bumpAll_other cast ac a : a ∉ cast -> countOf (bumpAll cast ac) a = countOf ac a.
Proof.
  revert ac. induction cast as [|x cast IH]; intros ac Ha; cbn; [reflexivity|].
  apply not_elem_of_cons in Ha as [Hne Ha].
  rewrite IH by exact Ha. rewrite countOf_insert. destruct (decide _); congruence.
Qed.

Lemma bumpAll_member cast ac a :
  a ∈ cast -> (S (countOf ac a) <= countOf (bumpAll cast ac) a)%nat.
Proof.
  revert ac. induction cast as [|x cast IH]; intros ac Ha; cbn.
  - now apply elem_of_nil in Ha.
  - destruct (decide (x = a)) as [->|Hne].
    + etransitivity; [|apply bumpAll_mono]. rewrite countOf_insert.
      destruct (decide _); [lia|congruence].
    + apply elem_of_cons in Ha as [->|Ha]; [congruence|].
      etransitivity; [|apply IH, Ha]. rewrite countOf_insert.
      destruct (decide _); [congruence|lia].
Qed.

(** One step of the filter never lowers a director's counter, and raises it
    when it keeps a movie of that director. *)
Lemma step_director c s keep c' d :
  diversityStep c s = (keep, c') -> d <> "" ->
  ((if (keep && bool_decide (Movie.director (movie s) = Some d))%bool then 1 else 0)
   + Nat.min maxPerDirector (countOf (directorCount c) d)
   <= Nat.min maxPerDirector (countOf (directorCount c') d))%nat.
Proof.
  unfold diversityStep, maxPerDirector. intros H Hd.
  assert (Hkeep : forall dc,
    match Movie.cast (movie s) with
    | Some (a :: cast') =>
        if existsb (fun actor => (maxPerActor <=? countOf (actorCount c) actor)%nat)
             (a :: cast')
        then (false, {| directorCount := dc; actorCount := actorCount c |})
        else (true, {| directorCount := dc;
                       actorCount := bumpAll (a :: cast') (actorCount c) |})
    | _ => (true, {| directorCount := dc; actorCount := actorCount c |})
    end = (keep, c') -> directorCount c' = dc).
  { intros dc E. destruct (Movie.cast (movie s)) as [[|? ?]|];
      try (injection E as <- <-; reflexivity).
    destruct (existsb _ _); injection E as <- <-; reflexivity. }
  destruct (Movie.director (movie s)) as [d0|] eqn:Ed.
  - destruct (String.eqb d0 "") eqn:Hempty.
    + apply Hkeep in H. rewrite H.
      apply String.eqb_eq in Hempty. subst d0.
      rewrite bool_decide_eq_false_2 by congruence. rewrite andb_false_r. lia.
    + destruct (3 <=? countOf (directorCount c) d0)%nat eqn:Hfull.
      * injection H as <- <-. cbn. lia.
      * apply Nat.leb_gt in Hfull. apply Hkeep in H. rewrite H, countOf_insert.
        destruct (decide (d0 = d)) as [->|Hneq].
        -- destruct (keep && _)%bool; lia.
        -- rewrite bool_decide_eq_false_2 by congruence. rewrite andb_false_r. lia.
  - apply Hkeep in H. rewrite H.
    rewrite bool_decide_eq_false_2 by congruence. rewrite andb_false_r. lia.
Qed.

(** One step never lowers an actor's counter, and raises it when it keeps a
    movie with that actor in the cast. *)
Lemma step_actor c s keep c' a :
  diversityStep c s = (keep, c') ->
  ((if (keep && bool_decide (a ∈ castOf (movie s)))%bool then 1 else 0)
   + Nat.min maxPerActor (countOf (actorCount c) a)
   <= Nat.min maxPerActor (countOf (actorCount c') a))%nat.
Proof.
  unfold diversityStep, maxPerActor. intros H.
  destruct (match Movie.director (movie s) with
            | Some _ => _
            | None => Some (directorCount c)
            end) as [dc|].
  2:{ injection H as <- <-. cbn. lia. }
  destruct (Movie.cast (movie s)) as [[|a0 cast']|] eqn:Ecast.
  - assert (Hc : castOf (movie s) = []) by (unfold castOf; now rewrite Ecast).
    injection H as <- <-. rewrite Hc, bool_decide_eq_false_2 by apply not_elem_of_nil.
    cbn. lia.
  - assert (Hc : castOf (movie s) = a0 :: cast') by (unfold castOf; now rewrite Ecast).
    rewrite Hc. set (cast := a0 :: cast') in *.
    destruct (existsb _ cast) eqn:Hex.
    + injection H as <- <-. cbn. lia.
    + injection H as <- <-. cbn [actorCount andb].
      destruct (bool_decide (a ∈ cast)) eqn:Hin.
      * apply bool_decide_eq_true in Hin.
        pose proof (bumpAll_member cast (actorCount c) a Hin) as Hb.
        assert (Hlt : (countOf (actorCount c) a < 2)%nat).
        { apply Nat.leb_gt.
          destruct (2 <=? countOf (actorCount c) a)%nat eqn:E; [|reflexivity].
          assert (existsb (fun actor => (2 <=? countOf (actorCount c) actor)%nat)
                    cast = true); [|congruence].
          apply existsb_exists. exists a. split; [now apply list_elem_of_In|exact E]. }
        subst cast. cbn [fold_left] in Hb. lia.
      * apply bool_decide_eq_false in Hin.
        pose proof (bumpAll_other cast (actorCount c) a Hin) as Hb.
        subst cast. cbn [fold_left] in Hb. lia.
  - assert (Hc : castOf (movie s) = []) by (unfold castOf; now rewrite Ecast).
    injection H as <- <-. rewrite Hc, bool_decide_eq_false_2 by apply not_elem_of_nil.
    cbn. lia.
Qed.

(** The counters bound what the filter still lets through. *)
Lemma diversityFilter_bounds l c d a :
  d <> "" ->
  (Spec.directorEntries d (diversityFilter c l)
   + Nat.min maxPerDirector (countOf (directorCount c) d) <= maxPerDirector)%nat
  /\ (Spec.actorEntries a (diversityFilter c l)
      + Nat.min maxPerActor (countOf (actorCount c) a) <= maxPerActor)%nat.
Proof.
  intros Hd. revert c. induction l as [|s l IH]; intros c; cbn [diversityFilter].
  - unfold Spec.directorEntries, Spec.actorEntries, maxPerDirector, maxPerActor.
    cbn [List.filter length]. lia.
  - destruct (diversityStep c s) as [keep c'] eqn:Hstep.
    pose proof (step_director c s keep c' d Hstep Hd) as HD.
    pose proof (step_actor c s keep c' a Hstep) as HA.
    destruct (IH c') as [IHd IHa].
    unfold Spec.directorEntries, Spec.actorEntries, maxPerDirector, maxPerActor in *.
    destruct keep; cbn [andb List.filter] in *.
    + destruct (bool_decide (Movie.director (movie s) = Some d)),
        (bool_decide (a ∈ castOf (movie s))); cbn [length]; lia.
    + lia.
Qed.

(** The diversity pass lets through at most 3 movies per director and at
    most 2 per cast member. *)
Lemma diverseMovies_bounds l d a :
  d <> "" ->
  (Spec.directorEntries d (diverseMovies l) <= 3)%nat
  /\ (Spec.actorEntries a (diverseMovies l) <= 2)%nat.
Proof.
  intros Hd.
  destruct (diversityFilter_bounds l {| directorCount := ∅; actorCount := ∅ |} d a Hd)
    as [H1 H2].
  unfold diverseMovies, maxPerDirector, maxPerActor in *. lia.
Qed.

Lemma filter_sublist_length {A} (f : A -> bool) (k l : list A) :
  sublist k l -> (length (List.filter f k) <= length (List.filter f l))%nat.
Proof.
  induction 1 as [|x k l H IH|x k l H IH]; cbn; [lia| |]; destruct (f x); cbn; lia.
Qed.

End DiversityFacts.

(** ** The assembler on concrete inputs and on small pools *)
Module AssemblerCases.
Import Extractor Assembler.

(** C2 (the code on the repository's test input): for the 50 candidates of
    one director of "should maintain diversity control efficiently" and
    [limit = 20] the loop stops early and the 20 returned entries are all
    by that director. *)
Theorem C2_early_termination_skips_diversity currentYear :
  match fst (getRecommendedMovies currentYear initialState [] (Fixtures.directorAPool 50)
               [Fixtures.directorAFavorite] false 20 [] [] ∅) with
  | Resolved l => length l = 20%nat /\ Spec.directorEntries "Director A" l = 20%nat
  | Rejected _ => False
  end.
Proof. vm_compute. split; reflexivity. Qed.

(** X1: with fewer candidates than [2 * limit] the loop cannot stop early,
    and in the returned list no director has more than 3 entries and no
    cast member more than 2. *)
Theorem diversity_holds_on_full_scan currentYear st (apiMovies : list Movie.t)
    (localMovies : list LocalMovie.t) favorites (useAPI : bool)
    limit watchedMovies allMoviesForLookup userRatings d a :
  (length localMovies + (if useAPI then length apiMovies else 0) < limit * 2)%nat ->
  d <> "" ->
  match fst (getRecommendedMovies currentYear st apiMovies localMovies favorites useAPI
               limit watchedMovies allMoviesForLookup userRatings) with
  | Resolved l =>
      (Spec.directorEntries d l <= 3)%nat /\ (Spec.actorEntries a l <= 2)%nat
  | Rejected _ => favoriteTitles favorites = None
  end.
Proof.
  intros Hsmall Hd.
  destruct (AssemblerFacts.getRecommendedMovies_cases currentYear st apiMovies localMovies
              favorites useAPI limit watchedMovies allMoviesForLookup userRatings)
    as [-> | (preferences & ->)].
  - cbn. lia.
  - pose proof (AssemblerFacts.assemble_shape currentYear preferences apiMovies localMovies
                  favorites useAPI limit watchedMovies allMoviesForLookup) as H.
    destruct (assemble _ _ _ _ _ _ _ _ _) as [l|]; [|exact H].
    destruct H as (favTitles & scoredMovies & _ & Hlen & _ & [[Hearly _]| ->]); [lia|].
    destruct (DiversityFacts.diverseMovies_bounds
                (JsArray.sort byScoreThenRating scoredMovies) d a Hd) as [H1 H2].
    unfold Spec.directorEntries, Spec.actorEntries in *.
    split; (etransitivity;
            [apply DiversityFacts.filter_sublist_length, sublist_take|assumption]).
Qed.

Lemma diversity_holds_on_full_scan_witness :
  (length (Fixtures.directorAPool 30) + 0 < 20 * 2)%nat
  /\ "Director A" <> ""
  /\ match fst (getRecommendedMovies 2026 initialState [] (Fixtures.directorAPool 30)
                  [Fixtures.directorAFavorite] false 20 [] [] ∅) with
     | Resolved l =>
         (Spec.directorEntries "Director A" l <= 3)%nat
         /\ (Spec.actorEntries "Somebody" l <= 2)%nat
     | Rejected _ => favoriteTitles [Fixtures.directorAFavorite] = None
     end.
Proof.
  assert (H1 : (length (Fixtures.directorAPool 30) + 0 < 20 * 2)%nat) by (vm_compute; lia).
  assert (H2 : "Director A" <> "") by discriminate.
  split; [exact H1|]. split; [exact H2|].
  apply (diversity_holds_on_full_scan 2026 initialState [] (Fixtures.directorAPool 30)
           [Fixtures.directorAFavorite] false 20 [] [] ∅ "Director A" "Somebody");
    [exact H1|exact H2].
Defined.

(** C3 (counterexample): a favorite stored under the provider's numeric id
    603 does not keep the catalog record [tmdb_603] (provider id 603, listed
    under another title) out of the result, although the record's [tmdbId]
    and stripped id equal the favorite's id. *)
Lemma C3_favorite_matched_by_tmdb_id_is_returned :
  exists s,
    fst (getRecommendedMovies 2026 initialState [Fixtures.matrixFromCatalog] []
           [Fixtures.matrixFavorite] true 20 [] [] ∅) = Resolved [s]
    /\ movie s = Fixtures.matrixFromCatalog
    /\ Movie.tmdbId (movie s) = Movie.id Fixtures.matrixFavorite
    /\ Spec.matchesSeen [Fixtures.matrixFavorite] [] [] (movie s).
Proof.
  eexists. split; [vm_compute; reflexivity|]. cbn [movie].
  split; [reflexivity|]. split; [reflexivity|].
  left. exists Fixtures.matrixFavorite. split; [apply list_elem_of_singleton; reflexivity|].
  vm_compute. apply elem_of_cons. right. apply elem_of_cons. now left.
Qed.

(** C10 (the code on the specification's scenario input): with the favorite
    [{id:1, genre:"Drama", imdb:"8.5"}], which has no title, the promise of
    [getRecommendedMovies] rejects instead of resolving to an array. *)
Theorem C10_untitled_favorite_rejects currentYear :
  fst (getRecommendedMovies currentYear initialState [] (Fixtures.directorAPool 50)
         [Fixtures.untitledFavorite] false 20 [] [] ∅) = Rejected "TypeError".
Proof. vm_compute. reflexivity. Qed.

End AssemblerCases.

(** ** The preference extractor *)
Module ExtractorFacts.
Import Extractor.

(** *** Memoization *)

Lemma cacheGet_set c k o : cacheGet (cacheSet c k o) k = Some o.
Proof. unfold cacheGet, cacheSet. cbn. now rewrite bool_decide_eq_true_2. Qed.

Lemma cacheGet_set_other c k k' o :
  k' <> k -> cacheGet (cacheSet c k o) k' = cacheGet c k'.
Proof.
  intros Hne. unfold cacheGet, cacheSet. cbn.
  rewrite bool_decide_eq_false_2 by congruence. f_equal.
  induction c as [|[k0 o0] c IH]; cbn; [reflexivity|].
  destruct (decide (k0 = k)) as [->|H0].
  - rewrite bool_decide_eq_true_2 by reflexivity. cbn.
    rewrite bool_decide_eq_false_2 by congruence. exact IH.
  - rewrite (bool_decide_eq_false_2 (k0 = k)) by exact H0. cbn.
    destruct (bool_decide (k0 = k')); [reflexivity|exact IH].
Qed.

(** A call never replaces or removes an entry of the cache. *)
Lemma entry_kept_by_call st favorites watchedMovies allMovies userRatings k o :
  cacheGet (preferencesCache st) k = Some o ->
  cacheGet (preferencesCache
              (snd (extractUserPreferences st favorites watchedMovies allMovies userRatings)))
           k = Some o.
Proof.
  intros Hk. unfold extractUserPreferences.
  destruct (cacheGet (preferencesCache st) (cacheKey favorites watchedMovies userRatings))
    as [o'|] eqn:Hget; [exact Hk|].
  destruct (favorites ++ watchedMoviesData watchedMovies allMovies)%list; [exact Hk|].
  cbn [snd preferencesCache]. rewrite cacheGet_set_other; [exact Hk|]. congruence.
Qed.

Lemma entry_kept st st' k o :
  Calls st st' ->
  cacheGet (preferencesCache st) k = Some o ->
  cacheGet (preferencesCache st') k = Some o.
Proof.
  induction 1 as [|st favorites watchedMovies allMovies userRatings st' _ IH]; [auto|].
  intros Hk. apply IH. now apply entry_kept_by_call.
Qed.

(** A call with a non-empty working set leaves its result in the cache. *)
Lemma result_is_cached st favorites watchedMovies allMovies userRatings :
  (favorites ++ watchedMoviesData watchedMovies allMovies)%list <> [] ->
  cacheGet (preferencesCache
              (snd (extractUserPreferences st favorites watchedMovies allMovies userRatings)))
           (cacheKey favorites watchedMovies userRatings)
  = Some (fst (extractUserPreferences st favorites watchedMovies allMovies userRatings)).
Proof.
  intros Hne. unfold extractUserPreferences.
  destruct (cacheGet (preferencesCache st) (cacheKey favorites watchedMovies userRatings))
    as [o'|] eqn:Hget; [exact Hget|].
  destruct (favorites ++ watchedMoviesData watchedMovies allMovies)%list; [congruence|].
  cbn [snd fst preferencesCache]. apply cacheGet_set.
Qed.

(** X2: with a non-empty working set, a later call with the same
    favorites, watched history and ratings returns the very object of the
    first call (same address), whatever calls were made in between. *)
Theorem memoized_for_nonempty_working_set st favorites watchedMovies allMovies userRatings
    st' allMovies' :
  (favorites ++ watchedMoviesData watchedMovies allMovies)%list <> [] ->
  Calls (snd (extractUserPreferences st favorites watchedMovies allMovies userRatings)) st' ->
  fst (extractUserPreferences st' favorites watchedMovies allMovies' userRatings)
  = fst (extractUserPreferences st favorites watchedMovies allMovies userRatings).
Proof.
  intros Hne Hcalls.
  pose proof (result_is_cached st favorites watchedMovies allMovies userRatings Hne) as Hc.
  apply (entry_kept _ _ _ _ Hcalls) in Hc.
  unfold extractUserPreferences at 1. now rewrite Hc.
Qed.

Lemma memoized_for_nonempty_working_set_witness :
  ([Fixtures.directorAFavorite] ++ watchedMoviesData [] [])%list <> []
  /\ Calls (snd (extractUserPreferences initialState [Fixtures.directorAFavorite] [] [] ∅))
           (snd (extractUserPreferences initialState [Fixtures.directorAFavorite] [] [] ∅))
  /\ ref (fst (extractUserPreferences
                 (snd (extractUserPreferences initialState [Fixtures.directorAFavorite]
                         [] [] ∅))
                 [Fixtures.directorAFavorite] [] [] ∅))
     = ref (fst (extractUserPreferences initialState [Fixtures.directorAFavorite] [] [] ∅)).
Proof.
  assert (H1 : ([Fixtures.directorAFavorite] ++ watchedMoviesData [] [])%list <> [])
    by discriminate.
  split; [exact H1|]. split; [constructor|].
  exact (f_equal ref
           (memoized_for_nonempty_working_set initialState [Fixtures.directorAFavorite]
              [] [] ∅ _ [] H1 (Calls_none _))).
Defined.

(** C6 (the code on all-empty inputs): two consecutive calls
    [extractUserPreferences([], [], [], {})] return equal profiles held by
    two different objects; the first result is not stored in the cache. *)
Theorem C6_empty_inputs_are_not_memoized :
  let first := extractUserPreferences initialState [] [] [] ∅ in
  let second := extractUserPreferences (snd first) [] [] [] ∅ in
  value (fst second) = value (fst first)
  /\ ref (fst second) <> ref (fst first)
  /\ preferencesCache (snd first) = [].
Proof. vm_compute. repeat split. discriminate. Qed.

(** In any state without an entry under the key, a call with an empty
    working set allocates a new object and stores nothing, so the next
    call allocates another one. *)
Lemma empty_working_set_allocates st favorites watchedMovies allMovies userRatings :
  cacheGet (preferencesCache st) (cacheKey favorites watchedMovies userRatings) = None ->
  (favorites ++ watchedMoviesData watchedMovies allMovies)%list = [] ->
  let first := extractUserPreferences st favorites watchedMovies allMovies userRatings in
  let second :=
    extractUserPreferences (snd first) favorites watchedMovies allMovies userRatings in
  ref (fst first) = nextRef st /\ ref (fst second) = S (nextRef st).
Proof.
  intros Hmiss Hempty. cbv zeta. unfold extractUserPreferences.
  rewrite Hmiss, Hempty. cbn [snd fst preferencesCache nextRef ref].
  rewrite Hmiss. cbn [snd fst preferencesCache nextRef ref]. split; reflexivity.
Qed.

End ExtractorFacts.

(** ** The rating floor of the profile *)
Module BaselineFacts.
Import Extractor.

(** C7 (the code against the claim and against its own comment): the
    source multiplies every favorite's rating by 1.5 and announces "Remove
    weight factor from average for threshold calculation", but divides by
    1.5 only when favorites and watched movies both carry ratings, and there
    the number of favorites as well as their sum.  With one favorite rated
    8.5, no watched movie and no explicit rating, the baseline kept in the
    profile is 12.75 and [minRating] is 12.25; the claimed weighted mean is
    8.5 and the claimed floor 8.  With one favorite and one watched movie,
    both rated 9.0, the baseline is 10.8 and [minRating] 10.3, where the
    weighted mean gives 9 and the floor 8.5 (and "multiply, then average"
    would give 10.75). *)
Theorem C7_weight_factor_stays_in_the_floor :
  let favoritesOnly :=
    value (fst (extractUserPreferences initialState [Fixtures.directorAFavorite] [] [] ∅)) in
  let mixed :=
    value (fst (extractUserPreferences initialState [Fixtures.nineFavorite]
                  [WObj Fixtures.nineWatched] [] ∅)) in
  map Movie.imdb [Fixtures.directorAFavorite; Fixtures.nineFavorite; Fixtures.nineWatched]
  = [Some (17 # 2)%Q; Some 9%Q; Some 9%Q]
  /\ (default 0 (Prefs.userAvgRating favoritesOnly) == 51 # 4)%Q
  /\ (Prefs.minRating favoritesOnly == 49 # 4)%Q
  /\ (Spec.weightedMean [Fixtures.directorAFavorite] [] == 17 # 2)%Q
  /\ (Spec.specMinRating (Spec.weightedMean [Fixtures.directorAFavorite] []) ∅ == 8)%Q
  /\ (default 0 (Prefs.userAvgRating mixed) == 54 # 5)%Q
  /\ (Prefs.minRating mixed == 103 # 10)%Q
  /\ (Spec.weightedMean [Fixtures.nineFavorite] [Fixtures.nineWatched] == 9)%Q
  /\ (Spec.specMinRating
        (Spec.weightedMean [Fixtures.nineFavorite] [Fixtures.nineWatched]) ∅ == 17 # 2)%Q
  /\ (Spec.specMinRating
        (Spec.scaledAverage [Fixtures.nineFavorite] [Fixtures.nineWatched]) ∅ == 43 # 4)%Q.
Proof. cbv zeta. repeat split; vm_compute; reflexivity. Qed.

End BaselineFacts.

(** ** The catalog client: content filters *)
Module FilterFacts.
Import CatalogClient.

Lemma personFilter_sound today m :
  Filters.personFilter today m = true -> Spec.passesCommonSteps today m.
Proof.
  unfold Filters.personFilter, Spec.passesCommonSteps. intros H.
  destruct (Filters.isMovieReleased today m); cbn [negb] in H; [|discriminate].
  destruct (Filters.isBlocked m); [discriminate|].
  destruct (Filters.hasLanguage "tr" m); cbn [orb] in H; [discriminate|].
  destruct (Filters.hasLanguage "es" m); [discriminate|].
  destruct (Filters.hasGenre Filters.MUSICAL m); [discriminate|].
  repeat split.
Qed.


Lemma genreFilter_sound today targets m :
  Filters.genreFilter today targets m = true -> Spec.passesGenreSteps today targets m.
Proof.
  unfold Filters.genreFilter, Spec.passesGenreSteps, Spec.passesCommonSteps. intros H.
  destruct (Movie.genre_ids m) as [[|g ids]|] eqn:Eids; try discriminate.
  destruct (Filters.isMovieReleased today m); cbn [negb] in H; [|discriminate].
  destruct (Filters.isBlocked m); [discriminate|].
  destruct (Filters.hasLanguage "tr" m); [discriminate|].
  destruct (Filters.hasLanguage "es" m); [discriminate|].
  destruct (Filters.hasGenre Filters.MUSICAL m); [discriminate|].
  assert (Htarget : exists t, t ∈ targets /\ Filters.hasGenre t m = true).
  { destruct (negb _ && _)%bool; [discriminate|].
    apply existsb_exists in H as (t & Ht & Hg). exists t.
    split; [now apply list_elem_of_In|]. unfold Filters.hasGenre. now rewrite Eids. }
  split; [now exists g, ids|]. split; [repeat split|]. split; [|exact Htarget].
  intros Ec. rewrite Ec in H. cbn [negb andb] in H.
  destruct (Filters.hasGenre Filters.FAMILY m); [discriminate|reflexivity].
Qed.

Lemma Forall_filter_sound {A} (f : A -> bool) (P : A -> Prop) l :
  (forall x, f x = true -> P x) -> Forall P (List.filter f l).
Proof.
  intros H. apply Forall_forall. intros x Hx.
  apply list_elem_of_In, filter_In in Hx as [_ Hx]. auto.
Qed.

Lemma Forall_sort {A} (le : A -> A -> bool) (P : A -> Prop) l :
  Forall P l -> Forall P (JsArray.sort le l).
Proof. now rewrite (SortFacts.sort_perm le l). Qed.

Lemma Forall_finalSort (P : Movie.t -> Prop) s l :
  Forall P l -> Forall P (finalSort s l).
Proof. unfold finalSort. destruct (_ || _)%bool; [apply Forall_sort|auto]. Qed.

(** *** The cache *)

Lemma cacheDelete_subset c key kv : kv ∈ cacheDelete c key -> kv ∈ c.
Proof. unfold cacheDelete. intros H. now apply list_elem_of_In, filter_In in H as [H%list_elem_of_In _]. Qed.

Lemma getCached_sound today now c key :
  Spec.cacheSound today c ->
  Spec.cacheSound today (snd (getCached now c key))
  /\ match fst (getCached now c key) with
     | Some cached => Spec.entrySound today key cached
     | None => True
     end.
Proof.
  intros Hc. unfold getCached.
  destruct (find _ c) as [[k e]|] eqn:Ef.
  - apply find_some in Ef as [Hin Hk]. apply bool_decide_eq_true in Hk. cbn in Hk. subst k.
    destruct (now - timestamp e <? CACHE_DURATION); cbn [fst snd].
    + split; [exact Hc|]. apply (Hc key e). now apply list_elem_of_In.
    + split; [|exact I]. intros k' e' H. apply (Hc k' e'). now apply cacheDelete_subset in H.
  - cbn [fst snd]. split; [|exact I].
    intros k' e' H. apply (Hc k' e'). now apply cacheDelete_subset in H.
Qed.

(** *** Soundness of a cache on a later day *)

Lemma dateLe_trans a b c :
  Filters.dateLe a b = true -> Filters.dateLe b c = true -> Filters.dateLe a c = true.
Proof. unfold Filters.dateLe. intros H1 H2. lia. Qed.

Lemma dateLe_year a b : Filters.dateLe a b = true -> d_year a <= d_year b.
Proof. unfold Filters.dateLe. lia. Qed.

(** A released movie stays released. *)
Lemma isMovieReleased_later today today' m :
  Filters.dateLe today today' = true ->
  Filters.isMovieReleased today m = true -> Filters.isMovieReleased today' m = true.
Proof.
  intros Hle. unfold Filters.isMovieReleased.
  destruct (Movie.release_date m) as [d|].
  - intros H. now apply (dateLe_trans d today today').
  - destruct (Movie.year m) as [y|]; [|reflexivity].
    apply dateLe_year in Hle. lia.
Qed.

Lemma passesCommonSteps_later today today' m :
  Filters.dateLe today today' = true ->
  Spec.passesCommonSteps today m -> Spec.passesCommonSteps today' m.
Proof.
  intros Hle (H1 & H2). split; [|exact H2]. now apply (isMovieReleased_later today).
Qed.

(** A cache whose entries satisfied their steps on the day they were stored
    satisfies them on every later day. *)
Lemma cacheSound_later today today' c :
  Filters.dateLe today today' = true ->
  Spec.cacheSound today c -> Spec.cacheSound today' c.
Proof.
  intros Hle Hc key e Hin. specialize (Hc key e Hin).
  destruct key; cbn [Spec.entrySound] in *;
    (eapply Forall_impl; [exact Hc|]); cbn.
  - intros m (H1 & H2 & H3). split; [exact H1|]. split; [|exact H3].
    now apply (passesCommonSteps_later today).
  - intros m. now apply passesCommonSteps_later.
  - intros m. now apply passesCommonSteps_later.
  - intros m (H1 & H2). split; [|exact H2]. now apply (passesCommonSteps_later today).
  - intros m (H1 & H2). split; [|exact H2]. now apply (passesCommonSteps_later today).
Qed.

Lemma setCache_sound today now c key d :
  Spec.cacheSound today c -> Spec.entrySound today key d ->
  Spec.cacheSound today (setCache now c key d).
Proof.
  intros Hc Hd k e H. unfold setCache in H. apply elem_of_cons in H as [[= -> ->]|H].
  - exact Hd.
  - apply (Hc k e). now apply cacheDelete_subset in H.
Qed.

End FilterFacts.

(** ** The catalog client: the queries *)
Module CatalogFacts.
Import CatalogClient FilterFacts.

Section Sound.
Variables (net : Network) (today : IsoDate) (now : Z).

Lemma searchMoviesByPerson_sound c key personName select :
  (forall movies, Forall (Spec.passesCommonSteps today) movies <->
                  Spec.entrySound today key movies) ->
  Spec.cacheSound today c ->
  Forall (Spec.passesCommonSteps today)
    (fst (searchMoviesByPerson net today now c key personName select))
  /\ Spec.cacheSound today (snd (searchMoviesByPerson net today now c key personName select)).
Proof.
  intros Hkey Hc. unfold searchMoviesByPerson.
  destruct (getCached_sound today now c key Hc) as [Hc' Hhit].
  destruct (getCached now c key) as [[cached|] c']; cbn [fst snd] in *.
  - split; [now apply Hkey|exact Hc'].
  - destruct (searchPerson net personName) as [[person|]| | |]; cbn [fst snd];
      try (split; [constructor|exact Hc']).
    destruct (personMovieCredits net person) as [personData| | |]; cbn [fst snd];
      try (split; [constructor|exact Hc']).
    assert (Hres : Forall (Spec.passesCommonSteps today)
              (List.filter (Filters.personFilter today)
                 (omap (creditDetails net) (take 10 (select personData)))))
      by (apply Forall_filter_sound, personFilter_sound).
    split; [exact Hres|]. apply setCache_sound; [exact Hc'|now apply Hkey].
Qed.

Lemma searchMoviesByDirector_sound c directorName :
  Spec.cacheSound today c ->
  Forall (Spec.passesCommonSteps today)
    (fst (searchMoviesByDirector net today now c directorName))
  /\ Spec.cacheSound today (snd (searchMoviesByDirector net today now c directorName)).
Proof.
  intros Hc. unfold searchMoviesByDirector.
  destruct (String.eqb directorName ""); [split; [constructor|exact Hc]|].
  now apply searchMoviesByPerson_sound.
Qed.

Lemma searchMoviesByActor_sound c actorName :
  Spec.cacheSound today c ->
  Forall (Spec.passesCommonSteps today)
    (fst (searchMoviesByActor net today now c actorName))
  /\ Spec.cacheSound today (snd (searchMoviesByActor net today now c actorName)).
Proof.
  intros Hc. unfold searchMoviesByActor.
  destruct (String.eqb actorName ""); [split; [constructor|exact Hc]|].
  now apply searchMoviesByPerson_sound.
Qed.

Lemma searchMoviesByGenre_sound c genre options :
  Spec.cacheSound today c ->
  Forall (Spec.passesGenreSteps today (Spec.targetGenres genre))
    (fst (searchMoviesByGenre net today now c genre options))
  /\ Spec.cacheSound today (snd (searchMoviesByGenre net today now c genre options)).
Proof.
  intros Hc. unfold searchMoviesByGenre, Spec.targetGenres.
  destruct (ApiConfig.GENRE_MAP genre) as [genreIds|]; [|split; [constructor|exact Hc]].
  set (genreIdArray := match genreIds with
                       | ApiConfig.Single g => [g]
                       | ApiConfig.Merged gs => gs
                       end).
  destruct (getCached_sound today now c (genreCacheKey genreIdArray options) Hc)
    as [Hc' Hhit].
  destruct (getCached now c (genreCacheKey genreIdArray options)) as [[cached|] c'];
    cbn [fst snd] in *.
  - split; [exact Hhit|exact Hc'].
  - destruct (discoverMovie net _) as [results| | |]; cbn [fst snd];
      try (split; [constructor|exact Hc']).
    match goal with |- Forall _ ?l /\ _ =>
      assert (Hres : Forall (Spec.passesGenreSteps today genreIdArray) l)
        by (apply Forall_finalSort, Forall_filter_sound, genreFilter_sound)
    end.
    split; [exact Hres|]. apply setCache_sound; [exact Hc'|exact Hres].
Qed.


End Sound.


(** The key of a genre query does not depend on [limit]. *)
Lemma genreCacheKey_ignores_limit genreIdArray options limit :
  genreCacheKey genreIdArray
    {| minYear := minYear options; maxYear := maxYear options;
       minRating := minRating options; opt_page := opt_page options;
       opt_limit := limit; sortBy := sortBy options |}
  = genreCacheKey genreIdArray options.
Proof. reflexivity. Qed.

(** C9 (the code on two calls that differ in [limit] only): the catalog
    holds two comedies; after [searchMoviesByGenre('Komedi', {limit: 1})] a
    call with [limit: 20] one second later is answered from the cache with
    the single movie of the first call, where a fresh call returns both.
    [searchMoviesInTMDB] does the same, while [getTopRatedMovies], whose key
    holds [limit], returns both. *)
Theorem C9_limit_is_missing_from_the_key :
  genreCacheKey [35] (Fixtures.withLimit 1) = genreCacheKey [35] (Fixtures.withLimit 20)
  /\ map Movie.title
       (fst (searchMoviesByGenre Fixtures.catalog Fixtures.today 0 [] "Komedi"
               (Fixtures.withLimit 20)))
     = [Some "Comedy One"; Some "Comedy Two"]
  /\ map Movie.title
       (fst (searchMoviesByGenre Fixtures.catalog Fixtures.today 1000
               (snd (searchMoviesByGenre Fixtures.catalog Fixtures.today 0 [] "Komedi"
                       (Fixtures.withLimit 1)))
               "Komedi" (Fixtures.withLimit 20)))
     = [Some "Comedy One"]
  /\ map Movie.title
       (fst (searchMoviesInTMDB Fixtures.catalog Fixtures.today 1000
               (snd (searchMoviesInTMDB Fixtures.catalog Fixtures.today 0 [] "comedy" 1 1))
               "comedy" 1 20))
     = [Some "Comedy One"]
  /\ map Movie.title
       (fst (getTopRatedMovies Fixtures.catalog Fixtures.today 1000
               (snd (getTopRatedMovies Fixtures.catalog Fixtures.today 0 [] 1 1 None))
               1 20 None))
     = [Some "Comedy One"; Some "Comedy Two"].
Proof. vm_compute. repeat split. Qed.

End CatalogFacts.

(** ** Merging local and catalog movies *)
Module MergeFacts.

Lemma addByTitle_keys movies movieMap r :
  MovieApi.addByTitle movies movieMap = Some r ->
  NoDup (map fst movieMap) ->
  (forall kv, kv ∈ movieMap -> Movie.title (snd kv) <> None
                               /\ fst kv = MovieApi.titleKey (default "" (Movie.title (snd kv)))) ->
  NoDup (map fst r)
  /\ (forall kv, kv ∈ r -> Movie.title (snd kv) <> None
                           /\ fst kv = MovieApi.titleKey (default "" (Movie.title (snd kv))))
  /\ (exists added, r = (movieMap ++ added)%list).
Proof.
  revert movieMap. induction movies as [|m ms IH]; intros movieMap; cbn [MovieApi.addByTitle].
  - intros [= <-] Hnd Hk. split; [exact Hnd|]. split; [exact Hk|]. exists []. now rewrite app_nil_r.
  - destruct (Movie.title m) as [t|] eqn:Et; [|discriminate].
    destruct (existsb _ movieMap) eqn:Hex; intros H Hnd Hk.
    + now apply IH.
    + destruct (IH _ H) as (H1 & H2 & added & H3).
      * rewrite map_app. cbn. apply NoDup_app. split; [exact Hnd|]. split.
        -- intros k Hin Hin'. apply list_elem_of_singleton in Hin'. subst k.
           apply list_elem_of_fmap in Hin as (kv & Hkv & Hin).
           assert (existsb (fun kv => String.eqb (fst kv) (MovieApi.titleKey t)) movieMap
                   = true); [|congruence].
           apply existsb_exists. exists kv. split; [now apply list_elem_of_In|].
           rewrite <- Hkv. apply String.eqb_refl.
        -- apply NoDup_singleton.
      * intros kv Hin. apply elem_of_app in Hin as [Hin|Hin]; [now apply Hk|].
        apply list_elem_of_singleton in Hin. subst kv. cbn [fst snd]. rewrite Et.
        split; [discriminate|reflexivity].
      * split; [exact H1|]. split; [exact H2|].
        exists ([(MovieApi.titleKey t, m)] ++ added)%list. now rewrite H3, app_assoc.
Qed.

(** X6: a merge that succeeds returns movies with pairwise different
    normalized titles. *)
Theorem merged_titles_are_distinct localMovies apiMovies merged :
  MovieApi.mergeLocalAndAPIResults localMovies apiMovies = Some merged ->
  NoDup (map (fun m => MovieApi.titleKey (default "" (Movie.title m))) merged).
Proof.
  unfold MovieApi.mergeLocalAndAPIResults.
  destruct (MovieApi.addByTitle localMovies []) as [m1|] eqn:E1; [|discriminate].
  destruct (MovieApi.addByTitle apiMovies m1) as [m2|] eqn:E2; [|discriminate].
  intros [= <-].
  destruct (addByTitle_keys _ _ _ E1) as (N1 & K1 & _).
  { constructor. }
  { intros kv H. now apply elem_of_nil in H. }
  destruct (addByTitle_keys _ _ _ E2 N1 K1) as (N2 & K2 & _).
  assert (Hmap : map (fun m => MovieApi.titleKey (default "" (Movie.title m))) (map snd m2)
                 = map fst m2).
  { rewrite map_map. apply map_ext_in. intros kv Hin.
    apply list_elem_of_In in Hin. destruct (K2 kv Hin) as [_ ->]. reflexivity. }
  now rewrite Hmap.
Qed.

Lemma merged_titles_are_distinct_witness :
  MovieApi.mergeLocalAndAPIResults [Fixtures.nineFavorite] [Fixtures.sixFavorite; Fixtures.nineWatched]
  = Some [Fixtures.nineFavorite; Fixtures.nineWatched]
  /\ NoDup (map (fun m => MovieApi.titleKey (default "" (Movie.title m)))
              [Fixtures.nineFavorite; Fixtures.nineWatched]).
Proof.
  assert (H : MovieApi.mergeLocalAndAPIResults [Fixtures.nineFavorite]
                [Fixtures.sixFavorite; Fixtures.nineWatched]
              = Some [Fixtures.nineFavorite; Fixtures.nineWatched]) by reflexivity.
  split; [exact H|exact (merged_titles_are_distinct _ _ _ H)].
Defined.

End MergeFacts.

(** ** Failed requests *)
Module FailureFacts.
Import CatalogClient.

Lemma getCached_from_cache now c key cached :
  fst (getCached now c key) = Some cached ->
  exists e, (key, e) ∈ c /\ cached = data e.
Proof.
  unfold getCached. destruct (find _ c) as [[k e]|] eqn:Ef; [|discriminate].
  apply find_some in Ef as [Hin Hk]. apply bool_decide_eq_true in Hk. cbn in Hk. subst k.
  destruct (now - timestamp e <? CACHE_DURATION); [|discriminate].
  intros [= <-]. exists e. split; [now apply list_elem_of_In|reflexivity].
Qed.

(** X5: when the first request of a query fails (network error, non-2xx
    status or malformed JSON), the query resolves to the empty list unless
    it is answered from the cache; the failure does not propagate. *)
Theorem failed_request_gives_empty_list net today now c genre options personName
    page limit s query :
  (forall params body, discoverMovie net params <> Ok body) ->
  (forall name body, searchPerson net name <> Ok body) ->
  (forall q p body, searchMovie net q p <> Ok body) ->
  Spec.emptyOrCached c (fst (searchMoviesByGenre net today now c genre options))
  /\ Spec.emptyOrCached c (fst (searchMoviesByDirector net today now c personName))
  /\ Spec.emptyOrCached c (fst (searchMoviesByActor net today now c personName))
  /\ Spec.emptyOrCached c (fst (getTopRatedMovies net today now c page limit s))
  /\ Spec.emptyOrCached c (fst (searchMoviesInTMDB net today now c query page limit)).
Proof.
  intros Hd Hp Hs.
  assert (Hhit : forall key cached c',
            getCached now c key = (Some cached, c') ->
            forall l, sublist l cached -> Spec.emptyOrCached c l).
  { intros key cached c' Eg l Hl.
    destruct (getCached_from_cache now c key cached) as (e & Hin & ->);
      [now rewrite Eg|].
    right. now exists key, e. }
  assert (Hperson : forall key select name,
            Spec.emptyOrCached c (fst (searchMoviesByPerson net today now c key name select))).
  { intros key select name. unfold searchMoviesByPerson.
    destruct (getCached now c key) as [[cached|] c'] eqn:Eg; cbn [fst].
    - now apply (Hhit key cached c' Eg).
    - left. destruct (searchPerson net name) as [body| | |] eqn:E; try reflexivity.
      now apply Hp in E. }
  repeat split.
  - unfold searchMoviesByGenre.
    destruct (ApiConfig.GENRE_MAP genre) as [genreIds|]; [|now left].
    match goal with |- context [getCached now c ?k] =>
      destruct (getCached now c k) as [[cached|] c'] eqn:Eg; cbn [fst];
      [now apply (Hhit k cached c' Eg)|] end.
    left. destruct (discoverMovie net _) as [body| | |] eqn:E; try reflexivity.
    now apply Hd in E.
  - unfold searchMoviesByDirector. destruct (String.eqb personName ""); [now left|apply Hperson].
  - unfold searchMoviesByActor. destruct (String.eqb personName ""); [now left|apply Hperson].
  - unfold getTopRatedMovies.
    match goal with |- context [getCached now c ?k] =>
      destruct (getCached now c k) as [[cached|] c'] eqn:Eg; cbn [fst];
      [now apply (Hhit k cached c' Eg)|] end.
    left. destruct (discoverMovie net _) as [body| | |] eqn:E; try reflexivity.
    now apply Hd in E.
  - unfold searchMoviesInTMDB.
    destruct (String.length (Js.trim query) =? 0)%nat; [now left|].
    match goal with |- context [getCached now c ?k] =>
      destruct (getCached now c k) as [[cached|] c'] eqn:Eg; cbn [fst];
      [apply (Hhit k cached c' Eg), sublist_take|] end.
    left. destruct (searchMovie net _ _) as [body| | |] eqn:E; try reflexivity.
    now apply Hs in E.
Qed.

Lemma failed_request_gives_empty_list_witness :
  (forall params body, discoverMovie Fixtures.offline params <> Ok body)
  /\ (forall name body, searchPerson Fixtures.offline name <> Ok body)
  /\ (forall q p body, searchMovie Fixtures.offline q p <> Ok body)
  /\ Spec.emptyOrCached []
       (fst (searchMoviesByGenre Fixtures.offline Fixtures.today 0 [] "Drama"
               (Fixtures.withLimit 20))).
Proof.
  assert (H1 : forall params body, discoverMovie Fixtures.offline params <> Ok body)
    by (intros; discriminate).
  assert (H2 : forall name body, searchPerson Fixtures.offline name <> Ok body)
    by (intros; discriminate).
  assert (H3 : forall q p body, searchMovie Fixtures.offline q p <> Ok body)
    by (intros; discriminate).
  split; [exact H1|]. split; [exact H2|]. split; [exact H3|].
  exact (proj1 (failed_request_gives_empty_list Fixtures.offline Fixtures.today 0 []
                  "Drama" (Fixtures.withLimit 20) "Somebody" 1 20%nat None "drama"
                  H1 H2 H3)).
Defined.

End FailureFacts.

(** ** The response cache *)
Module CacheFacts.
Import CatalogClient.

Lemma cacheDelete_miss c key :
  find (fun kv : CacheKey * Entry => bool_decide (fst kv = key)) (cacheDelete c key) = None.
Proof.
  unfold cacheDelete. induction c as [|[k e] c IH]; [reflexivity|].
  cbn [List.filter fst]. destruct (bool_decide (k = key)) eqn:E; cbn [negb]; [exact IH|].
  cbn [find fst]. now rewrite E.
Qed.

Lemma cacheDelete_other c key key' :
  key' <> key ->
  find (fun kv : CacheKey * Entry => bool_decide (fst kv = key')) (cacheDelete c key)
  = find (fun kv : CacheKey * Entry => bool_decide (fst kv = key')) c.
Proof.
  intros Hne. unfold cacheDelete. induction c as [|[k e] c IH]; [reflexivity|].
  cbn [List.filter find fst]. destruct (bool_decide (k = key)) eqn:E; cbn [negb].
  - apply bool_decide_eq_true in E. subst k.
    rewrite (bool_decide_eq_false_2 (key = key')); [exact IH|congruence].
  - cbn [find fst]. now rewrite IH.
Qed.

Lemma cacheDelete_idem c key : cacheDelete (cacheDelete c key) key = cacheDelete c key.
Proof.
  unfold cacheDelete. induction c as [|[k e] c IH]; [reflexivity|].
  cbn [List.filter fst]. destruct (bool_decide (k = key)) eqn:E; cbn [negb]; [exact IH|].
  cbn [List.filter fst]. rewrite E. cbn [negb]. now rewrite IH.
Qed.

Lemma cacheDelete_absent c key :
  find (fun kv : CacheKey * Entry => bool_decide (fst kv = key)) c = None ->
  cacheDelete c key = c.
Proof.
  unfold cacheDelete. induction c as [|[k e] c IH]; [reflexivity|].
  cbn [List.filter find fst]. destruct (bool_decide (k = key)); [discriminate|].
  intros H. cbn [negb]. now rewrite IH.
Qed.

(** X7: what was stored under a key is read back unchanged for the next five
    minutes, and the first read after that removes the entry. *)
Theorem stored_entry_lives_five_minutes now now' c key d :
  getCached now' (setCache now c key d) key
  = if now' - now <? CACHE_DURATION then (Some d, setCache now c key d)
    else (None, cacheDelete c key).
Proof.
  unfold getCached, setCache. cbn [find fst]. rewrite (bool_decide_eq_true_2 (key = key) eq_refl).
  cbn [timestamp data]. destruct (now' - now <? CACHE_DURATION); [reflexivity|].
  f_equal. unfold cacheDelete at 1. cbn [List.filter fst].
  rewrite (bool_decide_eq_true_2 (key = key) eq_refl). cbn [negb]. apply cacheDelete_idem.
Qed.

Lemma getCached_other now now' c key key' :
  key' <> key ->
  fst (getCached now' (snd (getCached now c key)) key') = fst (getCached now' c key').
Proof.
  intros Hne. unfold getCached at 2.
  assert (H : fst (getCached now' (cacheDelete c key) key') = fst (getCached now' c key')).
  { unfold getCached. rewrite cacheDelete_other by assumption.
    destruct (find _ c) as [[? e']|]; [destruct (_ <? _)|]; reflexivity. }
  destruct (find _ c) as [[k e]|]; [|exact H].
  destruct (now - timestamp e <? CACHE_DURATION); [reflexivity|exact H].
Qed.

Lemma setCache_other now now' c key key' d :
  key' <> key ->
  fst (getCached now' (setCache now c key d) key') = fst (getCached now' c key').
Proof.
  intros Hne. unfold getCached, setCache. cbn [find fst].
  rewrite (bool_decide_eq_false_2 (key = key')) by congruence.
  rewrite cacheDelete_other by assumption.
  destruct (find _ c) as [[? e']|]; [destruct (_ <? _)|]; reflexivity.
Qed.

Lemma cacheDelete_keys c key : NoDup (map fst c) -> NoDup (map fst (cacheDelete c key)).
Proof.
  unfold cacheDelete. induction c as [|[k e] c IH]; [constructor|].
  cbn [map fst List.filter]. intros H. apply NoDup_cons in H as [Hk H].
  destruct (bool_decide (k = key)); cbn [negb]; [now apply IH|].
  cbn [map fst]. apply NoDup_cons. split; [|now apply IH].
  intros Hin. apply Hk. apply list_elem_of_fmap in Hin as (kv & -> & Hin).
  apply list_elem_of_fmap. exists kv. split; [reflexivity|].
  now apply list_elem_of_In, filter_In in Hin as [Hin%list_elem_of_In _].
Qed.

Lemma cacheDelete_not_key c key : key ∉ map fst (cacheDelete c key).
Proof.
  intros Hin. apply list_elem_of_fmap in Hin as ([k e] & Hk & Hin). cbn in Hk. subst k.
  apply list_elem_of_In, filter_In in Hin as [_ Hin]. cbn in Hin.
  now rewrite (bool_decide_eq_true_2 (key = key) eq_refl) in Hin.
Qed.

(** X8: reading or writing one key leaves the answer of every other key as
    it was, and the cache keeps at most one entry per key. *)
Theorem other_keys_are_untouched now now' c key key' d :
  key' <> key ->
  fst (getCached now' (setCache now c key d) key') = fst (getCached now' c key')
  /\ fst (getCached now' (snd (getCached now c key)) key') = fst (getCached now' c key')
  /\ (NoDup (map fst c) ->
      NoDup (map fst (setCache now c key d)) /\ NoDup (map fst (snd (getCached now c key)))).
Proof.
  intros Hne. split; [now apply setCache_other|]. split; [now apply getCached_other|].
  intros Hnd. split.
  - unfold setCache. cbn [map fst]. apply NoDup_cons.
    split; [apply cacheDelete_not_key|now apply cacheDelete_keys].
  - unfold getCached. destruct (find _ c) as [[k e]|]; [|now apply cacheDelete_keys].
    destruct (now - timestamp e <? CACHE_DURATION); [exact Hnd|now apply cacheDelete_keys].
Qed.

Lemma other_keys_are_untouched_witness :
  SearchKey "alien" 1 <> SearchKey "heat" 1
  /\ fst (getCached 10 (setCache 0 [] (SearchKey "heat" 1) []) (SearchKey "alien" 1))
     = fst (getCached 10 [] (SearchKey "alien" 1)).
Proof.
  assert (H : SearchKey "alien" 1 <> SearchKey "heat" 1) by discriminate.
  split; [exact H|].
  exact (proj1 (other_keys_are_untouched 0 10 [] (SearchKey "heat" 1) (SearchKey "alien" 1) [] H)).
Defined.

End CacheFacts.

(** ** The queries and the cache *)
Module ReplayFacts.
Import CatalogClient CacheFacts.

Lemma cold_miss now c key :
  Notions.cold now c -> getCached now c key = (None, cacheDelete c key).
Proof.
  intros H. specialize (H key). unfold getCached in *.
  destruct (find _ c) as [[k e]|]; [|reflexivity].
  destruct (now - timestamp e <? CACHE_DURATION); [discriminate|reflexivity].
Qed.

Lemma getCached_live now now' c key d :
  (now' - now <? CACHE_DURATION) = true ->
  getCached now' (setCache now c key d) key = (Some d, setCache now c key d).
Proof.
  intros H. unfold getCached, setCache. cbn [find fst].
  rewrite (bool_decide_eq_true_2 (key = key) eq_refl). cbn [timestamp data]. now rewrite H.
Qed.

Section Replay.
Variables (net net' : Network) (today today' : IsoDate) (now now' : Z) (c : Cache).
Hypothesis Hcold : Notions.cold now c.
Hypothesis Hlive : now' - now < CACHE_DURATION.

Lemma live : (now' - now <? CACHE_DURATION) = true.
Proof. now apply Z.ltb_lt. Qed.

Lemma replay_person key personName select select' :
  (forall name, exists person, searchPerson net name = Ok (Some person)) ->
  (forall person, exists credits, personMovieCredits net person = Ok credits) ->
  fst (searchMoviesByPerson net' today' now'
         (snd (searchMoviesByPerson net today now c key personName select))
         key personName select')
  = fst (searchMoviesByPerson net today now c key personName select).
Proof.
  intros Hp Hc. unfold searchMoviesByPerson at 2 3. rewrite (cold_miss now c key Hcold).
  destruct (Hp personName) as [person ->]. destruct (Hc person) as [credits ->].
  cbn [fst snd]. unfold searchMoviesByPerson. now rewrite (getCached_live _ _ _ _ _ live).
Qed.

End Replay.

(** X9: a query the catalog answered is replayed from the cache for the
    next five minutes, whatever the catalog, the date and the state of the
    network are by then. *)
Theorem answered_query_is_replayed net net' today today' now now' c
    genre options page limit s query personName :
  Notions.cold now c ->
  Notions.answering net ->
  now' - now < CACHE_DURATION ->
  fst (searchMoviesByGenre net' today' now'
         (snd (searchMoviesByGenre net today now c genre options)) genre options)
  = fst (searchMoviesByGenre net today now c genre options)
  /\ fst (getTopRatedMovies net' today' now'
            (snd (getTopRatedMovies net today now c page limit s)) page limit s)
     = fst (getTopRatedMovies net today now c page limit s)
  /\ fst (searchMoviesInTMDB net' today' now'
            (snd (searchMoviesInTMDB net today now c query page limit)) query page limit)
     = fst (searchMoviesInTMDB net today now c query page limit)
  /\ fst (searchMoviesByDirector net' today' now'
            (snd (searchMoviesByDirector net today now c personName)) personName)
     = fst (searchMoviesByDirector net today now c personName)
  /\ fst (searchMoviesByActor net' today' now'
            (snd (searchMoviesByActor net today now c personName)) personName)
     = fst (searchMoviesByActor net today now c personName).
Proof.
  intros Hcold (Hd & Hp & Hc & Hs) Hlive.
  pose proof (live now now' Hlive) as Hl.
  repeat split.
  - unfold searchMoviesByGenre at 2 3.
    destruct (ApiConfig.GENRE_MAP genre) as [genreIds|] eqn:Eg;
      [|cbn [fst snd]; unfold searchMoviesByGenre; now rewrite Eg].
    rewrite (cold_miss now c _ Hcold).
    match goal with |- context [discoverMovie net ?p] => destruct (Hd p) as [results ->] end.
    cbn [fst snd]. unfold searchMoviesByGenre. rewrite Eg.
    now rewrite (getCached_live _ _ _ _ _ Hl).
  - unfold getTopRatedMovies at 2 3. rewrite (cold_miss now c _ Hcold).
    match goal with |- context [discoverMovie net ?p] => destruct (Hd p) as [results ->] end.
    cbn [fst snd]. unfold getTopRatedMovies. now rewrite (getCached_live _ _ _ _ _ Hl).
  - unfold searchMoviesInTMDB at 2 3.
    destruct (String.length (Js.trim query) =? 0)%nat eqn:Eq;
      [cbn [fst snd]; unfold searchMoviesInTMDB; now rewrite Eq|].
    rewrite (cold_miss now c _ Hcold).
    destruct (Hs (Js.trim query) page) as [results ->].
    cbn [fst snd]. unfold searchMoviesInTMDB. rewrite Eq.
    rewrite (getCached_live _ _ _ _ _ Hl). cbn [fst]. rewrite take_take. f_equal. lia.
  - unfold searchMoviesByDirector.
    destruct (String.eqb personName "") eqn:E; [cbn [fst snd]; now rewrite ?E|].
    now apply replay_person.
  - unfold searchMoviesByActor.
    destruct (String.eqb personName "") eqn:E; [cbn [fst snd]; now rewrite ?E|].
    now apply replay_person.
Qed.

Lemma answered_query_is_replayed_witness :
  Notions.cold 0 [] /\ Notions.answering Fixtures.catalog /\ 1000 - 0 < CACHE_DURATION
  /\ fst (searchMoviesByGenre Fixtures.offline Fixtures.today 1000
            (snd (searchMoviesByGenre Fixtures.catalog Fixtures.today 0 [] "Komedi"
                    (Fixtures.withLimit 20))) "Komedi" (Fixtures.withLimit 20))
     = fst (searchMoviesByGenre Fixtures.catalog Fixtures.today 0 [] "Komedi"
              (Fixtures.withLimit 20)).
Proof.
  assert (H1 : Notions.cold 0 []) by (intros key; reflexivity).
  assert (H2 : Notions.answering Fixtures.catalog).
  { split; [|split; [|split]].
    - intros params. cbn. destruct (with_genres params) as [g|]; [|eauto].
      destruct (g =? 35) eqn:E1; [apply Z.eqb_eq in E1; subst g; eauto|].
      destruct (g =? 16) eqn:E2; [apply Z.eqb_eq in E2; subst g; eauto|].
      destruct g as [|p|p]; eauto.
      do 6 (destruct p as [p|p|]; eauto).
    - intros name. cbn. eauto.
    - intros person. cbn. eauto.
    - intros q p. cbn. eauto. }
  assert (H3 : 1000 - 0 < CACHE_DURATION) by (vm_compute; reflexivity).
  split; [exact H1|]. split; [exact H2|]. split; [exact H3|].
  exact (proj1 (answered_query_is_replayed Fixtures.catalog Fixtures.offline Fixtures.today
                  Fixtures.today 0 1000 [] "Komedi" (Fixtures.withLimit 20) 1 20%nat None
                  "alien" "Somebody" H1 H2 H3)).
Defined.

End ReplayFacts.

(** ** Sizes of the query results *)
Module BoundFacts.
Import CatalogClient ReplayFacts.

Lemma filter_length_le {A} (f : A -> bool) l : (length (List.filter f l) <= length l)%nat.
Proof. induction l as [|x l IH]; cbn; [lia|]. destruct (f x); cbn; lia. Qed.

Lemma finalSort_length s l : length (finalSort s l) = length l.
Proof. unfold finalSort. destruct (_ || _)%bool; [apply SortFacts.sort_length|reflexivity]. Qed.

(** X10: a title search returns at most [limit] movies, whether it is
    answered by the catalog or from the cache. *)
Theorem search_never_exceeds_limit net today now c query page limit :
  (length (fst (searchMoviesInTMDB net today now c query page limit)) <= limit)%nat.
Proof.
  unfold searchMoviesInTMDB.
  destruct (String.length (Js.trim query) =? 0)%nat; [cbn; lia|].
  destruct (getCached now c _) as [[cached|] c']; cbn [fst].
  - rewrite length_take. lia.
  - destruct (searchMovie net _ _); cbn [fst length]; try lia.
    rewrite length_take. lia.
Qed.

(** X11: a list or person query that is answered by the catalog (no live
    cache entry) returns at most [limit] movies, [50] for a genre query
    without a limit, and ten for a person. *)
Theorem fresh_results_respect_the_limit net today now c genre options page limit s personName :
  Notions.cold now c ->
  (length (fst (searchMoviesByGenre net today now c genre options))
   <= if (opt_limit options =? 0)%nat then 50 else opt_limit options)%nat
  /\ (length (fst (getTopRatedMovies net today now c page limit s)) <= limit)%nat
  /\ (length (fst (searchMoviesByDirector net today now c personName)) <= 10)%nat
  /\ (length (fst (searchMoviesByActor net today now c personName)) <= 10)%nat.
Proof.
  intros Hcold.
  assert (Hperson : forall key select,
            (length (fst (searchMoviesByPerson net today now c key personName select))
             <= 10)%nat).
  { intros key select. unfold searchMoviesByPerson. rewrite (cold_miss now c key Hcold).
    destruct (searchPerson net personName) as [[person|]| | |]; cbn [fst length]; try lia.
    destruct (personMovieCredits net person) as [credits| | |]; cbn [fst length]; try lia.
    etransitivity; [apply filter_length_le|].
    etransitivity; [apply AssemblerFacts.omap_length_le|].
    rewrite length_take. lia. }
  repeat split.
  - unfold searchMoviesByGenre.
    destruct (ApiConfig.GENRE_MAP genre) as [genreIds|]; [|cbn; destruct (_ =? _)%nat; lia].
    rewrite (cold_miss now c _ Hcold).
    destruct (discoverMovie net _) as [results| | |]; cbn [fst length];
      try (destruct (_ =? _)%nat; lia).
    rewrite finalSort_length. etransitivity; [apply filter_length_le|].
    rewrite length_map, length_take. lia.
  - unfold getTopRatedMovies. rewrite (cold_miss now c _ Hcold).
    destruct (discoverMovie net _) as [results| | |]; cbn [fst length]; try lia.
    rewrite finalSort_length. etransitivity; [apply filter_length_le|].
    rewrite length_map, length_take. lia.
  - unfold searchMoviesByDirector. destruct (String.eqb personName ""); [cbn; lia|apply Hperson].
  - unfold searchMoviesByActor. destruct (String.eqb personName ""); [cbn; lia|apply Hperson].
Qed.

Lemma fresh_results_respect_the_limit_witness :
  Notions.cold 0 []
  /\ (length (fst (searchMoviesByGenre Fixtures.catalog Fixtures.today 0 [] "Komedi"
                     (Fixtures.withLimit 1))) <= 1)%nat.
Proof.
  assert (H : Notions.cold 0 []) by (intros key; reflexivity).
  split; [exact H|].
  exact (proj1 (fresh_results_respect_the_limit Fixtures.catalog Fixtures.today 0 [] "Komedi"
                  (Fixtures.withLimit 1) 1 20%nat None "Somebody" H)).
Defined.

(** X12: under the default sort the [minRating] option is not sent to the
    catalog: with no live cache entry the result is the same for every
    [minRating]. *)
Theorem default_sort_ignores_minRating net today now c genre options r :
  isDefaultSort (sortBy options) = true ->
  Notions.cold now c ->
  fst (searchMoviesByGenre net today now c genre (Notions.withMinRating options r))
  = fst (searchMoviesByGenre net today now c genre options).
Proof.
  intros Hs Hcold. unfold searchMoviesByGenre.
  destruct (ApiConfig.GENRE_MAP genre) as [genreIds|]; [|reflexivity].
  rewrite !(cold_miss now c _ Hcold). cbn [Notions.withMinRating sortBy opt_page minYear
    maxYear minRating opt_limit]. rewrite Hs.
  destruct (discoverMovie net _) as [results| | |]; reflexivity.
Qed.

Lemma default_sort_ignores_minRating_witness :
  isDefaultSort (sortBy (Fixtures.withLimit 20)) = true
  /\ Notions.cold 0 []
  /\ fst (searchMoviesByGenre Fixtures.catalog Fixtures.today 0 [] "Komedi"
            (Notions.withMinRating (Fixtures.withLimit 20) (Some 9%Q)))
     = fst (searchMoviesByGenre Fixtures.catalog Fixtures.today 0 [] "Komedi"
              (Fixtures.withLimit 20)).
Proof.
  assert (H1 : isDefaultSort (sortBy (Fixtures.withLimit 20)) = true) by reflexivity.
  assert (H2 : Notions.cold 0 []) by (intros key; reflexivity).
  split; [exact H1|]. split; [exact H2|].
  exact (default_sort_ignores_minRating Fixtures.catalog Fixtures.today 0 [] "Komedi"
           (Fixtures.withLimit 20) (Some 9%Q) H1 H2).
Defined.

End BoundFacts.

(** ** The profile and the range of the score *)
Module ProfileFacts.
Import Extractor Scoring ProfileNotions.

Lemma min_upper a b : (Js.min a b <= b)%Q.
Proof.
  unfold Js.min. destruct (Qle_bool a b) eqn:E; [now apply Qle_bool_iff|apply Qle_refl].
Qed.

Lemma min_lower a b l : (l <= a)%Q -> (l <= b)%Q -> (l <= Js.min a b)%Q.
Proof. unfold Js.min. now destruct (Qle_bool a b). Qed.

Lemma proximityBonus_range rating prefs :
  (0 <= proximityBonus rating prefs <= 15)%Q.
Proof.
  unfold proximityBonus. destruct (userAvgRating prefs) as [avg|]; [|split; lra].
  destruct (Qeq_bool avg 0); [split; lra|].
  destruct (Qle_bool _ (1 # 2)); [split; lra|].
  destruct (Qle_bool _ 1); split; lra.
Qed.

Lemma recencyBonus_range currentYear movie :
  (0 <= recencyBonus currentYear movie <= 5)%Q.
Proof.
  unfold recencyBonus. destruct (Movie.year movie) as [y|]; [|split; lra].
  destruct (_ <=? 5); [split; lra|]. destruct (_ <=? 10); split; lra.
Qed.

Ltac bound_mins :=
  repeat match goal with
         | |- context [Js.min ?a ?b] =>
             let H := fresh "Hmin" in
             let x := fresh "x" in
             pose proof (min_upper a b) as H;
             try (assert (0 <= Js.min a b)%Q by (apply min_lower; [auto|lra]));
             set (x := Js.min a b) in *; clearbody x
         end.

Lemma score_upper currentYear movie prefs :
  (Scoring.score (calculateRecommendationScore currentYear movie prefs) <= 370)%Q.
Proof.
  unfold calculateRecommendationScore.
  pose proof (proximityBonus_range (getMovieRating movie) prefs).
  pose proof (recencyBonus_range currentYear movie).
  destruct (genresMatch _ _), (directorMatches _ _), (actorMatches _ _),
    (Qle_bool 8 _); cbn [Scoring.score Nat.leb]; bound_mins; lra.
Qed.

Lemma bump_counted freq k : counted freq -> counted (bump freq k).
Proof.
  intros H k' q. unfold bump. destruct (decide (k = k')) as [->|Hne].
  - rewrite lookup_insert_eq. intros [= <-]. unfold Js.numOr.
    destruct (freq !! k') as [q'|] eqn:E; [|lra].
    specialize (H k' q' E). destruct (Qeq_bool q' 0); lra.
  - rewrite lookup_insert_ne by assumption. apply H.
Qed.

Lemma fold_bump_counted l freq : counted freq -> counted (fold_left bump l freq).
Proof.
  revert freq. induction l as [|x l IH]; intros freq H; [exact H|].
  cbn [fold_left]. apply IH, bump_counted, H.
Qed.

Lemma weightOf_counted freq key : counted freq -> (0 <= weightOf freq key)%Q.
Proof.
  intros H. unfold weightOf. destruct key as [k|]; [|lra].
  unfold Js.numOr. destruct (freq !! k) as [q|] eqn:E; [|lra].
  specialize (H k q E). destruct (Qeq_bool q 0); lra.
Qed.

Lemma score_lower currentYear movie prefs :
  counted (genreFrequency prefs) -> counted (directorFrequency prefs) ->
  counted (actorFrequency prefs) ->
  (0 <= Scoring.score (calculateRecommendationScore currentYear movie prefs))%Q.
Proof.
  intros Hg Hd Ha. unfold calculateRecommendationScore.
  pose proof (proximityBonus_range (getMovieRating movie) prefs).
  pose proof (recencyBonus_range currentYear movie).
  pose proof (weightOf_counted _ (Movie.genre movie) Hg).
  pose proof (weightOf_counted _ (Movie.director movie) Hd).
  pose proof (weightOf_counted _ (matchedActor movie prefs) Ha).
  destruct (genresMatch _ _), (directorMatches _ _), (actorMatches _ _),
    (Qle_bool 8 _); cbn [Scoring.score Nat.leb];
    try destruct (Js.nonEmpty (matchedActor movie prefs));
    bound_mins; lra.
Qed.

Lemma empty_counted : counted ∅.
Proof. intros k q H. now rewrite lookup_empty in H. Qed.

(** X13: the score never exceeds 370, and against a profile computed by
    the extractor it is never negative. *)
Theorem score_range currentYear movie :
  (forall prefs,
     (Scoring.score (calculateRecommendationScore currentYear movie prefs) <= 370)%Q)
  /\ (forall favorites watched userRatings,
        (0 <= Scoring.score
                (calculateRecommendationScore currentYear movie
                   (precomputePreferences (computePreferences favorites watched userRatings))))%Q).
Proof.
  split; [apply score_upper|].
  intros favorites watched userRatings.
  apply score_lower; cbn; apply fold_bump_counted, empty_counted.
Qed.


(** *** [Set] construction *)

Lemma setOfList_fold l acc :
  NoDup acc ->
  let r := fold_left (fun acc x => if existsb (String.eqb x) acc then acc
                                   else (acc ++ [x])%list) l acc in
  NoDup r /\ (forall x, x ∈ r <-> x ∈ acc \/ x ∈ l) /\ exists rest, r = (acc ++ rest)%list.
Proof.
  revert acc. induction l as [|y l IH]; intros acc Hnd; cbn [fold_left].
  - split; [exact Hnd|]. split; [|exists []; now rewrite app_nil_r].
    intros x. rewrite elem_of_nil. tauto.
  - destruct (existsb (String.eqb y) acc) eqn:E.
    + destruct (IH acc Hnd) as (H1 & H2 & H3). split; [exact H1|]. split; [|exact H3].
      intros x. rewrite H2, elem_of_cons.
      apply AssemblerFacts.has_elem in E. split; [tauto|]. intros [H|[->|H]]; tauto.
    + assert (Hy : y ∉ acc).
      { intros Hin. apply AssemblerFacts.has_elem in Hin. unfold Js.has in Hin. congruence. }
      destruct (IH (acc ++ [y])%list) as (H1 & H2 & rest & H3).
      { apply NoDup_app. split; [exact Hnd|]. split; [|apply NoDup_singleton].
        intros x Hx Hx'. apply list_elem_of_singleton in Hx'. now subst. }
      split; [exact H1|]. split.
      * intros x. rewrite H2, elem_of_app, list_elem_of_singleton, elem_of_cons. tauto.
      * exists (y :: rest). rewrite H3. now rewrite <- app_assoc.
Qed.

Lemma setOfList_NoDup l : NoDup (Js.setOfList l).
Proof. apply (setOfList_fold l []). constructor. Qed.

Lemma setOfList_elem l x : x ∈ Js.setOfList l <-> x ∈ l.
Proof.
  destruct (setOfList_fold l [] (NoDup_nil_2 (A:=string))) as (_ & H & _).
  unfold Js.setOfList. rewrite H, elem_of_nil. tauto.
Qed.

(** *** Frequencies *)

Lemma fold_bump_tally l freq g :
  (default 0 (fold_left bump l freq !! g)
   == default 0 (freq !! g) + inject_Z (Z.of_nat (count_occ string_dec l g)))%Q.
Proof.
  revert freq. induction l as [|x l IH]; intros freq; cbn [fold_left count_occ].
  - change (inject_Z (Z.of_nat 0)) with 0%Q. lra.
  - rewrite IH. unfold bump. destruct (string_dec x g) as [->|Hne].
    + rewrite lookup_insert_eq. cbn [from_option id].
      rewrite Nat2Z.inj_succ, <- Z.add_1_r, inject_Z_plus. change (inject_Z 1) with 1%Q.
      assert (Js.numOr (freq !! g) 0 == default 0 (freq !! g))%Q; [|lra].
      unfold Js.numOr. destruct (freq !! g) as [q|]; cbn; [|lra].
      destruct (Qeq_bool q 0) eqn:E; [|lra]. apply Qeq_bool_iff in E. lra.
    + rewrite lookup_insert_ne by assumption. lra.
Qed.

Lemma truthyStrings_count f g l :
  g <> "" -> count_occ string_dec (truthyStrings f l) g = carrying f g l.
Proof.
  intros Hg. unfold truthyStrings, carrying. induction l as [|m l IH]; [reflexivity|].
  cbn [omap list_omap List.filter]. destruct (f m) as [s|] eqn:E; cbn [Js.nonEmpty].
  - destruct (String.eqb s "") eqn:Es; cbn [negb].
    + apply String.eqb_eq in Es. subst s.
      rewrite bool_decide_eq_false_2 by congruence. exact IH.
    + cbn [count_occ]. destruct (string_dec s g) as [->|Hne].
      * rewrite bool_decide_eq_true_2 by reflexivity. cbn [length]. now rewrite IH.
      * rewrite bool_decide_eq_false_2 by congruence. exact IH.
  - rewrite bool_decide_eq_false_2 by congruence. exact IH.
Qed.

Lemma truthyStrings_elem f g l :
  g ∈ truthyStrings f l <-> g <> "" /\ exists m, m ∈ l /\ f m = Some g.
Proof.
  unfold truthyStrings. rewrite list_elem_of_omap. split.
  - intros (m & Hm & H). destruct (f m) as [s|] eqn:E; cbn [Js.nonEmpty] in H; [|discriminate].
    destruct (String.eqb s "") eqn:Es; cbn [negb] in H; [discriminate|].
    injection H as ->. apply String.eqb_neq in Es. split; [exact Es|]. now exists m.
  - intros (Hg & m & Hm & E). exists m. split; [exact Hm|]. rewrite E. cbn [Js.nonEmpty].
    apply String.eqb_neq in Hg. now rewrite Hg.
Qed.

(** X14: the profile lists every genre and every director of the working
    set once; and for a name that is not a member of [Object.prototype]
    (the frequency tables are object literals, which inherit those), the
    frequency recorded is the number of movies that carry it. *)
Theorem profile_counts_the_working_set favorites watched userRatings g :
  g <> "" ->
  let p := computePreferences favorites watched userRatings in
  let l := (favorites ++ watched)%list in
  NoDup (Prefs.genres p) /\ NoDup (Prefs.directors p)
  /\ (g ∈ Prefs.genres p <-> exists m, m ∈ l /\ Movie.genre m = Some g)
  /\ (g ∈ Prefs.directors p <-> exists m, m ∈ l /\ Movie.director m = Some g)
  /\ (ownName g ->
      (default 0 (Prefs.genreFrequency p !! g)
       == inject_Z (Z.of_nat (carrying Movie.genre g l)))%Q
      /\ (default 0 (Prefs.directorFrequency p !! g)
          == inject_Z (Z.of_nat (carrying Movie.director g l)))%Q).
Proof.
  intros Hg p l. cbn [p computePreferences Prefs.genres Prefs.directors
    Prefs.genreFrequency Prefs.directorFrequency].
  split; [apply setOfList_NoDup|]. split; [apply setOfList_NoDup|].
  split; [rewrite setOfList_elem, truthyStrings_elem; tauto|].
  split; [rewrite setOfList_elem, truthyStrings_elem; tauto|].
  intros _. split.
  - pose proof (fold_bump_tally (truthyStrings Movie.genre l) ∅ g) as H.
    rewrite lookup_empty, truthyStrings_count in H by assumption.
    cbn [from_option id] in H. fold l. lra.
  - pose proof (fold_bump_tally (truthyStrings Movie.director l) ∅ g) as H.
    rewrite lookup_empty, truthyStrings_count in H by assumption.
    cbn [from_option id] in H. fold l. lra.
Qed.

Lemma profile_counts_the_working_set_witness :
  "Drama" <> ""
  /\ ownName "Drama"
  /\ (default 0
        (Prefs.genreFrequency
           (computePreferences [Fixtures.nineFavorite] [Fixtures.nineWatched] ∅) !! "Drama")
      == inject_Z (Z.of_nat (carrying Movie.genre "Drama"
                               [Fixtures.nineFavorite; Fixtures.nineWatched])))%Q
  /\ carrying Movie.genre "Drama" [Fixtures.nineFavorite; Fixtures.nineWatched] = 2%nat.
Proof.
  assert (H : "Drama" <> "") by discriminate.
  assert (Hown : ownName "Drama") by reflexivity.
  split; [exact H|]. split; [exact Hown|]. split; [|reflexivity].
  exact (proj1 (proj2 (proj2 (proj2 (proj2
           (profile_counts_the_working_set [Fixtures.nineFavorite] [Fixtures.nineWatched]
              ∅ "Drama" H)))) Hown)).
Defined.

End ProfileFacts.

(** ** Catalog ids in the watched history *)
Module WatchedFacts.
Import Extractor Assembler.

Lemma substring_all s : String.substring 0 (String.length s) s = s.
Proof. induction s as [|c s IH]; [reflexivity|]. cbn. now rewrite IH. Qed.

Lemma prefix_app p s : String.prefix p (p ++ s) = true.
Proof.
  induction p as [|c p IH]; [now destruct s|].
  change (String c p ++ s) with (String c (p ++ s)). cbn [String.prefix].
  destruct (ascii_dec c c); [exact IH|congruence].
Qed.

Lemma stripPrefix_app p s : Js.stripPrefix p (p ++ s) = s.
Proof.
  unfold Js.stripPrefix, Js.dropChars. rewrite prefix_app. induction p as [|c p IH].
  - change ("" ++ s) with s. cbn [String.length]. rewrite Nat.sub_0_r. apply substring_all.
  - change (String c p ++ s) with (String c (p ++ s)).
    cbn [String.length String.substring Nat.sub]. exact IH.
Qed.

Lemma watched_form_matches n m w watchedMovies allMoviesForLookup :
  Movie.id m = Some (Js.Str ("tmdb_" ++ Js.showZ n)) ->
  w ∈ IdNotions.watchedForms n -> w ∈ watchedMovies ->
  isWatched (watchedIds watchedMovies) (watchedTitles watchedMovies allMoviesForLookup) m
  = true.
Proof.
  intros Hid Hw Hin.
  assert (Hmid : movieId m = "tmdb_" ++ Js.showZ n).
  { unfold movieId. rewrite Hid. reflexivity. }
  assert (Hnum : numericId m = Js.showZ n).
  { unfold numericId. rewrite Hmid. apply stripPrefix_app. }
  assert (Hhas : Js.has (watchedIds watchedMovies) (watchedIdString w) = true).
  { apply AssemblerFacts.has_elem. unfold watchedIds. apply list_elem_of_fmap. now exists w. }
  unfold isWatched, IdNotions.watchedForms in *.
  repeat (apply elem_of_cons in Hw as [->|Hw]); [| | |now apply elem_of_nil in Hw];
    cbn [watchedIdString Js.toString] in Hhas.
  - rewrite Hnum, Hhas. now rewrite !orb_true_r.
  - rewrite Hnum, Hhas. now rewrite !orb_true_r.
  - now rewrite Hmid, Hhas.
Qed.

(** X15: a movie carrying the catalog id [tmdb_<n>] is never recommended
    when the watched history holds [n] as a number, as its decimal string
    or as the prefixed string. *)
Theorem watched_catalog_movie_is_never_recommended currentYear st apiMovies localMovies
    favorites useAPI limit watchedMovies allMoviesForLookup userRatings n w :
  w ∈ IdNotions.watchedForms n -> w ∈ watchedMovies ->
  match fst (getRecommendedMovies currentYear st apiMovies localMovies favorites useAPI
               limit watchedMovies allMoviesForLookup userRatings) with
  | Resolved l =>
      Forall (fun s => Movie.id (movie s) <> Some (Js.Str ("tmdb_" ++ Js.showZ n))) l
  | Rejected _ => favoriteTitles favorites = None
  end.
Proof.
  intros Hw Hin.
  destruct (AssemblerFacts.getRecommendedMovies_cases currentYear st apiMovies localMovies
              favorites useAPI limit watchedMovies allMoviesForLookup userRatings)
    as [-> | (preferences & ->)].
  - constructor.
  - pose proof (AssemblerFacts.assemble_shape currentYear preferences apiMovies localMovies
                  favorites useAPI limit watchedMovies allMoviesForLookup) as H.
    destruct (assemble _ _ _ _ _ _ _ _ _) as [l|]; [|exact H].
    destruct H as (favTitles & scoredMovies & Hts & _ & Hsc & Hl).
    apply Forall_forall. intros s Hs Hid.
    assert (Hs' : s ∈ scoredMovies)
      by (apply (AssemblerFacts.result_entries limit scoredMovies l s); [tauto|exact Hs]).
    destruct (Hsc s Hs') as (m & Hm).
    apply AssemblerFacts.scoreMovie_Some in Hm as (<- & _ & Hnw & _).
    rewrite (watched_form_matches n (movie s) w watchedMovies allMoviesForLookup Hid Hw Hin)
      in Hnw. discriminate.
Qed.

Lemma watched_catalog_movie_is_never_recommended_witness :
  WId (Js.Num 603) ∈ IdNotions.watchedForms 603
  /\ WId (Js.Num 603) ∈ [WId (Js.Num 603)]
  /\ match fst (getRecommendedMovies 2026 initialState [Fixtures.matrixFromCatalog] []
                  [Fixtures.matrixFavorite] true 20 [WId (Js.Num 603)] [] ∅) with
     | Resolved l =>
         Forall (fun s => Movie.id (movie s) <> Some (Js.Str ("tmdb_" ++ Js.showZ 603))) l
     | Rejected _ => favoriteTitles [Fixtures.matrixFavorite] = None
     end.
Proof.
  assert (H1 : WId (Js.Num 603) ∈ IdNotions.watchedForms 603) by (vm_compute; left).
  assert (H2 : WId (Js.Num 603) ∈ [WId (Js.Num 603)]) by left.
  split; [exact H1|]. split; [exact H2|].
  apply (watched_catalog_movie_is_never_recommended 2026 initialState
           [Fixtures.matrixFromCatalog] [] [Fixtures.matrixFavorite] true 20
           [WId (Js.Num 603)] [] ∅ 603 (WId (Js.Num 603))); [exact H1|exact H2].
Defined.

End WatchedFacts.

(** ** Merging: what is kept *)
Module MergeKeepFacts.
Import Assembler.

Lemma addByTitle_cover movies movieMap r :
  MovieApi.addByTitle movies movieMap = Some r ->
  (forall kv, kv ∈ r -> kv ∈ movieMap \/ snd kv ∈ movies)
  /\ (forall m, m ∈ movies -> movieTitle m ∈ map fst r)
  /\ (forall k, k ∈ map fst movieMap -> k ∈ map fst r).
Proof.
  revert movieMap. induction movies as [|m ms IH]; intros movieMap; cbn [MovieApi.addByTitle].
  - intros [= <-]. split; [now left|]. split; [|auto].
    intros m H. now apply elem_of_nil in H.
  - destruct (Movie.title m) as [t|] eqn:Et; [|discriminate].
    intros H. destruct (IH _ H) as (H1 & H2 & H3). clear IH.
    assert (Hkey : MovieApi.titleKey t ∈ map fst r).
    { apply H3. destruct (existsb _ movieMap) eqn:Hex.
      - apply existsb_exists in Hex as (kv & Hin & Hk). apply String.eqb_eq in Hk.
        rewrite <- Hk. apply list_elem_of_fmap. exists kv. split; [reflexivity|].
        now apply list_elem_of_In.
      - rewrite map_app. apply elem_of_app. right. cbn. left. }
    split; [|split].
    + intros kv Hkv. destruct (H1 kv Hkv) as [Hin|Hin]; [|right; now right].
      destruct (existsb _ movieMap); [now left|].
      apply elem_of_app in Hin as [Hin|Hin]; [now left|].
      apply list_elem_of_singleton in Hin. subst kv. right. left.
    + intros m' Hm'. apply elem_of_cons in Hm' as [->|Hm']; [|now apply H2].
      unfold movieTitle. now rewrite Et.
    + intros k Hk. apply H3. destruct (existsb _ movieMap); [exact Hk|].
      rewrite map_app. apply elem_of_app. now left.
Qed.

(** A merged movie is one of the inputs. *)
Lemma merged_from_inputs localMovies apiMovies merged m :
  MovieApi.mergeLocalAndAPIResults localMovies apiMovies = Some merged ->
  m ∈ merged -> m ∈ localMovies \/ m ∈ apiMovies.
Proof.
  unfold MovieApi.mergeLocalAndAPIResults.
  destruct (MovieApi.addByTitle localMovies []) as [m1|] eqn:E1; [|discriminate].
  destruct (MovieApi.addByTitle apiMovies m1) as [m2|] eqn:E2; [|discriminate].
  intros [= <-] Hm. apply list_elem_of_fmap in Hm as (kv & -> & Hkv).
  destruct (proj1 (addByTitle_cover _ _ _ E2) kv Hkv) as [H|H]; [left|now right].
  destruct (proj1 (addByTitle_cover _ _ _ E1) kv H) as [H'|H']; [|exact H'].
  now apply elem_of_nil in H'.
Qed.

(** X16: a merge that succeeds invents no movie and loses no title, and
    under a title that a local movie carries it keeps a local movie. *)
Theorem merge_keeps_every_title localMovies apiMovies merged :
  MovieApi.mergeLocalAndAPIResults localMovies apiMovies = Some merged ->
  (forall m, m ∈ merged -> m ∈ localMovies \/ m ∈ apiMovies)
  /\ (forall m, m ∈ localMovies \/ m ∈ apiMovies ->
        exists m', m' ∈ merged /\ movieTitle m' = movieTitle m)
  /\ (forall m l, m ∈ merged -> l ∈ localMovies -> movieTitle l = movieTitle m ->
        m ∈ localMovies).
Proof.
  unfold MovieApi.mergeLocalAndAPIResults.
  destruct (MovieApi.addByTitle localMovies []) as [m1|] eqn:E1; [|discriminate].
  destruct (MovieApi.addByTitle apiMovies m1) as [m2|] eqn:E2; [|discriminate].
  intros [= <-].
  destruct (addByTitle_cover _ _ _ E1) as (P1 & C1 & _).
  destruct (addByTitle_cover _ _ _ E2) as (P2 & C2 & K2).
  destruct (MergeFacts.addByTitle_keys _ _ _ E1) as (N1 & T1 & _);
    [constructor|intros kv H; now apply elem_of_nil in H|].
  destruct (MergeFacts.addByTitle_keys _ _ _ E2 N1 T1) as (N2 & T2 & added & ->).
  assert (Hkey : forall kv, kv ∈ (m1 ++ added)%list -> fst kv = movieTitle (snd kv)).
  { intros kv Hkv. now destruct (T2 kv Hkv) as [_ ->]. }
  assert (Hloc : forall kv, kv ∈ m1 -> snd kv ∈ localMovies).
  { intros kv Hkv. destruct (P1 kv Hkv) as [H|H]; [now apply elem_of_nil in H|exact H]. }
  split; [|split].
  - intros m Hm. apply list_elem_of_fmap in Hm as (kv & -> & Hkv).
    destruct (P2 kv Hkv) as [H|H]; [left; now apply Hloc|now right].
  - intros m Hm.
    assert (Hk : movieTitle m ∈ map fst (m1 ++ added)%list).
    { destruct Hm as [Hm|Hm]; [apply K2, C1, Hm|apply C2, Hm]. }
    apply list_elem_of_fmap in Hk as (kv & Hk & Hkv).
    exists (snd kv). split; [apply list_elem_of_fmap; now exists kv|].
    now rewrite <- (Hkey kv Hkv).
  - intros m l Hm Hl Ht. apply list_elem_of_fmap in Hm as (kv & -> & Hkv).
    apply elem_of_app in Hkv as [Hkv|Hkv]; [now apply Hloc|]. exfalso.
    assert (Hk1 : fst kv ∈ map fst m1).
    { rewrite (Hkey kv) by (apply elem_of_app; now right). rewrite <- Ht. now apply C1. }
    rewrite map_app in N2. apply NoDup_app in N2 as (_ & N2 & _).
    apply (N2 (fst kv) Hk1). apply list_elem_of_fmap. now exists kv.
Qed.

Lemma merge_keeps_every_title_witness :
  MovieApi.mergeLocalAndAPIResults [Fixtures.nineFavorite]
    [Fixtures.sixFavorite; Fixtures.nineWatched]
  = Some [Fixtures.nineFavorite; Fixtures.nineWatched]
  /\ (forall m, m ∈ [Fixtures.nineFavorite; Fixtures.nineWatched] ->
        m ∈ [Fixtures.nineFavorite] \/ m ∈ [Fixtures.sixFavorite; Fixtures.nineWatched]).
Proof.
  assert (H : MovieApi.mergeLocalAndAPIResults [Fixtures.nineFavorite]
                [Fixtures.sixFavorite; Fixtures.nineWatched]
              = Some [Fixtures.nineFavorite; Fixtures.nineWatched]) by reflexivity.
  split; [exact H|exact (proj1 (merge_keeps_every_title _ _ _ H))].
Defined.

End MergeKeepFacts.

(** ** Conversion of catalog records *)
Module ConvertFacts.
Import Convert.

Lemma toFixed1_close v : (v - (1 # 20) < toFixed1 v /\ toFixed1 v <= v + (1 # 20))%Q.
Proof.
  unfold toFixed1.
  pose proof (Qfloor_le (v * 10 + (1 # 2))) as Hle.
  pose proof (Qlt_floor (v * 10 + (1 # 2))) as Hlt.
  rewrite inject_Z_plus in Hlt. change (inject_Z 1) with 1%Q in Hlt.
  set (n := inject_Z (Qfloor (v * 10 + (1 # 2)))) in *. clearbody n.
  assert (H : (n / 10 == n * (1 # 10))%Q) by (field).
  rewrite H. split; lra.
Qed.

(** X17: a converted catalog record is not local, carries the catalog id
    both as [tmdbId] and, prefixed, as [id] (from which the recommender
    reads it back), lists at most five cast members, and shows the
    catalog's rating rounded to one decimal: a whole number of tenths, at
    most 0.05 away from [vote_average], the upper one of two equally near
    when the rating is not negative; 0 when there is no rating. *)
Theorem converted_record_is_well_formed tmdbMovie :
  let m := convertTMDBToMovieFormat tmdbMovie in
  Movie.isLocal m = false
  /\ Movie.tmdbId m = Some (Js.Num (Tmdb.id tmdbMovie))
  /\ Assembler.numericId m = Js.showZ (Tmdb.id tmdbMovie)
  /\ (length (default [] (Movie.cast m)) <= 5)%nat
  /\ match Tmdb.vote_average tmdbMovie with
     | Some v =>
         exists tenths : Z,
           Movie.imdb m = Some (inject_Z tenths / 10)%Q
           /\ (v - (1 # 20) <= inject_Z tenths / 10 /\ inject_Z tenths / 10 <= v + (1 # 20))%Q
           /\ (0 <= v -> v - (1 # 20) < inject_Z tenths / 10)%Q
     | None => Movie.imdb m = Some 0%Q
     end.
Proof.
  cbv zeta. unfold convertTMDBToMovieFormat.
  cbn [Movie.isLocal Movie.tmdbId Movie.cast Movie.imdb].
  split; [reflexivity|]. split; [reflexivity|]. split; [|split].
  - unfold Assembler.numericId, Assembler.movieId. cbn [Movie.id Js.truthy Js.toString].
    assert (Ht : String.eqb ("tmdb_" ++ Js.showZ (Tmdb.id tmdbMovie)) "" = false)
      by reflexivity.
    rewrite Ht. cbn [negb]. apply WatchedFacts.stripPrefix_app.
  - cbn [from_option id]. rewrite length_take. lia.
  - destruct (Tmdb.vote_average tmdbMovie) as [v|]; [|reflexivity].
    exists (Qfloor (v * 10 + (1 # 2))). split; [reflexivity|].
    pose proof (toFixed1_close v) as [Hlo Hhi]. unfold toFixed1 in Hlo, Hhi.
    split; [split; [apply Qlt_le_weak, Hlo|exact Hhi]|]. intros _. exact Hlo.
Qed.

(** The rating 7.25 of a catalog record is shown as 7.3, the rating 7.24 as
    7.2. *)
Lemma converted_rating_examples :
  map (fun v => Movie.imdb
                  (convertTMDBToMovieFormat
                     (Fixtures.tmdbMovie 1 "Example" (mkDate 2000 1 1) [] v)))
      [(29 # 4)%Q; (181 # 25)%Q; 0%Q]
  = [Some (inject_Z 73 / 10)%Q; Some (inject_Z 72 / 10)%Q; Some (inject_Z 0 / 10)%Q].
Proof. reflexivity. Qed.

End ConvertFacts.

(** ** Image addresses *)
Module UrlFacts.
Import ApiUrls.

(** X18: an address that [getImageUrl] produced passes through
    [getImageUrl] and [getThumbnailUrl] unchanged, whatever size is asked
    for: the thumbnail of a resolved poster keeps the poster's size. *)
Theorem resolved_address_is_final posterPath size size' :
  getImageUrl (getImageUrl posterPath size) size' = getImageUrl posterPath size
  /\ getThumbnailUrl (getImageUrl posterPath size) = getImageUrl posterPath size.
Proof.
  assert (H : forall s, getImageUrl (getImageUrl posterPath size) s
                        = getImageUrl posterPath size); [|split; apply H].
  intros s. unfold getImageUrl at 2 3. destruct posterPath as [p|]; [|reflexivity].
  destruct (String.eqb p "") eqn:Ee; [reflexivity|].
  destruct (Js.startsWith p "http") eqn:Eh.
  - unfold getImageUrl. now rewrite Ee, Eh.
  - reflexivity.
Qed.

End UrlFacts.

(** ** The request budget *)
Module RateFacts.
Import RateLimit.

(** X19: a call made at any time other than exactly one window length
    after the window start leaves the counter between 1 and 40; when it
    sleeps, it sleeps until the window ends and starts a new window on
    waking. *)
Theorem budget_is_kept_off_the_window_edge now woke st :
  now - windowStart st <> RATE_LIMIT_WINDOW ->
  let r := checkRateLimit now woke st in
  (1 <= requestCount (snd r) <= RATE_LIMIT_REQUESTS)%nat
  /\ (forall slept, fst r = Some slept ->
        0 < slept /\ slept = windowStart st + RATE_LIMIT_WINDOW - now
        /\ snd r = {| requestCount := 1; windowStart := woke |}).
Proof.
  intros Hne r. subst r.
  unfold checkRateLimit, RATE_LIMIT_REQUESTS, RATE_LIMIT_WINDOW in *.
  destruct (10000 <? now - windowStart st) eqn:Ew; cbn [requestCount windowStart].
  - change (40 <=? 0)%nat with false. cbn [fst snd requestCount]. split; [lia|discriminate].
  - destruct (40 <=? requestCount st)%nat eqn:Ec.
    + destruct (0 <? 10000 - (now - windowStart st)) eqn:Et;
        cbn [fst snd requestCount windowStart].
      * apply Z.ltb_lt in Et. split; [lia|]. intros slept [= <-].
        split; [lia|]. split; [lia|reflexivity].
      * apply Z.ltb_ge in Et. apply Z.ltb_ge in Ew. lia.
    + cbn [fst snd requestCount]. apply Nat.leb_gt in Ec. split; [lia|discriminate].
Qed.

Lemma budget_is_kept_off_the_window_edge_witness :
  9000 - windowStart {| requestCount := 40; windowStart := 0 |} <> RATE_LIMIT_WINDOW
  /\ (1 <= requestCount
             (snd (checkRateLimit 9000 10001 {| requestCount := 40; windowStart := 0 |}))
      <= RATE_LIMIT_REQUESTS)%nat.
Proof.
  assert (H : 9000 - windowStart {| requestCount := 40; windowStart := 0 |}
              <> RATE_LIMIT_WINDOW) by (vm_compute; discriminate).
  split; [exact H|].
  exact (proj1 (budget_is_kept_off_the_window_edge 9000 10001
                  {| requestCount := 40; windowStart := 0 |} H)).
Defined.

(** X20: a call made exactly one window length after the window start
    with the budget used up neither sleeps nor opens a new window: it is
    let through and the counter passes the limit. *)
Theorem budget_is_exceeded_on_the_window_edge now woke st :
  now - windowStart st = RATE_LIMIT_WINDOW ->
  (RATE_LIMIT_REQUESTS <= requestCount st)%nat ->
  checkRateLimit now woke st
  = (None, {| requestCount := S (requestCount st); windowStart := windowStart st |}).
Proof.
  intros He Hc. unfold checkRateLimit. rewrite He.
  rewrite Z.ltb_irrefl. apply Nat.leb_le in Hc. rewrite Hc. rewrite He.
  reflexivity.
Qed.

Lemma budget_is_exceeded_on_the_window_edge_witness :
  10000 - windowStart {| requestCount := 40; windowStart := 0 |} = RATE_LIMIT_WINDOW
  /\ (RATE_LIMIT_REQUESTS <= requestCount {| requestCount := 40; windowStart := 0 |})%nat
  /\ checkRateLimit 10000 10000 {| requestCount := 40; windowStart := 0 |}
     = (None, {| requestCount := 41; windowStart := 0 |}).
Proof.
  assert (H1 : 10000 - windowStart {| requestCount := 40; windowStart := 0 |}
               = RATE_LIMIT_WINDOW) by reflexivity.
  assert (H2 : (RATE_LIMIT_REQUESTS
                <= requestCount {| requestCount := 40; windowStart := 0 |})%nat)
    by (vm_compute; lia).
  split; [exact H1|]. split; [exact H2|].
  exact (budget_is_exceeded_on_the_window_edge 10000 10000
           {| requestCount := 40; windowStart := 0 |} H1 H2).
Defined.

End RateFacts.

(** ** The genres of the detail page *)
Module GenreFacts.
Import Genres.

Lemma setOfList_head x l : exists rest, Js.setOfList (x :: l) = x :: rest.
Proof.
  unfold Js.setOfList. cbn [fold_left existsb app].
  destruct (ProfileFacts.setOfList_fold l [x]) as (_ & _ & rest & H).
  - apply NoDup_singleton.
  - exists rest. exact H.
Qed.

(** X21: the detail page shows at most three genres, each once, never the
    empty name or the placeholder ["Bilinmeyen"], and a known primary genre
    is the first of them. *)
Theorem detail_genres_start_with_the_primary_genre tmdbMovie :
  let all := getAllGenresFromTMDBMovie tmdbMovie in
  let primary := Convert.getGenreFromTMDBMovie tmdbMovie in
  (length all <= 3)%nat
  /\ NoDup all
  /\ ("" ∉ all) /\ ("Bilinmeyen" ∉ all)
  /\ (primary <> "" -> primary <> "Bilinmeyen" -> hd_error all = Some primary).
Proof.
  intros all primary. subst all primary. unfold getAllGenresFromTMDBMovie.
  set (genres := match Tmdb.genres tmdbMovie with Some (_ :: _ as gs) => _ | _ => _ end).
  set (ok := fun g => (negb (String.eqb g "") && negb (String.eqb g "Bilinmeyen"))%bool).
  assert (Hsub : sublist (take 3 (List.filter ok (Js.setOfList genres)))
                   (Js.setOfList genres)).
  { etransitivity; [apply sublist_take|].
    clear. induction (Js.setOfList genres) as [|x l IH]; cbn; [constructor|].
    destruct (ok x); [now apply sublist_skip|now apply sublist_cons]. }
  assert (Hok : forall g, g ∈ take 3 (List.filter ok (Js.setOfList genres)) -> ok g = true).
  { intros g Hg. eapply elem_of_submseteq in Hg; [|apply sublist_submseteq, sublist_take].
    now apply list_elem_of_In, filter_In in Hg as [_ Hg]. }
  split; [rewrite length_take; lia|].
  split; [exact (sublist_NoDup _ _ (ProfileFacts.setOfList_NoDup genres) Hsub)|].
  split; [intros H; now apply Hok in H|]. split; [intros H; now apply Hok in H|].
  intros Hne Hnb.
  assert (Hhead : exists rest, genres = Convert.getGenreFromTMDBMovie tmdbMovie :: rest).
  { subst genres. unfold Convert.getGenreFromTMDBMovie in *.
    destruct (Tmdb.genres tmdbMovie) as [[|[i name] gs]|]; cbn [map snd]; eauto;
      destruct (Tmdb.genre_ids tmdbMovie) as [[|g ids]|]; cbn [map]; eauto; congruence. }
  destruct Hhead as (rest & ->).
  destruct (setOfList_head (Convert.getGenreFromTMDBMovie tmdbMovie) rest) as (rest' & ->).
  cbn [List.filter]. unfold ok at 1.
  apply String.eqb_neq in Hne, Hnb. rewrite Hne, Hnb. reflexivity.
Qed.

End GenreFacts.

(** ** Where the recommendations come from *)
Module PoolFacts.
Import Extractor Assembler.

(** Every entry of a resolved list is the scored form of a pool movie. *)
Lemma assemble_entries currentYear preferences apiMovies localMovies favorites useAPI
    limit watchedMovies allMoviesForLookup l :
  assemble currentYear preferences apiMovies localMovies favorites useAPI
    limit watchedMovies allMoviesForLookup = Resolved l ->
  exists favTitles,
    favoriteTitles favorites = Some favTitles
    /\ Spec.ranked l
    /\ forall s, s ∈ l ->
         movie s ∈ candidatePool (map normalizeLocal localMovies) apiMovies useAPI
         /\ scoreMovie currentYear (Scoring.precomputePreferences preferences)
              (favoriteIds favorites) favTitles (watchedIds watchedMovies)
              (watchedTitles watchedMovies allMoviesForLookup) (movie s) = Some s.
Proof.
  unfold assemble.
  destruct (favoriteTitles favorites) as [favTitles|]; [|discriminate].
  set (pool := candidatePool _ _ _).
  destruct (AssemblerFacts.scan_spec currentYear (Scoring.precomputePreferences preferences)
              (favoriteIds favorites) favTitles (watchedIds watchedMovies)
              (watchedTitles watchedMovies allMoviesForLookup) limit (batches pool) [])
    as (r & Hr & _ & Hin).
  rewrite AssemblerFacts.batches_concat in Hin.
  intros H. exists favTitles. split; [reflexivity|].
  assert (Hl : l = take limit (JsArray.sort byScoreThenRating r)
               \/ l = take limit (diverseMovies (JsArray.sort byScoreThenRating r))).
  { destruct Hr as [[Hr _]|Hr]; rewrite Hr in H; injection H as <-; auto. }
  split; [apply (AssemblerFacts.result_ranked limit r l Hl)|].
  intros s Hs. apply (AssemblerFacts.result_entries limit r l s Hl) in Hs.
  destruct (Hin s Hs) as [Hnil|(m & Hm & Hsm)]; [now apply elem_of_nil in Hnil|].
  pose proof (AssemblerFacts.scoreMovie_Some _ _ _ _ _ _ _ _ Hsm) as (<- & _).
  split; assumption.
Qed.

Lemma candidatePool_elem normalizedLocalMovies apiMovies useAPI m :
  m ∈ candidatePool normalizedLocalMovies apiMovies useAPI ->
  m ∈ normalizedLocalMovies \/ (useAPI = true /\ m ∈ apiMovies).
Proof.
  unfold candidatePool. destruct useAPI; [|now left].
  destruct (MovieApi.mergeLocalAndAPIResults _ _) as [merged|] eqn:E; [|now left].
  intros Hm. destruct (MergeKeepFacts.merged_from_inputs _ _ _ m E Hm); auto.
Qed.


(** X22: every recommended movie is a normalized local movie or, with
    [useAPI], one of the API movies; nothing else is ever returned. *)
Theorem recommendations_come_from_the_pool currentYear st apiMovies localMovies favorites
    useAPI limit watchedMovies allMoviesForLookup userRatings :
  match fst (getRecommendedMovies currentYear st apiMovies localMovies favorites useAPI
               limit watchedMovies allMoviesForLookup userRatings) with
  | Resolved l =>
      Forall (fun s => movie s ∈ map normalizeLocal localMovies
                       \/ (useAPI = true /\ movie s ∈ apiMovies)) l
  | Rejected _ => favoriteTitles favorites = None
  end.
Proof.
  destruct (AssemblerFacts.getRecommendedMovies_cases currentYear st apiMovies localMovies
              favorites useAPI limit watchedMovies allMoviesForLookup userRatings)
    as [-> | (preferences & ->)].
  - constructor.
  - destruct (assemble _ _ _ _ _ _ _ _ _) as [l|] eqn:E.
    + destruct (assemble_entries _ _ _ _ _ _ _ _ _ _ E) as (favTitles & _ & _ & H).
      apply Forall_forall. intros s Hs. destruct (H s Hs) as [Hp _].
      now apply candidatePool_elem.
    + pose proof (AssemblerFacts.assemble_shape currentYear preferences apiMovies
                    localMovies favorites useAPI limit watchedMovies allMoviesForLookup)
        as H. now rewrite E in H.
Qed.

End PoolFacts.

(** ** Verification of a returned list *)
Module VerifyFacts.
Import Extractor Assembler Verify.

(** A call that returned a non-empty list ran [assemble] on the profile
    now held by the memoization cache. *)
Lemma nonempty_result currentYear st apiMovies localMovies favorites useAPI limit
    watchedMovies allMoviesForLookup userRatings l st' :
  getRecommendedMovies currentYear st apiMovies localMovies favorites useAPI limit
    watchedMovies allMoviesForLookup userRatings = (Resolved l, st') ->
  l <> [] ->
  exists o,
    assemble currentYear (value o) apiMovies localMovies favorites useAPI limit
      watchedMovies allMoviesForLookup = Resolved l
    /\ extractUserPreferences st' favorites watchedMovies allMoviesForLookup userRatings
       = (o, st').
Proof.
  intros H Hne.
  assert (Hcall : forall o st1,
            extractUserPreferences st favorites watchedMovies allMoviesForLookup userRatings
            = (o, st1) ->
            noSignal (value o) = false ->
            extractUserPreferences st1 favorites watchedMovies allMoviesForLookup userRatings
            = (o, st1)).
  { intros o st1 E Hsig. unfold extractUserPreferences in E.
    destruct (cacheGet (preferencesCache st) (cacheKey favorites watchedMovies userRatings))
      as [o'|] eqn:Hget.
    - injection E as <- <-. unfold extractUserPreferences. now rewrite Hget.
    - destruct (favorites ++ watchedMoviesData watchedMovies allMoviesForLookup)%list
        eqn:Ews.
      + injection E as <- <-. discriminate Hsig.
      + injection E as <- <-. unfold extractUserPreferences at 1.
        cbn [preferencesCache]. now rewrite ExtractorFacts.cacheGet_set. }
  unfold getRecommendedMovies in H.
  destruct (extractUserPreferences st favorites watchedMovies allMoviesForLookup userRatings)
    as [o st1] eqn:E.
  assert (Hbody : (if noSignal (value o) then (Resolved [], st1)
                   else (assemble currentYear (value o) apiMovies localMovies favorites
                           useAPI limit watchedMovies allMoviesForLookup, st1))
                  = (Resolved l, st')).
  { destruct favorites, watchedMovies; try exact H. injection H as <- _. congruence. }
  destruct (noSignal (value o)) eqn:Hsig; [injection Hbody as <- _; congruence|].
  injection Hbody as Ha <-. exists o. split; [exact Ha|now apply Hcall].
Qed.

Lemma existsb_over_map {A B} (f : B -> bool) (g : A -> B) l :
  existsb f (map g l) = existsb (fun x => f (g x)) l.
Proof. induction l as [|x l IH]; [reflexivity|]. cbn. now rewrite IH. Qed.

Lemma existsb_agree {A} (f g : A -> bool) l :
  (forall x, x ∈ l -> f x = g x) -> existsb f l = existsb g l.
Proof.
  induction l as [|x l IH]; intros H; [reflexivity|]. cbn.
  rewrite (H x) by left. rewrite IH; [reflexivity|]. intros y Hy. apply H. now right.
Qed.

Lemma priorityOrder_sorted prev l :
  Sorted.StronglySorted (fun a b => (b <= a)%Q) l ->
  match prev with
  | Some p => Forall (fun s => (s <= p)%Q) l
  | None => True
  end ->
  priorityOrder prev l = true.
Proof.
  revert prev. induction l as [|s l IH]; intros prev Hs Hp; [reflexivity|].
  apply Sorted.StronglySorted_inv in Hs as [Hs Hall].
  assert (Hrest : priorityOrder (Some s) l = true) by (apply IH; assumption).
  cbn [priorityOrder]. destruct prev as [p|]; [|exact Hrest].
  apply Forall_cons in Hp as [Hp _]. apply Qle_bool_iff in Hp. now rewrite Hp.
Qed.

Lemma ranked_scores l :
  Spec.ranked l ->
  Sorted.StronglySorted (fun a b => (b <= a)%Q) (map recommendationScore l).
Proof.
  unfold Spec.ranked. induction 1 as [|a l Hs IH Hall]; cbn [map]; constructor; [exact IH|].
  apply Forall_forall. intros x Hx. apply list_elem_of_fmap in Hx as (b & -> & Hb).
  rewrite Forall_forall in Hall. specialize (Hall b Hb).
  destruct Hall as [H|[H _]]; lra.
Qed.

(** X23: on a non-empty list that [getRecommendedMovies] returned,
    checked in the same year and against the same history, the order check
    and the top-score check of [verifyAlgorithmCorrectness] always pass: the
    verdict is whether one of the first five entries is a genre match rated
    8 or higher. *)
Theorem verdict_on_a_returned_list currentYear st apiMovies localMovies favorites useAPI
    limit watchedMovies allMoviesForLookup userRatings l st' :
  getRecommendedMovies currentYear st apiMovies localMovies favorites useAPI limit
    watchedMovies allMoviesForLookup userRatings = (Resolved l, st') ->
  l <> [] ->
  verifyAlgorithmCorrectness currentYear st' l favorites watchedMovies allMoviesForLookup
    userRatings
  = (existsb (fun s => Scoring.genreHighScore (scoreBreakdown s)) (take 5 l), st').
Proof.
  intros H Hne.
  destruct (nonempty_result _ _ _ _ _ _ _ _ _ _ _ _ H Hne) as (o & Ha & Ho).
  destruct (PoolFacts.assemble_entries _ _ _ _ _ _ _ _ _ _ Ha)
    as (favTitles & _ & Hranked & Hent).
  unfold verifyAlgorithmCorrectness. rewrite Ho.
  destruct l as [|s0 l0] eqn:El; [congruence|]. rewrite <- El in *. clear Hne.
  set (prefs := Scoring.precomputePreferences (value o)) in *.
  assert (Hstored : forall s, s ∈ l ->
            recommendationScore s
            = Scoring.score (Scoring.calculateRecommendationScore currentYear (movie s) prefs)
            /\ scoreBreakdown s
               = Scoring.breakdown
                   (Scoring.calculateRecommendationScore currentYear (movie s) prefs)
            /\ (0 < recommendationScore s)%Q).
  { intros s Hs. destruct (Hent s Hs) as [_ Hsm].
    pose proof (AssemblerFacts.scoreMovie_Some _ _ _ _ _ _ _ _ Hsm) as (_ & _ & _ & Hpos).
    unfold scoreMovie in Hsm. destruct (_ || _)%bool; [discriminate|].
    destruct (Qle_bool _ 0); [discriminate|].
    injection Hsm as Hsm.
    pose proof (f_equal recommendationScore Hsm) as H1.
    pose proof (f_equal scoreBreakdown Hsm) as H2.
    cbn [recommendationScore scoreBreakdown] in H1, H2.
    split; [symmetry; exact H1|]. split; [symmetry; exact H2|exact Hpos]. }
  assert (Htop : forall s, s ∈ take 5 l -> s ∈ l).
  { intros s Hs. eapply elem_of_submseteq; [exact Hs|apply sublist_submseteq, sublist_take]. }
  assert (Hscores : map Scoring.score
                      (map (fun s => Scoring.calculateRecommendationScore currentYear
                                       (movie s) prefs) (take 5 l))
                    = map recommendationScore (take 5 l)).
  { rewrite map_map. apply map_ext_in. intros s Hs.
    apply list_elem_of_In, Htop, Hstored in Hs as [-> _]. reflexivity. }
  rewrite Hscores. f_equal.
  assert (Horder : priorityOrder None (map recommendationScore (take 5 l)) = true).
  { apply priorityOrder_sorted; [|exact I]. apply ranked_scores.
    eapply SortFacts.sublist_sorted; [apply sublist_take|exact Hranked]. }
  rewrite Horder, andb_true_r.
  assert (Hhead : match map (fun s => Scoring.calculateRecommendationScore currentYear
                                        (movie s) prefs) (take 5 l) with
                  | scoring :: _ => negb (Qle_bool (Scoring.score scoring) 0)
                  | [] => false
                  end = true).
  { rewrite El. cbn [take map]. apply negb_true_iff. apply not_true_is_false.
    intros Hle. apply Qle_bool_iff in Hle.
    destruct (Hstored s0) as (Hs & _ & Hpos); [rewrite El; left|].
    rewrite Hs in Hpos. lra. }
  rewrite Hhead, andb_true_r.
  rewrite existsb_over_map. apply existsb_agree.
  intros s Hs. apply Htop, Hstored in Hs as (_ & -> & _). reflexivity.
Qed.

Lemma verdict_on_a_returned_list_witness :
  Samples.directorACall = (Resolved Samples.directorAList, snd Samples.directorACall)
  /\ Samples.directorAList <> []
  /\ verifyAlgorithmCorrectness 2026 (snd Samples.directorACall) Samples.directorAList
       [Fixtures.directorAFavorite] [] [] ∅
     = (existsb (fun s => Scoring.genreHighScore (scoreBreakdown s))
          (take 5 Samples.directorAList), snd Samples.directorACall).
Proof.
  assert (H1 : Samples.directorACall
               = (Resolved Samples.directorAList, snd Samples.directorACall))
    by (vm_compute; reflexivity).
  assert (H2 : Samples.directorAList <> []) by (vm_compute; discriminate).
  split; [exact H1|]. split; [exact H2|].
  exact (verdict_on_a_returned_list 2026 initialState [] (Fixtures.directorAPool 3)
           [Fixtures.directorAFavorite] false 20 [] [] ∅ Samples.directorAList
           (snd Samples.directorACall) H1 H2).
Defined.

End VerifyFacts.

(** ** The API fan-out *)
Module FanOutFacts.
Import CatalogClient FanOut.

Lemma concat_map_length {A B} (f : A -> list B) n l :
  (forall x, length (f x) <= n)%nat ->
  (length (concat (map f l)) <= n * length l)%nat.
Proof.
  intros H. induction l as [|x l IH]; cbn [map concat length]; [lia|].
  rewrite length_app. specialize (H x). lia.
Qed.

Lemma Forall_concat_map {A B} (P : B -> Prop) (f : A -> list B) l :
  (forall x, Forall P (f x)) -> Forall P (concat (map f l)).
Proof.
  intros H. induction l as [|x l IH]; cbn [map concat]; [constructor|].
  apply Forall_app. split; [apply H|exact IH].
Qed.

(** X24: the fan-out yields at most 50 candidates (ten for each of three
    genres, five for each of two directors and two actors), and when the
    cache holds only filtered entries every candidate is released, not
    blocked, not Turkish or Spanish and not a musical. *)
Theorem api_candidates_are_bounded_and_filtered net today now c preferences :
  Spec.cacheSound today c ->
  (length (fetchAPIRecommendations net today now c preferences) <= 50)%nat
  /\ Forall (Spec.passesCommonSteps today)
       (fetchAPIRecommendations net today now c preferences).
Proof.
  intros Hc. unfold fetchAPIRecommendations. split.
  - rewrite !length_app.
    pose proof (concat_map_length
      (fun genre => take 10 (fst (searchMoviesByGenre net today now c genre
                                    (genreOptions preferences))))
      10 (take 3 (Prefs.genres preferences))) as Hg.
    pose proof (concat_map_length
      (fun director => take 5 (fst (searchMoviesByDirector net today now c director)))
      5 (take 2 (Prefs.directors preferences))) as Hd.
    pose proof (concat_map_length
      (fun actor => take 5 (fst (searchMoviesByActor net today now c actor)))
      5 (take 2 (Prefs.actors preferences))) as Ha.
    rewrite !length_take in Hg, Hd, Ha.
    specialize (Hg (fun x => ltac:(rewrite length_take; lia))).
    specialize (Hd (fun x => ltac:(rewrite length_take; lia))).
    specialize (Ha (fun x => ltac:(rewrite length_take; lia))).
    lia.
  - repeat (apply Forall_app; split); apply Forall_concat_map; intros x; apply Forall_take.
    + destruct (CatalogFacts.searchMoviesByGenre_sound net today now c x
                  (genreOptions preferences) Hc) as [H _].
      eapply Forall_impl; [exact H|]. now intros m (_ & Hm & _).
    + apply (CatalogFacts.searchMoviesByDirector_sound net today now c x Hc).
    + apply (CatalogFacts.searchMoviesByActor_sound net today now c x Hc).
Qed.

Lemma api_candidates_are_bounded_and_filtered_witness :
  Spec.cacheSound Fixtures.today []
  /\ (length (fetchAPIRecommendations Fixtures.catalog Fixtures.today 0 []
                (Extractor.computePreferences [Fixtures.directorAFavorite] [] ∅))
      <= 50)%nat.
Proof.
  assert (H : Spec.cacheSound Fixtures.today [])
    by (intros key e Hin; now apply elem_of_nil in Hin).
  split; [exact H|].
  exact (proj1 (api_candidates_are_bounded_and_filtered Fixtures.catalog Fixtures.today 0 []
                  (Extractor.computePreferences [Fixtures.directorAFavorite] [] ∅) H)).
Defined.

End FanOutFacts.

(** ** Movie details *)
Module DetailsFacts.
Import CatalogClient Details.

Lemma idText_forms n id : id ∈ idForms n -> idText id = Js.showZ n.
Proof.
  unfold idForms. intros H.
  repeat (apply elem_of_cons in H as [->|H]); [| |now apply elem_of_nil in H].
  - reflexivity.
  - unfold idText, numericId.
    unfold Js.startsWith. rewrite WatchedFacts.prefix_app. cbn [Js.toString].
    apply WatchedFacts.stripPrefix_app.
Qed.

Lemma forms_accepted n id :
  n <> 0 -> id ∈ idForms n -> Js.truthy (Some id) = true /\ isLocalId id = false.
Proof.
  unfold idForms. intros Hn H.
  repeat (apply elem_of_cons in H as [->|H]); [| |now apply elem_of_nil in H].
  - cbn. split; [|reflexivity]. apply negb_true_iff. now apply Z.eqb_neq.
  - split; reflexivity.
Qed.

(** X25: the details fetched under one form of a catalog id, the number
    or the prefixed string, are served from the cache to a request under
    either form for the next five minutes, without asking the catalog. *)
Theorem details_are_shared_between_id_forms fetchDetails fetchDetails' now now' c n data
    id id' :
  n <> 0 -> id ∈ idForms n -> id' ∈ idForms n ->
  fst (TimedCache.getCached now c (Js.showZ n)) = None ->
  fetchDetails (Js.showZ n) = Ok data ->
  now' - now < CACHE_DURATION ->
  fst (getMovieDetails fetchDetails now c (Some id))
  = Some (Convert.convertTMDBToMovieFormat data)
  /\ fst (getMovieDetails fetchDetails' now'
            (snd (getMovieDetails fetchDetails now c (Some id))) (Some id'))
     = Some (Convert.convertTMDBToMovieFormat data).
Proof.
  intros Hn Hid Hid' Hmiss Hok Hlive.
  destruct (forms_accepted n id Hn Hid) as [Ht Hl].
  destruct (forms_accepted n id' Hn Hid') as [Ht' Hl'].
  unfold getMovieDetails. rewrite Ht, Ht', Hl, Hl'. cbn [negb].
  rewrite (idText_forms n id Hid), (idText_forms n id' Hid').
  destruct (TimedCache.getCached now c (Js.showZ n)) as [[cached|] c1] eqn:Eg;
    [discriminate|].
  rewrite Hok. cbn [fst snd]. split; [reflexivity|].
  unfold TimedCache.getCached, TimedCache.setCache. cbn [find fst].
  rewrite (bool_decide_eq_true_2 (Js.showZ n = Js.showZ n) eq_refl).
  cbn [TimedCache.timestamp TimedCache.data].
  apply Z.ltb_lt in Hlive. now rewrite Hlive.
Qed.

Lemma details_are_shared_between_id_forms_witness :
  771 <> 0
  /\ Js.Num 771 ∈ idForms 771
  /\ Js.Str ("tmdb_" ++ Js.showZ 771) ∈ idForms 771
  /\ fst (TimedCache.getCached 0 ([] : Cache) (Js.showZ 771)) = None
  /\ Ok Fixtures.homeAlone = Ok Fixtures.homeAlone
  /\ 1000 - 0 < CACHE_DURATION
  /\ fst (getMovieDetails (fun _ => NetworkError) 1000
            (snd (getMovieDetails (fun _ => Ok Fixtures.homeAlone) 0 [] (Some (Js.Num 771))))
            (Some (Js.Str ("tmdb_" ++ Js.showZ 771))))
     = Some (Convert.convertTMDBToMovieFormat Fixtures.homeAlone).
Proof.
  assert (H1 : 771 <> 0) by discriminate.
  assert (H2 : Js.Num 771 ∈ idForms 771) by left.
  assert (H3 : Js.Str ("tmdb_" ++ Js.showZ 771) ∈ idForms 771) by (right; left).
  assert (H4 : fst (TimedCache.getCached 0 ([] : Cache) (Js.showZ 771)) = None)
    by reflexivity.
  assert (H5 : @Ok Tmdb.t Fixtures.homeAlone = Ok Fixtures.homeAlone) by reflexivity.
  assert (H6 : 1000 - 0 < CACHE_DURATION) by (vm_compute; reflexivity).
  split; [exact H1|]. split; [exact H2|]. split; [exact H3|]. split; [exact H4|].
  split; [exact H5|]. split; [exact H6|].
  exact (proj2 (details_are_shared_between_id_forms (fun _ => Ok Fixtures.homeAlone)
                  (fun _ => NetworkError) 0 1000 [] 771 Fixtures.homeAlone (Js.Num 771)
                  (Js.Str ("tmdb_" ++ Js.showZ 771)) H1 H2 H3 H4 H5 H6)).
Defined.

End DetailsFacts.

(** ** Watch providers *)
Module ProviderFacts.
Import CatalogClient Providers.

Lemma subscription_allowed name :
  isAllowedSubscriptionProvider name = true -> isAllowedProvider name = true.
Proof.
  unfold isAllowedSubscriptionProvider, isAllowedProvider. rewrite !existsb_exists.
  intros (a & Ha & H). exists a. split; [|exact H].
  unfold allowedSubscriptionProviders, allowedProviders in *. cbn in *. tauto.
Qed.

Lemma filterProviders_allowed l :
  Forall (fun p => isAllowedProvider (provider_name p) = true) (filterProviders l).
Proof.
  apply Forall_forall. intros p Hp. apply list_elem_of_In, filter_In in Hp as [_ Hp].
  now apply andb_true_iff in Hp as [_ Hp].
Qed.

Lemma filterSubscriptionProviders_allowed l :
  Forall (fun p =>
            isAllowedProvider (provider_name p) = true
            /\ Js.includes (nameLower (provider_name p)) "apple tv" = false
            /\ Js.includes (nameLower (provider_name p)) "itunes" = false)
         (filterSubscriptionProviders l).
Proof.
  apply Forall_forall. intros p Hp. apply list_elem_of_In, filter_In in Hp as [_ Hp].
  cbv zeta in Hp.
  destruct (negb (Js.nonEmpty (provider_name p))); [discriminate|].
  destruct (Js.includes _ "apple tv"); [discriminate|].
  destruct (Js.includes _ "itunes"); [discriminate|].
  cbn [orb] in Hp. split; [now apply subscription_allowed|]. split; reflexivity.
Qed.

(** X26: a provider object fetched from the catalog is never empty, lists
    only providers whose name contains one of the allowed names, and lists
    neither Apple TV nor iTunes among the subscriptions. *)
Theorem fetched_providers_are_allowed fetchProviders now c movieId providers :
  (forall key, fst (TimedCache.getCached now c key) = None) ->
  fst (getWatchProviders fetchProviders now c movieId) = Some providers ->
  (rent providers ++ buy providers ++ flatrate providers)%list <> []
  /\ Forall (fun p => isAllowedProvider (provider_name p) = true)
       (rent providers ++ buy providers ++ flatrate providers)
  /\ Forall (fun p => Js.includes (nameLower (provider_name p)) "apple tv" = false
                      /\ Js.includes (nameLower (provider_name p)) "itunes" = false)
       (flatrate providers).
Proof.
  intros Hcold. unfold getWatchProviders.
  destruct movieId as [id|]; [|discriminate].
  destruct (negb (Js.truthy (Some id))); [discriminate|].
  destruct (Details.isLocalId id); [discriminate|].
  specialize (Hcold (Details.idText id)).
  destruct (TimedCache.getCached now c (Details.idText id)) as [[cached|] c'];
    [discriminate|].
  destruct (fetchProviders _) as [regions| | |]; try discriminate.
  unfold providersOf. destruct (selectedRegion regions) as [region|]; [|discriminate].
  set (r := filterProviders (default [] (region_rent region))).
  set (b := filterProviders (default [] (region_buy region))).
  set (f := filterSubscriptionProviders (default [] (region_flatrate region))).
  assert (Hr : Forall (fun p => isAllowedProvider (provider_name p) = true) r)
    by apply filterProviders_allowed.
  assert (Hb : Forall (fun p => isAllowedProvider (provider_name p) = true) b)
    by apply filterProviders_allowed.
  pose proof (filterSubscriptionProviders_allowed (default [] (region_flatrate region)))
    as Hf. fold f in Hf.
  assert (Hres : forall p, Some {| rent := r; buy := b; flatrate := f |} = Some p ->
            (rent p ++ buy p ++ flatrate p)%list <> [] ->
            (rent p ++ buy p ++ flatrate p)%list <> []
            /\ Forall (fun q => isAllowedProvider (provider_name q) = true)
                 (rent p ++ buy p ++ flatrate p)
            /\ Forall (fun q => Js.includes (nameLower (provider_name q)) "apple tv" = false
                                /\ Js.includes (nameLower (provider_name q)) "itunes" = false)
                 (flatrate p)).
  { intros p [= <-] Hne. cbn [rent buy flatrate] in *. split; [exact Hne|]. split.
    - repeat (apply Forall_app; split); try assumption.
      eapply Forall_impl; [exact Hf|]. now intros q (H & _).
    - eapply Forall_impl; [exact Hf|]. now intros q (_ & H). }
  cbn [rent buy flatrate].
  destruct r as [|r0 r'], b as [|b0 b'], f as [|f0 f']; cbn [fst]; try discriminate;
    intros H; apply Hres; try exact H; injection H as <-; discriminate.
Qed.

Lemma fetched_providers_are_allowed_witness :
  (forall key, fst (TimedCache.getCached 0 ([] : Cache) key) = None)
  /\ fst (getWatchProviders (fun _ => Ok Samples.twoRegions) 0 [] (Some (Js.Num 771)))
     = Some {| rent := []; buy := []; flatrate := [Samples.netflix] |}
  /\ Forall (fun p => Js.includes (nameLower (provider_name p)) "apple tv" = false
                      /\ Js.includes (nameLower (provider_name p)) "itunes" = false)
       [Samples.netflix].
Proof.
  assert (H1 : forall key, fst (TimedCache.getCached 0 ([] : Cache) key) = None)
    by (intros key; reflexivity).
  assert (H2 : fst (getWatchProviders (fun _ => Ok Samples.twoRegions) 0 []
                      (Some (Js.Num 771)))
               = Some {| rent := []; buy := []; flatrate := [Samples.netflix] |})
    by reflexivity.
  split; [exact H1|]. split; [exact H2|].
  exact (proj2 (proj2 (fetched_providers_are_allowed (fun _ => Ok Samples.twoRegions) 0 []
                         (Some (Js.Num 771)) _ H1 H2))).
Defined.

End ProviderFacts.

(** ** The onboarding selection *)
Module OnboardingFacts.
Import CatalogClient Onboarding.

Section Selection.
Variable fetchPage : Z -> Fetch (list Tmdb.t).
Variable shuffle : nat -> list Movie.t -> list Movie.t.
Variables (today : IsoDate) (now : Z).
Hypothesis shuffle_perm : forall n l, Permutation (shuffle n l) l.









End Selection.



End OnboardingFacts.

(** ** The pipeline steps of each catalog operation *)
Module PipelineFacts.
Import CatalogClient.




End PipelineFacts.

(** ** The state updates of the views *)
Module AppFacts.
Import Extractor Assembler AppState.

(** *** Ratings *)

Lemma clamp_range r : ((1 # 2) <= Js.max (1 # 2) (Js.min 5 r) /\ Js.max (1 # 2) (Js.min 5 r) <= 5)%Q.
Proof.
  unfold Js.max, Js.min.
  destruct (Qle_bool 5 r) eqn:E1.
  - destruct (Qle_bool (1 # 2) 5) eqn:E2; split; lra.
  - destruct (Qle_bool (1 # 2) r) eqn:E2.
    + apply Qle_bool_iff in E2. split; [exact E2|].
      apply Qlt_le_weak, Qnot_le_lt. intros H. apply Qle_bool_iff in H. congruence.
    + split; lra.
Qed.

Lemma rateUpdate_range key rating prevRatings :
  ratingsInRange prevRatings -> ratingsInRange (rateUpdate key rating prevRatings).
Proof.
  intros H k r. unfold rateUpdate.
  assert (Hdel : delete key prevRatings !! k = Some r -> ((1 # 2) <= r /\ r <= 5)%Q).
  { intros Hk. apply lookup_delete_Some in Hk as [_ Hk]. exact (H k r Hk). }
  destruct rating as [q|]; [|exact Hdel].
  destruct (Qeq_bool q 0 || negb (Qle_bool (1 # 2) q))%bool; [exact Hdel|].
  destruct (decide (key = k)) as [->|Hne].
  - rewrite lookup_insert_eq. intros [= <-]. apply clamp_range.
  - rewrite lookup_insert_ne by assumption. apply H.
Qed.

Lemma filter_all {A} (f : A -> bool) l : (forall x, x ∈ l -> f x = true) -> List.filter f l = l.
Proof.
  induction l as [|x l IH]; intros H; [reflexivity|]. cbn.
  rewrite (H x) by left. f_equal. apply IH. intros y Hy. apply H. now right.
Qed.

Lemma inRange_all_counted userRatings :
  ratingsInRange userRatings ->
  userRatingValues userRatings = map snd (map_to_list userRatings).
Proof.
  intros H. unfold userRatingValues. apply filter_all. intros r Hr.
  apply list_elem_of_fmap in Hr as ([k q] & -> & Hkq). apply elem_of_map_to_list in Hkq.
  destruct (H k q Hkq) as [H1 H2]. cbn [snd].
  apply Qle_bool_iff in H1, H2. now rewrite H1, H2.
Qed.

(** X28: a rating given through the star widget lies between 0.5 and 5,
    and the rating update keeps every stored rating in that range, so the
    profile extractor counts each stored rating and drops none. *)
Theorem stored_ratings_are_all_counted key rating prevRatings :
  ratingsInRange prevRatings ->
  ratingsInRange (rateUpdate key rating prevRatings)
  /\ userRatingValues (rateUpdate key rating prevRatings)
     = map snd (map_to_list (rateUpdate key rating prevRatings))
  /\ (forall starValue isHalf r,
        handleStarClick false starValue isHalf = Some r -> ((1 # 2) <= r /\ r <= 5)%Q).
Proof.
  intros H. pose proof (rateUpdate_range key rating prevRatings H) as H'.
  split; [exact H'|]. split; [now apply inRange_all_counted|].
  intros starValue isHalf r. unfold handleStarClick. intros [= <-]. apply clamp_range.
Qed.

Lemma stored_ratings_are_all_counted_witness :
  ratingsInRange ∅
  /\ userRatingValues (rateUpdate "tmdb_771" (Some (9 # 2)%Q) ∅)
     = map snd (map_to_list (rateUpdate "tmdb_771" (Some (9 # 2)%Q) ∅)).
Proof.
  assert (H : ratingsInRange ∅) by (intros key r Hk; now rewrite lookup_empty in Hk).
  split; [exact H|].
  exact (proj1 (proj2 (stored_ratings_are_all_counted "tmdb_771" (Some (9 # 2)%Q) ∅ H))).
Defined.

(** *** The watched list *)

Lemma watched_entry_matches watchedMovies allMoviesForLookup m :
  isMovieWatched watchedMovies m = true ->
  isWatched (watchedIds watchedMovies) (watchedTitles watchedMovies allMoviesForLookup) m
  = true.
Proof.
  unfold isMovieWatched. destruct (Js.truthy (Movie.id m)) eqn:Ht; [|discriminate].
  cbn [negb]. intros H.
  assert (Hentry : exists w, w ∈ watchedMovies /\ watchedIdString w = movieId m).
  { unfold movieId. rewrite Ht.
    apply orb_true_iff in H as [H|H]; apply existsb_exists in H as (w & Hw & Hm);
      exists w; (split; [now apply list_elem_of_In|]); destruct w as [i|o]; try discriminate;
      apply bool_decide_eq_true in Hm; cbn [watchedIdString].
    - now rewrite Hm.
    - rewrite Hm. unfold Js.orElse. now rewrite Ht. }
  destruct Hentry as (w & Hw & Hid).
  assert (Hhas : Js.has (watchedIds watchedMovies) (movieId m) = true).
  { apply AssemblerFacts.has_elem. rewrite <- Hid. unfold watchedIds.
    apply list_elem_of_fmap. now exists w. }
  unfold isWatched. now rewrite Hhas.
Qed.

(** X29: a movie the views show as watched is never recommended: what
    [isMovieWatched] accepts, the exclusion test of the recommender
    accepts as well. *)
Theorem shown_as_watched_is_never_recommended currentYear st apiMovies localMovies favorites
    useAPI limit watchedMovies allMoviesForLookup userRatings m :
  isMovieWatched watchedMovies m = true ->
  match fst (getRecommendedMovies currentYear st apiMovies localMovies favorites useAPI
               limit watchedMovies allMoviesForLookup userRatings) with
  | Resolved l => Forall (fun s => movie s <> m) l
  | Rejected _ => favoriteTitles favorites = None
  end.
Proof.
  intros Hw.
  destruct (AssemblerFacts.getRecommendedMovies_cases currentYear st apiMovies localMovies
              favorites useAPI limit watchedMovies allMoviesForLookup userRatings)
    as [-> | (preferences & ->)].
  - constructor.
  - destruct (assemble _ _ _ _ _ _ _ _ _) as [l|] eqn:E.
    + destruct (PoolFacts.assemble_entries _ _ _ _ _ _ _ _ _ _ E) as (favTitles & _ & _ & H).
      apply Forall_forall. intros s Hs Hm. destruct (H s Hs) as [_ Hsm].
      apply AssemblerFacts.scoreMovie_Some in Hsm as (_ & _ & Hnw & _).
      rewrite Hm, (watched_entry_matches _ allMoviesForLookup m Hw) in Hnw. discriminate.
    + pose proof (AssemblerFacts.assemble_shape currentYear preferences apiMovies
                    localMovies favorites useAPI limit watchedMovies allMoviesForLookup)
        as H. now rewrite E in H.
Qed.

Lemma shown_as_watched_is_never_recommended_witness :
  isMovieWatched [WId (Js.Str "tmdb_603")] Fixtures.matrixFromCatalog = true
  /\ match fst (getRecommendedMovies 2026 initialState [Fixtures.matrixFromCatalog] []
                  [Fixtures.matrixFavorite] true 20 [WId (Js.Str "tmdb_603")] [] ∅) with
     | Resolved l => Forall (fun s => movie s <> Fixtures.matrixFromCatalog) l
     | Rejected _ => favoriteTitles [Fixtures.matrixFavorite] = None
     end.
Proof.
  assert (H : isMovieWatched [WId (Js.Str "tmdb_603")] Fixtures.matrixFromCatalog = true)
    by reflexivity.
  split; [exact H|].
  apply (shown_as_watched_is_never_recommended 2026 initialState
           [Fixtures.matrixFromCatalog] [] [Fixtures.matrixFavorite] true 20
           [WId (Js.Str "tmdb_603")] [] ∅ Fixtures.matrixFromCatalog); exact H.
Defined.

Lemma existsb_filter_out {A} (f g : A -> bool) l :
  (forall x, f x = true -> g x = false) -> existsb f (List.filter g l) = false.
Proof.
  intros H. induction l as [|x l IH]; [reflexivity|]. cbn [List.filter].
  destruct (g x) eqn:Eg; [|exact IH]. cbn [existsb]. rewrite IH, orb_false_r.
  destruct (f x) eqn:Ef; [|reflexivity]. rewrite (H x Ef) in Eg. discriminate.
Qed.

Lemma existsb_filter_kept {A} (f g : A -> bool) l :
  (forall x, f x = true -> g x = true) -> existsb f (List.filter g l) = existsb f l.
Proof.
  intros H. induction l as [|x l IH]; [reflexivity|]. cbn [List.filter existsb].
  destruct (g x) eqn:Eg; cbn [existsb]; rewrite IH; [reflexivity|].
  destruct (f x) eqn:Ef; [|reflexivity]. rewrite (H x Ef) in Eg. discriminate.
Qed.

(** X30: for a movie with an id, [toggleWatched] flips what
    [isMovieWatched] answers, and a rating marks the movie as watched. *)
Theorem toggle_flips_the_watched_mark movie prevWatched :
  Js.truthy (Movie.id movie) = true ->
  isMovieWatched (toggleWatchedUpdate movie prevWatched) movie
  = negb (isMovieWatched prevWatched movie)
  /\ isMovieWatched (markWatchedUpdate movie prevWatched) movie = true.
Proof.
  intros Ht.
  assert (Hadd : isMovieWatched (withMovie movie prevWatched) movie = true).
  { unfold isMovieWatched, withMovie. rewrite Ht. cbn [negb].
    destruct (Movie.id movie) as [id|]; [|discriminate].
    rewrite existsb_app. cbn [existsb].
    rewrite (bool_decide_eq_true_2 (Some id = Some id) eq_refl).
    now rewrite !orb_true_r. }
  unfold toggleWatchedUpdate, markWatchedUpdate.
  destruct (isMovieWatched prevWatched movie) eqn:Ew; cbn [negb]; [|now split].
  split; [|exact Ew].
  unfold isMovieWatched, withoutMovie. rewrite Ht. cbn [negb].
  rewrite existsb_filter_kept, !existsb_filter_out; [reflexivity| | |].
  - intros [i|m] H; [discriminate|]. now rewrite H.
  - intros [i|m] H; [|discriminate]. now rewrite H.
  - intros [i|m] H; [reflexivity|discriminate].
Qed.

Lemma toggle_flips_the_watched_mark_witness :
  Js.truthy (Movie.id Fixtures.matrixFromCatalog) = true
  /\ isMovieWatched (toggleWatchedUpdate Fixtures.matrixFromCatalog []) Fixtures.matrixFromCatalog
     = negb (isMovieWatched [] Fixtures.matrixFromCatalog).
Proof.
  assert (H : Js.truthy (Movie.id Fixtures.matrixFromCatalog) = true) by reflexivity.
  split; [exact H|].
  exact (proj1 (toggle_flips_the_watched_mark Fixtures.matrixFromCatalog [] H)).
Defined.

End AppFacts.
